(** * monitor_disk_space: a shallow embedding of [monitor_disk_space.py]

    The development follows the Python source function by function.
    Python [int] is [Z]; a [str] is a [string] whose characters stand for
    code points below 256; a [dict] read from JSON is a [gmap] from keys to
    JSON values; [None] is the [None] of [option].  Exceptions are explicit
    result constructors.  The wall clock, the disk query and the HTTP call
    are the environment and enter as arguments. *)

From Stdlib Require Import QArith ZArith List Bool Ascii String Sorted Lia.
From stdpp Require Import base option strings gmap pretty.

Import ListNotations.
Local Open Scope string_scope.
Local Open Scope Z_scope.

(** ** Python string primitives *)

Module PyStr.

(** [str.isspace] on one character: the code points below 256 that
    Python regards as whitespace.  It is the set that [str.strip()] removes
    and that [\s] matches. *)
Definition is_space (c : ascii) : bool :=
  let n := N_of_ascii c in
  ((9 <=? n) && (n <=? 13) || (28 <=? n) && (n <=? 32)
   || (n =? 133) || (n =? 160))%N.

(** The whitespace that [int()] skips around a literal: the ASCII
    whitespace of C, and the whitespace above code point 127 (the
    separators 28 to 31 are not skipped). *)
Definition is_int_space (c : ascii) : bool :=
  let n := N_of_ascii c in
  ((9 <=? n) && (n <=? 13) || (n =? 32) || (n =? 133) || (n =? 160))%N.

Definition is_digit (c : ascii) : bool :=
  let n := N_of_ascii c in ((48 <=? n) && (n <=? 57))%N.

Definition digit_value (c : ascii) : Z := Z.of_N (N_of_ascii c) - 48.

Definition is_empty (s : string) : bool :=
  match s with EmptyString => true | String _ _ => false end.

(** [s.lstrip()] and [s.rstrip()] over a character class. *)
Fixpoint lstrip_with (p : ascii -> bool) (s : string) : string :=
  match s with
  | EmptyString => EmptyString
  | String c r => if p c then lstrip_with p r else s
  end.

Fixpoint rstrip_with (p : ascii -> bool) (s : string) : string :=
  match s with
  | EmptyString => EmptyString
  | String c r =>
      let r' := rstrip_with p r in
      if p c && is_empty r' then EmptyString else String c r'
  end.

Definition strip_with (p : ascii -> bool) (s : string) : string :=
  rstrip_with p (lstrip_with p s).

(** [s.strip()] *)
Definition strip (s : string) : string := strip_with is_space s.

(** [s.replace(a, b)] for a one-character [a]. *)
Fixpoint replace (a : ascii) (b : string) (s : string) : string :=
  match s with
  | EmptyString => EmptyString
  | String c r =>
      if Ascii.eqb c a then b ++ replace a b r else String c (replace a b r)
  end.

(** [s.upper()] on the letters a-z.  The other characters are kept as
    they are: Python changes some above code point 127, into characters
    that the size pattern rejects just as it rejects the originals
    ([unicode_parse_size_below_256] proves that [_parse_size] does not see
    the difference). *)
Definition upper_char (c : ascii) : ascii :=
  let n := N_of_ascii c in
  if ((97 <=? n) && (n <=? 122))%N then ascii_of_N (n - 32) else c.

Fixpoint upper (s : string) : string :=
  match s with
  | EmptyString => EmptyString
  | String c r => String (upper_char c) (upper r)
  end.

(** [c in s] for a one-character [c]. *)
Fixpoint contains (c : ascii) (s : string) : bool :=
  match s with
  | EmptyString => false
  | String d r => Ascii.eqb d c || contains c r
  end.

(** [s[i] == c], false when [i] is out of range (the source only indexes
    behind a length guard). *)
Definition char_at_is (i : nat) (c : ascii) (s : string) : bool :=
  match String.get i s with
  | Some d => Ascii.eqb d c
  | None => false
  end.

(** The part of [s] before the first [sep], and the rest after it when
    there is one. *)
Fixpoint cut (sep : ascii) (s : string) : string * option string :=
  match s with
  | EmptyString => (EmptyString, None)
  | String c r =>
      if Ascii.eqb c sep then (EmptyString, Some r)
      else let '(h, t) := cut sep r in (String c h, t)
  end.

(** [s.split(sep, maxsplit)] for a one-character [sep]. *)
Fixpoint split (sep : ascii) (maxsplit : nat) (s : string) : list string :=
  match maxsplit with
  | O => [s]
  | S m =>
      match cut sep s with
      | (h, None) => [h]
      | (h, Some t) => h :: split sep m t
      end
  end.

(** [sep.join(parts)] *)
Fixpoint join (sep : string) (parts : list string) : string :=
  match parts with
  | [] => EmptyString
  | [p] => p
  | p :: rest => p ++ sep ++ join sep rest
  end.

(** Digits with single underscores between them, as [int()] accepts
    after the sign: [acc] is the value so far, [prev_digit] tells whether
    the previous character was a digit. *)
Fixpoint int_digits (acc : Z) (prev_digit : bool) (s : string) : option Z :=
  match s with
  | EmptyString => if prev_digit then Some acc else None
  | String c r =>
      if is_digit c then int_digits (10 * acc + digit_value c) true r
      else if Ascii.eqb c "_" && prev_digit then
        match r with
        | String d _ => if is_digit d then int_digits acc false r else None
        | EmptyString => None
        end
      else None
  end.

(** [int(s)]: [Some v] for a literal, [None] for [ValueError].  (The
    limit that Python 3.11 puts on the length of a literal, 4300 digits by
    default, is not modelled.) *)
Definition int (s : string) : option Z :=
  match strip_with is_int_space s with
  | String "-" r => Z.opp <$> int_digits 0 false r
  | String "+" r => int_digits 0 false r
  | t => int_digits 0 false t
  end.

End PyStr.

(** ** Python exceptions and results *)

Inductive exn : Type :=
| ValueError
| OverflowError
| ZeroDivisionError
| TypeError
| AttributeError
| FileNotFoundError
| JSONDecodeError
| OSError.

Inductive result (A : Type) : Type :=
| Ok (a : A)
| Raise (e : exn).

Arguments Ok {A} a.
Arguments Raise {A} e.

(** ** Python floats

    A [float] is an IEEE 754 binary64 number.  The program only forms
    non-negative ones (sizes, ratios of sizes), so a float is modelled by
    its exact rational value, or [Inf] for positive infinity.  Every
    operation computes the exact result and rounds it to the nearest
    binary64 number, ties to even, as the hardware does. *)

Module PyFloat.

Inductive t : Type :=
| Fin (q : Q)
| Inf.

(** The rational [n / d] ([0 <= n], [0 < d]) rounded to 53 significant
    bits, with the exponent not below that of the subnormal numbers:
    the result is [m * 2^e]. *)
Definition round_parts (n d : Z) : Z * Z :=
  let e0 := Z.log2 n - Z.log2 d - 53 in
  let scaled e := if e <? 0 then (n * 2 ^ (- e), d) else (n, d * 2 ^ e) in
  let e1 := if (2 ^ 53 <=? fst (scaled e0) / snd (scaled e0)) then e0 + 1 else e0 in
  let e := Z.max e1 (-1074) in
  let '(n', d') := scaled e in
  let m := n' / d' in
  let r := n' mod d' in
  let m' := if (d' <? 2 * r) || ((d' =? 2 * r) && Z.odd m) then m + 1 else m in
  (m', e).

Definition of_parts (me : Z * Z) : t :=
  let '(m, e) := me in
  if e <? 0 then
    Fin (Qred (Qmake m (Z.to_pos (2 ^ (- e)))))
  else if 2 ^ 1024 <=? m * 2 ^ e then Inf
  else Fin (inject_Z (m * 2 ^ e)).

(** Round a non-negative rational to binary64. *)
Definition round (q : Q) : t :=
  if Qnum q =? 0 then Fin 0%Q
  else of_parts (round_parts (Qnum q) (Z.pos (Qden q))).

(** [float(n)] for a non-negative [int]. *)
Definition of_int (n : Z) : t := round (inject_Z n).

(** [a * b] on floats. *)
Definition mul (a b : t) : t :=
  match a, b with
  | Fin x, Fin y => round (x * y)%Q
  | _, _ => Inf
  end.

(** [a / d] for a float [a] and a positive constant [d]. *)
Definition div_by (a : t) (d : Q) : t :=
  match a with
  | Fin x => round (x / d)%Q
  | Inf => Inf
  end.

(** [a / b] on two [int]s (true division, correctly rounded). *)
Definition int_truediv (a b : Z) : option t :=
  if b =? 0 then None else Some (round (Qmake a (Z.to_pos b))).

(** [a < b] *)
Definition ltb (a b : t) : bool :=
  match a, b with
  | Fin x, Fin y => negb (Qle_bool y x)
  | Fin _, Inf => true
  | Inf, _ => false
  end.

(** [int(x)]: truncation; [OverflowError] on infinity. *)
Definition to_int (x : t) : result Z :=
  match x with
  | Fin q => Ok (Qnum q / Z.pos (Qden q))
  | Inf => Raise OverflowError
  end.

(** The decimal digits of [n], left-padded with zeros to [width]. *)
Definition zero_pad (width : nat) (n : Z) : string :=
  let s := pretty n in
  String.concat "" (repeat "0" (width - String.length s)) ++ s.

(** [f"{x:.{digits}f}"]: the exact value rounded to [digits] decimals,
    ties to even. *)
Definition format_fixed (digits : nat) (x : t) : string :=
  match x with
  | Inf => "inf"
  | Fin q =>
      let scale := 10 ^ Z.of_nat digits in
      let n := Qnum q * scale in
      let d := Z.pos (Qden q) in
      let m := n / d in
      let r := n mod d in
      let m' := if (d <? 2 * r) || ((d =? 2 * r) && Z.odd m) then m + 1 else m in
      match digits with
      | O => pretty m'
      | S _ => pretty (m' / scale) ++ "." ++ zero_pad digits (m' mod scale)
      end
  end.

(** [float(s)] for [s] a run of digits with an optional fraction, the
    only literals [_parse_size] passes on. *)
Definition digits_value (s : string) : Z :=
  default 0 (PyStr.int_digits 0 false s).

Definition of_decimal (int_part : string) (frac_part : option string) : t :=
  match frac_part with
  | None => round (inject_Z (digits_value int_part))
  | Some f =>
      let scale := 10 ^ Z.of_nat (String.length f) in
      round (Qmake (digits_value int_part * scale + digits_value f) (Z.to_pos scale))
  end.

End PyFloat.

(** ** The monitor: configuration *)

(** One element of the [drives] list of the settings: a JSON object with
    the fields it has, or some other JSON value.  A field is [Some] of
    its string, and [None] when the key is missing or its value is [null],
    0, [false] or an empty list or object, all of which [not] takes for
    true as it does the missing key.  [ThresholdNotAString] is an object
    whose [minimum_disk_space] is any other value that is no string (a
    number other than 0, [true], a list or an object that is not empty).
    A path of that kind is not among these values. *)
Inductive drive_config : Type :=
| DriveObject (path : option string) (minimum_disk_space : option string)
| NotAnObject
| ThresholdNotAString (path : option string).

(** The settings dictionary, by the keys the program reads
    ([config.get(...)] gives [None] for a missing key): the token and
    the user key are strings, the cap is an integer and [drives] is a
    list, where the key is there.  Settings that give one of these keys a
    value of another type are not among these records. *)
Record config : Type := {
  cfg_pushover_token : option string;
  cfg_pushover_user : option string;
  cfg_max_push_notifications_per_day : option Z;
  cfg_drives : list drive_config
}.

(** A parsed drive: [{"path": path, "minimum_bytes": minimum_bytes}]. *)
Record drive : Type := {
  drive_path : string;
  minimum_bytes : Z
}.

(** The fields of a [DiskSpaceMonitor] that the check uses. *)
Record monitor : Type := {
  pushover_token : string;
  pushover_user : string;
  max_push_notifications_per_day : option Z;
  drives : list drive
}.

(** [not x] for an optional string: [None] and the empty string are falsy. *)
Definition falsy (x : option string) : bool :=
  match x with
  | None => true
  | Some s => PyStr.is_empty s
  end.

(** ** [_parse_size] *)

(** The longest prefix of [s] whose characters satisfy [p], and the rest. *)
Fixpoint span (p : ascii -> bool) (s : string) : string * string :=
  match s with
  | EmptyString => (EmptyString, EmptyString)
  | String c r =>
      if p c then let '(a, b) := span p r in (String c a, b)
      else (EmptyString, s)
  end.

Definition is_prefix_letter (c : ascii) : bool :=
  Ascii.eqb c "K" || Ascii.eqb c "M" || Ascii.eqb c "G" || Ascii.eqb c "T".

(** The optional group [(?:\.\d+)?]: the fraction digits when a dot
    and at least one digit follow, and what is left to match. *)
Definition match_fraction (r : string) : option string * string :=
  match r with
  | String c r' =>
      if Ascii.eqb c "." then
        let '(fs, r'') := span PyStr.is_digit r' in
        if PyStr.is_empty fs then (None, r) else (Some fs, r'')
      else (None, r)
  | EmptyString => (None, r)
  end.

(** Group 2, [[KMGT]?B?], and what is left to match. *)
Definition match_unit (r : string) : string * string :=
  let '(u1, r3) :=
    match r with
    | String c r' =>
        if is_prefix_letter c then (String c EmptyString, r')
        else (EmptyString, r)
    | EmptyString => (EmptyString, r)
    end in
  let '(u2, r4) :=
    match r3 with
    | String c r' => if Ascii.eqb c "B" then ("B", r') else (EmptyString, r3)
    | EmptyString => (EmptyString, r3)
    end in
  (u1 ++ u2, r4).

(** [re.match(r"^(\d+(?:\.\d+)?)\s*([KMGT]?B?)$", s)]: the integer digits,
    the fraction digits when there are some, and group 2.  The matcher
    reads the string from left to right, each piece taking as much as it
    can: giving a character back never helps, since no later piece of the
    pattern accepts it, except a final newline, which [$] lets stand and
    which is accepted here as well. *)
Definition match_size (s : string) : option (string * option string * string) :=
  let '(ds, r) := span PyStr.is_digit s in
  if PyStr.is_empty ds then None
  else
    let '(fr, r1) := match_fraction r in
    let '(_, r2) := span PyStr.is_space r1 in
    let '(unit, r4) := match_unit r2 in
    if PyStr.is_empty r4 || String.eqb r4 (String "010" EmptyString)
    then Some (ds, fr, unit)
    else None.

Definition unit_multiplier (unit : string) : option Z :=
  if String.eqb unit "B" || String.eqb unit "" then Some 1
  else if String.eqb unit "KB" then Some 1024
  else if String.eqb unit "MB" then Some (1024 ^ 2)
  else if String.eqb unit "GB" then Some (1024 ^ 3)
  else if String.eqb unit "TB" then Some (1024 ^ 4)
  else None.

Definition _parse_size (size_str : string) : result Z :=
  let size_str := PyStr.upper (PyStr.strip size_str) in
  match match_size size_str with
  | None => Raise ValueError
  | Some (int_part, frac_part, unit) =>
      let value := PyFloat.of_decimal int_part frac_part in
      match unit_multiplier unit with
      | None => Raise ValueError
      | Some multiplier =>
          PyFloat.to_int (PyFloat.mul value (PyFloat.of_int multiplier))
      end
  end.

(** ** [_parse_drives_config] and [__init__] *)

Fixpoint _parse_drives_config (drives_config : list drive_config) : result (list drive) :=
  match drives_config with
  | [] => Ok []
  | NotAnObject :: _ => Raise ValueError
  | ThresholdNotAString path :: _ =>
      (* [size_str.strip()] on a value that is no string *)
      if falsy path then Raise ValueError else Raise AttributeError
  | DriveObject path minimum_str :: rest =>
      if falsy path then Raise ValueError
      else if falsy minimum_str then Raise ValueError
      else
        match _parse_size (default "" minimum_str) with
        | Raise e => Raise e
        | Ok minimum_bytes =>
            match _parse_drives_config rest with
            | Raise e => Raise e
            | Ok drives =>
                Ok ({| drive_path := default "" path;
                       minimum_bytes := minimum_bytes |} :: drives)
            end
        end
  end.

(** [DiskSpaceMonitor.__init__]: the drives are parsed first, then the
    data directory is created, then the credentials and the drive list are
    checked.  [mkdir_error] is the exception that setting up the data
    directory raises, in [Path(data_folder)] or in
    [self.data_dir.mkdir(parents=True, exist_ok=True)]; it is [None] when
    the directory is there or can be created. *)
Definition __init__ (mkdir_error : option exn) (c : config) : result monitor :=
  match _parse_drives_config (cfg_drives c) with
  | Raise e => Raise e
  | Ok ds =>
      match mkdir_error with
      | Some e => Raise e
      | None =>
          if falsy (cfg_pushover_token c) || falsy (cfg_pushover_user c)
          then Raise ValueError
          else if (length ds =? 0)%nat then Raise ValueError
          else Ok {| pushover_token := default "" (cfg_pushover_token c);
                     pushover_user := default "" (cfg_pushover_user c);
                     max_push_notifications_per_day :=
                       cfg_max_push_notifications_per_day c;
                     drives := ds |}
      end
  end.

(** ** Formatting byte counts *)

(** [format_bytes]: the loop over B, KB, MB, GB, TB with PB as the
    ceiling.  The argument is an [int]; the comparison with [1024.0] is
    exact and the first division converts it to a float, which is where
    [of_int] stands. *)
Fixpoint format_bytes_loop (units : list string) (bytes : PyFloat.t) : string :=
  match units with
  | [] => PyFloat.format_fixed 2 bytes ++ " PB"
  | unit :: rest =>
      if PyFloat.ltb bytes (PyFloat.Fin 1024%Q)
      then PyFloat.format_fixed 2 bytes ++ " " ++ unit
      else format_bytes_loop rest (PyFloat.div_by bytes 1024%Q)
  end.

Definition format_bytes (bytes : Z) : string :=
  format_bytes_loop ["B"; "KB"; "MB"; "GB"; "TB"] (PyFloat.of_int bytes).

Definition units : list (string * Z) :=
  [("TB", 1024 ^ 4); ("GB", 1024 ^ 3); ("MB", 1024 ^ 2); ("KB", 1024); ("B", 1)].

(** The loop of [format_bytes_multiple_units]: the [(value, unit_name)]
    pairs appended to [parts]. *)
Fixpoint multiple_units_parts (us : list (string * Z)) (remaining : Z) : list (Z * string) :=
  match us with
  | [] => []
  | (unit_name, unit_size) :: rest =>
      if unit_size <=? remaining
      then (remaining / unit_size, unit_name)
             :: multiple_units_parts rest (remaining mod unit_size)
      else multiple_units_parts rest remaining
  end.

Definition render_part (p : Z * string) : string :=
  pretty (fst p) ++ " " ++ snd p.

Definition format_bytes_multiple_units (bytes : Z) : string :=
  if bytes =? 0 then "0 B"
  else
    match map render_part (multiple_units_parts units bytes) with
    | [] => "0 B"
    | parts => PyStr.join " " parts
    end.

(** ** [_get_log_filename] *)

Definition is_separator (c : ascii) : bool :=
  Ascii.eqb c "\" || Ascii.eqb c "/".

(** The stem [safe_name] of the log file. *)
Definition safe_name (drive_path : string) : string :=
  let safe_name :=
    PyStr.replace "/" "_"
      (PyStr.replace "\" "_" (PyStr.rstrip_with is_separator drive_path)) in
  let safe_name :=
    if String.eqb safe_name "" || String.eqb safe_name "_" then "root"
    else safe_name in
  PyStr.replace ":" "" safe_name.

(** The file name inside the data directory. *)
Definition _get_log_filename (drive_path : string) : string :=
  safe_name drive_path ++ ".log".

(** ** The log store: [_parse_log_file]

    A [datetime] is the number of microseconds since 0001-01-01T00:00:00
    (an unbounded integer: the year range of [datetime] is not modelled);
    [timedelta(hours=h)] is [h] hours in microseconds. *)

Definition timedelta_hours (h : Z) : Z := h * 3600000000.

(** ["T" in s or (len(s) >= 10 and s[4] == "-" and s[7] == "-")] *)
Definition looks_like_timestamp (s : string) : bool :=
  PyStr.contains "T" s
  || ((10 <=? String.length s)%nat
      && PyStr.char_at_is 4 "-" s && PyStr.char_at_is 7 "-" s).

(** The body of the first loop: one more old-format entry when the first
    field of the line is not timestamp-shaped and [int()] accepts it. *)
Definition count_line (old_format_count : Z) (line : string) : Z :=
  let line := PyStr.strip line in
  if PyStr.is_empty line then old_format_count
  else
    match PyStr.split " " 2 line with
    | first_part :: _ =>
        if negb (looks_like_timestamp first_part) then
          match PyStr.int first_part with
          | Some _ => old_format_count + 1
          | None => old_format_count
          end
        else old_format_count
    | [] => old_format_count
    end.

(** The variables of the second loop, and the number of times
    [datetime.now()] has been read so far. *)
Record parse_state : Type := {
  old_format_index : Z;
  data_points : list (Z * Z);
  clock_reads : nat
}.

Section LogParser.

(** [datetime.fromisoformat], with [None] for [ValueError]. *)
Variable fromisoformat : string -> option Z.

(** [now n] is what the [n]-th call of [datetime.now()] made by the parser
    returns (counting from 0). *)
Variable now : nat -> Z.

(** The old-format branch: [int(parts[0])], then the estimated time. *)
Definition parse_old_format (old_format_count : Z) (st : parse_state)
    (first_part : string) : parse_state :=
  match PyStr.int first_part with
  | Some free_space =>
      let estimated_time :=
        now (clock_reads st)
        - timedelta_hours (old_format_count - old_format_index st) in
      {| old_format_index := old_format_index st + 1;
         data_points := data_points st ++ [(estimated_time, free_space)];
         clock_reads := S (clock_reads st) |}
  | None => st
  end.

(** The body of the second loop. *)
Definition parse_line (old_format_count : Z) (st : parse_state)
    (line : string) : parse_state :=
  let line := PyStr.strip line in
  if PyStr.is_empty line then st
  else
    match PyStr.split " " 2 line with
    | timestamp_str :: bytes_str :: _ =>
        let new_format :=
          if looks_like_timestamp timestamp_str then
            match fromisoformat timestamp_str with
            | Some timestamp =>
                match PyStr.int bytes_str with
                | Some free_space => Some (timestamp, free_space)
                | None => None
                end
            | None => None
            end
          else None in
        match new_format with
        | Some entry =>
            {| old_format_index := old_format_index st;
               data_points := data_points st ++ [entry];
               clock_reads := clock_reads st |}
        | None => parse_old_format old_format_count st timestamp_str
        end
    | [only] => parse_old_format old_format_count st only
    | [] => st
    end.

(** [_parse_log_file]: [None] is a log file that does not exist, [Some
    lines] what [readlines()] returns. *)
Definition _parse_log_file (log_file : option (list string)) : list (Z * Z) :=
  match log_file with
  | None => []
  | Some lines =>
      let old_format_count := fold_left count_line lines 0 in
      data_points
        (fold_left (parse_line old_format_count) lines
           {| old_format_index := 0; data_points := []; clock_reads := O |})
  end.

End LogParser.

(** *** A reference [fromisoformat]

    The format that [datetime.isoformat()] writes,
    [YYYY-MM-DDTHH:MM:SS] with an optional [.ffffff], and the bare date.
    It is the instance used when the parser is run on concrete files. *)

Module IsoFormat.

Fixpoint take_digits (n : nat) (acc : Z) (s : string) : option (Z * string) :=
  match n with
  | O => Some (acc, s)
  | S n' =>
      match s with
      | String c r =>
          if PyStr.is_digit c
          then take_digits n' (10 * acc + PyStr.digit_value c) r
          else None
      | EmptyString => None
      end
  end.

Definition expect (c : ascii) (s : string) : option string :=
  match s with
  | String d r => if Ascii.eqb d c then Some r else None
  | EmptyString => None
  end.

Definition is_leap (y : Z) : bool :=
  (y mod 4 =? 0) && (negb (y mod 100 =? 0) || (y mod 400 =? 0)).

Definition days_in_month (y m : Z) : Z :=
  if m =? 2 then (if is_leap y then 29 else 28)
  else if (m =? 4) || (m =? 6) || (m =? 9) || (m =? 11) then 30
  else 31.

Definition days_before_year (y : Z) : Z :=
  let p := y - 1 in p * 365 + p / 4 - p / 100 + p / 400.

Definition days_before_month (y m : Z) : Z :=
  fold_left Z.add
    (map (fun k => days_in_month y (Z.of_nat k)) (seq 1 (Z.to_nat (m - 1)))) 0.

Definition datetime (y mo d h mi s us : Z) : option Z :=
  if (1 <=? y) && (1 <=? mo) && (mo <=? 12) && (1 <=? d)
     && (d <=? days_in_month y mo) && (h <? 24) && (mi <? 60) && (s <? 60)
  then Some (((((days_before_year y + days_before_month y mo + d - 1) * 24
                + h) * 60 + mi) * 60 + s) * 1000000 + us)
  else None.

Definition fromisoformat (s : string) : option Z :=
  '(y, s) ← take_digits 4 0 s;
  s ← expect "-" s;
  '(mo, s) ← take_digits 2 0 s;
  s ← expect "-" s;
  '(d, s) ← take_digits 2 0 s;
  match s with
  | EmptyString => datetime y mo d 0 0 0 0
  | _ =>
      s ← expect "T" s;
      '(h, s) ← take_digits 2 0 s;
      s ← expect ":" s;
      '(mi, s) ← take_digits 2 0 s;
      s ← expect ":" s;
      '(sec, s) ← take_digits 2 0 s;
      match s with
      | EmptyString => datetime y mo d h mi sec 0
      | _ =>
          s ← expect "." s;
          '(us, s) ← take_digits 6 0 s;
          if PyStr.is_empty s then datetime y mo d h mi sec us else None
      end
  end.

End IsoFormat.

(** ** The notification tracker *)

(** The JSON values the tracking file holds under its keys. *)
Inductive json : Type :=
| JStr (s : string)
| JInt (n : Z).

#[global] Instance json_eq_dec : EqDecision json.
Proof. solve_decision. Defined.

(** What [.notification_tracking.json] is on disk: absent; [NotJson],
    text that [json.load] refuses with [JSONDecodeError]; or a JSON object
    (the dictionary [json.load] returns) whose values are strings and
    integers.  Opening, reading and writing the file are taken to succeed.
    A file that is not UTF-8 text, or whose JSON is not an object, is not
    among these states: there [_get_notification_count_today] lets a
    [UnicodeDecodeError] or an [AttributeError] escape. *)
Inductive tracking_file : Type :=
| NoFile
| NotJson
| Tracking (tracking_data : gmap string json).

(** [_get_notification_count_today]; [today] is [date.today().isoformat()]. *)
Definition _get_notification_count_today (today : string)
    (file : tracking_file) : json :=
  match file with
  | NoFile => JInt 0
  | NotJson => JInt 0
  | Tracking tracking_data =>
      if decide (tracking_data !! "date" = Some (JStr today))
      then default (JInt 0) (tracking_data !! "count")
      else JInt 0
  end.

(** [_increment_notification_count]: the file it leaves behind.  Every
    exception inside is caught and only warned about, so the file stays as
    it was when [json.load] or the addition raises. *)
Definition _increment_notification_count (today : string)
    (file : tracking_file) : tracking_file :=
  let loaded :=
    match file with
    | NoFile => Some (∅ : gmap string json)
    | NotJson => None
    | Tracking tracking_data => Some tracking_data
    end in
  match loaded with
  | None => file
  | Some tracking_data =>
      let tracking_data :=
        if decide (tracking_data !! "date" = Some (JStr today))
        then tracking_data
        else <["date" := JStr today]> (<["count" := JInt 0]> ∅) in
      match default (JInt 0) (tracking_data !! "count") with
      | JInt count => Tracking (<["count" := JInt (count + 1)]> tracking_data)
      | JStr _ => file
      end
  end.

(** ** [get_disk_space] *)

(** [s.endswith(c)] for a one-character [c]. *)
Fixpoint endswith (c : ascii) (s : string) : bool :=
  match s with
  | EmptyString => false
  | String d EmptyString => Ascii.eqb d c
  | String _ r => endswith c r
  end.

(** The path that is handed to [shutil.disk_usage]; [nt] tells whether
    [os.name] is ["nt"]. *)
Definition normalize_drive (nt : bool) (drive : string) : string :=
  if nt then
    if negb (endswith "\" drive) && negb (endswith "/" drive)
    then drive ++ "\" else drive
  else
    if negb (endswith "/" drive) then drive ++ "/" else drive.

(** The dictionary that [get_disk_space] returns. *)
Record disk_info : Type := {
  di_total : Z;
  di_used : Z;
  di_free : Z;
  di_path : string
}.

(** [get_disk_space]: [shutil_disk_usage] is [None] where
    [shutil.disk_usage] raises; the error is printed and [None] returned. *)
Definition get_disk_space (nt : bool)
    (shutil_disk_usage : string -> option (Z * Z * Z)) (drive : string)
    : option disk_info :=
  let drive := normalize_drive nt drive in
  match shutil_disk_usage drive with
  | Some (total, used, free) =>
      Some {| di_total := total; di_used := used; di_free := free;
              di_path := drive |}
  | None => None
  end.

(** ** The environment and the state of a run *)

(** The form fields of one POST to the Pushover API. *)
Record request : Type := {
  req_token : string;
  req_user : string;
  req_title : string;
  req_message : string;
  req_priority : Z
}.

(** What the program prints, by kind; the lines whose text the source
    fixes carry it. *)
Inductive event : Type :=
| StatusLine (text : string)
| DiskError (drive : string)
| AlertLine (text : string)
| LimitReached (count_today max : Z)
| SendError
| Banner (text : string)
| MatplotlibMissing (drive_path : string)
| GraphSaved (drive_path : string)
| GraphNotSaved (drive_path : string).

(** The files and the outside world the run acts on. *)
Record world : Type := {
  tracking : tracking_file;
  http : list request;
  logs : gmap string (list string);
  stdout : list event
}.

(** What sorting the points and handing them to matplotlib comes to: the
    chart is saved, saving it fails (which is caught and warned about), or
    an exception escapes. *)
Inductive plot_result : Type :=
| Saved
| NotSaved
| PlotRaises (ex : exn).

(** What the run reads from outside: the date; the clock reading written
    into the log of a drive; whether [os.name] is ["nt"];
    [shutil.disk_usage] ([None] when it raises; otherwise total, used,
    free); whether a POST comes back with a success status; the exception,
    if any, that creating the data directory raises; whether matplotlib can
    be imported; [datetime.fromisoformat] and, for each drive, the readings
    of [datetime.now()] when the log of the drive is parsed for its chart;
    and what plotting the points of a drive comes to. *)
Record env : Type := {
  today : string;
  timestamp : string -> string;
  os_name_nt : bool;
  shutil_disk_usage : string -> option (Z * Z * Z);
  post_succeeds : request -> bool;
  mkdir_error : option exn;
  has_matplotlib : bool;
  parse_timestamp : string -> option Z;
  clock : string -> nat -> Z;
  plot : string -> list (Z * Z) -> plot_result
}.

(** Total, used and free space as [get_disk_space] returns them for a
    configured path, [None] when it returns [None]. *)
Definition disk_usage (e : env) (drive : string) : option (Z * Z * Z) :=
  match get_disk_space (os_name_nt e) (shutil_disk_usage e) drive with
  | Some disk_info =>
      Some (di_total disk_info, di_used disk_info, di_free disk_info)
  | None => None
  end.

#[global] Arguments disk_usage : simpl never.

Definition print (ev : event) (w : world) : world :=
  {| tracking := tracking w; http := http w; logs := logs w;
     stdout := stdout w ++ [ev] |}.

Definition set_tracking (f : tracking_file) (w : world) : world :=
  {| tracking := f; http := http w; logs := logs w; stdout := stdout w |}.

Definition post (r : request) (w : world) : world :=
  {| tracking := tracking w; http := http w ++ [r]; logs := logs w;
     stdout := stdout w |}.

(** [_log_free_space]: one line appended to the log of the drive. *)
Definition log_line (timestamp : string) (free_space : Z) : string :=
  timestamp ++ " " ++ pretty free_space
    ++ " (" ++ format_bytes_multiple_units free_space ++ ")" ++ String "010" "".

Definition _log_free_space (e : env) (drive_path : string) (free_space : Z)
    (w : world) : world :=
  let log_file := _get_log_filename drive_path in
  {| tracking := tracking w; http := http w;
     logs := <[log_file := (default [] (logs w !! log_file)
                              ++ [log_line (timestamp e drive_path) free_space])%list]>
               (logs w);
     stdout := stdout w |}.

(** ** [send_pushover_notification] *)

(** The daily-limit check at the top of the function: go on, stop
    because [count_today >= max], or fail in the comparison when the count
    read from the file is not a number. *)
Inductive limit_check : Type :=
| Proceed
| LimitHit (count_today max : Z)
| CountNotComparable.

Definition check_daily_limit (e : env) (m : monitor) (w : world) : limit_check :=
  match max_push_notifications_per_day m with
  | None => Proceed
  | Some max =>
      match _get_notification_count_today (today e) (tracking w) with
      | JInt count_today =>
          if max <=? count_today then LimitHit count_today max else Proceed
      | JStr _ => CountNotComparable
      end
  end.

(** The [data] dictionary of the POST. *)
Definition post_data (m : monitor) (title message : string) (priority : Z)
    : request :=
  {| req_token := pushover_token m;
     req_user := pushover_user m;
     req_title := title;
     req_message := message;
     req_priority := priority |}.

Definition send_pushover_notification (e : env) (m : monitor)
    (title message : string) (priority : Z) (w : world) : result bool * world :=
  match check_daily_limit e m w with
  | CountNotComparable => (Raise TypeError, w)
  | LimitHit count_today max =>
      (Ok false, print (LimitReached count_today max) w)
  | Proceed =>
      let data := post_data m title message priority in
      let w := post data w in
      if post_succeeds e data then
        match max_push_notifications_per_day m with
        | Some _ =>
            (Ok true,
             set_tracking
               (_increment_notification_count (today e) (tracking w)) w)
        | None => (Ok true, w)
        end
      else (Ok false, print SendError w)
  end.

(** ** [check_and_notify] *)

(** [(free_space / total_space) * 100]; [None] is [ZeroDivisionError]. *)
Definition free_percent (free_space total_space : Z) : option PyFloat.t :=
  match PyFloat.int_truediv free_space total_space with
  | None => None
  | Some ratio => Some (PyFloat.mul ratio (PyFloat.of_int 100))
  end.

(** [f"{free_percent:.1f}"] *)
Definition percent_text (free_percent : PyFloat.t) : string :=
  PyFloat.format_fixed 1 free_percent.

Definition status_line (drive_path : string) (free_space total_space : Z)
    (free_percent : PyFloat.t) (minimum_bytes : Z) : string :=
  "Drive " ++ drive_path ++ ": " ++ format_bytes free_space ++ " free "
    ++ "(" ++ percent_text free_percent ++ "%) of "
    ++ format_bytes total_space
    ++ " [threshold: " ++ format_bytes minimum_bytes ++ "]".

Definition NL : string := String "010" "".

Definition alert_title (drive_path : string) : string :=
  "⚠️ Low Disk Space Alert: " ++ drive_path.

Definition alert_message (drive_path : string)
    (free_space used_space total_space : Z) (free_percent : PyFloat.t)
    (minimum_bytes : Z) : string :=
  "Drive " ++ drive_path ++ " is running low on disk space!" ++ NL ++ NL
    ++ "Free space: " ++ format_bytes free_space ++ NL
    ++ "Used space: " ++ format_bytes used_space ++ NL
    ++ "Total space: " ++ format_bytes total_space ++ NL
    ++ "Free: " ++ percent_text free_percent ++ "%" ++ NL ++ NL
    ++ "Minimum threshold: " ++ format_bytes minimum_bytes.

(** [_generate_graph]: without matplotlib two lines are printed; with
    fewer than two points in the log nothing is done; otherwise the points
    are sorted and plotted, which is the library's work and may end in an
    exception that nothing here catches. *)
Definition _generate_graph (e : env) (drive_path : string) (w : world)
    : result unit * world :=
  if negb (has_matplotlib e) then
    (Ok tt,
     print (Banner "Install with: pip install matplotlib")
       (print (MatplotlibMissing drive_path) w))
  else
    let data_points :=
      _parse_log_file (parse_timestamp e) (clock e drive_path)
        (logs w !! _get_log_filename drive_path) in
    if (length data_points <? 2)%nat then (Ok tt, w)
    else
      match plot e drive_path data_points with
      | Saved => (Ok tt, print (GraphSaved drive_path) w)
      | NotSaved => (Ok tt, print (GraphNotSaved drive_path) w)
      | PlotRaises ex => (Raise ex, w)
      end.

(** The loop over [self.drives].  An exception ends it with the state
    reached so far. *)
Fixpoint check_and_notify_loop (e : env) (m : monitor) (ds : list drive)
    (w : world) : result unit * world :=
  match ds with
  | [] => (Ok tt, w)
  | drive_config :: rest =>
      let drive_path := drive_path drive_config in
      let minimum_bytes := minimum_bytes drive_config in
      match disk_usage e drive_path with
      | None =>
          check_and_notify_loop e m rest
            (print (DiskError (normalize_drive (os_name_nt e) drive_path)) w)
      | Some (total_space, used_space, free_space) =>
          match free_percent free_space total_space with
          | None => (Raise ZeroDivisionError, w)
          | Some free_percent =>
              let w :=
                print (StatusLine (status_line drive_path free_space
                                     total_space free_percent minimum_bytes)) w in
              let w := _log_free_space e drive_path free_space w in
              match _generate_graph e drive_path w with
              | (Raise ex, w) => (Raise ex, w)
              | (Ok _, w) =>
                  if free_space <? minimum_bytes then
                    let title := alert_title drive_path in
                    let message :=
                      alert_message drive_path free_space used_space
                        total_space free_percent minimum_bytes in
                    let w :=
                      print (AlertLine ("⚠️  ALERT: " ++ drive_path
                                          ++ " below threshold!")) w in
                    match send_pushover_notification e m title message 1 w with
                    | (Raise ex, w) => (Raise ex, w)
                    | (Ok _, w) => check_and_notify_loop e m rest w
                    end
                  else check_and_notify_loop e m rest w
              end
          end
      end
  end.

Definition check_and_notify (e : env) (m : monitor) (w : world)
    : result unit * world :=
  check_and_notify_loop e m (drives m) w.

(** ** [run], [load_settings], [main] and the script *)

Definition run (e : env) (m : monitor) (w : world) : result unit * world :=
  let w := print (Banner "Checking disk space...") w in
  let drive_list :=
    map (fun d => drive_path d ++ " (threshold: "
                    ++ format_bytes (minimum_bytes d) ++ ")") (drives m) in
  let w :=
    print (Banner ("Monitoring drives: " ++ PyStr.join ", " drive_list ++ NL)) w in
  match check_and_notify e m w with
  | (Raise ex, w) => (Raise ex, w)
  | (Ok _, w) => (Ok tt, print (Banner (NL ++ "Check complete.")) w)
  end.

(** The settings file: absent, not JSON, or the dictionary it holds. *)
Inductive settings_file : Type :=
| SettingsMissing
| SettingsNotJson
| Settings (c : config).

Definition load_settings (f : settings_file) : result config :=
  match f with
  | SettingsMissing => Raise FileNotFoundError
  | SettingsNotJson => Raise JSONDecodeError
  | Settings c => Ok c
  end.

(** The [except] clauses of [main]: each one returns 1. *)
Definition handle (ex : exn) : Z :=
  match ex with
  | FileNotFoundError => 1
  | JSONDecodeError => 1
  | ValueError => 1
  | _ => 1
  end.

(** [main()]: the value it returns. *)
Definition main (e : env) (f : settings_file) (w : world) : Z * world :=
  match load_settings f with
  | Raise ex => (handle ex, w)
  | Ok settings =>
      match __init__ (mkdir_error e) settings with
      | Raise ex => (handle ex, w)
      | Ok monitor =>
          match run e monitor w with
          | (Raise ex, w) => (handle ex, w)
          | (Ok _, w) => (0, w)
          end
      end
  end.

(** The script: [if __name__ == "__main__": main()].  The value of
    [main()] is dropped, the module body ends normally and the interpreter
    exits with status 0. *)
Definition script_exit_status (e : env) (f : settings_file) (w : world) : Z :=
  let '(_, _) := main e f w in 0.


(** ** Records and sample inputs used in the statements *)

(** The record [{"date": today, "count": 0}] that a new day starts from. *)
Definition fresh_record (today : string) : gmap string json :=
  <["date" := JStr today]> (<["count" := JInt 0]> ∅).

Definition counted (today : string) (n : Z) : gmap string json :=
  <["count" := JInt n]> (fresh_record today).

Definition yesterday_record : gmap string json :=
  <["date" := JStr "2024-01-01"]> (<["count" := JInt 7]> ∅).

Definition GB : Z := 1024 ^ 3.

(** A machine that is not Windows, with a 100 GB volume at [/] with 5 GB
    free, a volume at [/empty/] that reports a size of 0, and nothing else
    mounted; every POST succeeds, the data directory can be created,
    matplotlib is installed and every chart is saved; the clock stands at
    noon of 2024-01-02. *)
Definition sample_env : env :=
  {| today := "2024-01-02";
     timestamp := fun _ => "2024-01-02T03:04:05.000006";
     os_name_nt := false;
     shutil_disk_usage := fun p =>
       if String.eqb p "/" then Some (100 * GB, 95 * GB, 5 * GB)
       else if String.eqb p "/empty/" then Some (0, 0, 0)
       else None;
     post_succeeds := fun _ => true;
     mkdir_error := None;
     has_matplotlib := true;
     parse_timestamp := IsoFormat.fromisoformat;
     clock := fun _ _ => 63839793600000000;
     plot := fun _ _ => Saved |}.

Definition sample_monitor (max : option Z) (ds : list drive) : monitor :=
  {| pushover_token := "token";
     pushover_user := "user";
     max_push_notifications_per_day := max;
     drives := ds |}.

Definition root_drive : drive := {| drive_path := "/"; minimum_bytes := 10 * GB |}.
Definition empty_drive : drive := {| drive_path := "/empty"; minimum_bytes := GB |}.
Definition absent_drive : drive := {| drive_path := "/absent"; minimum_bytes := GB |}.

Definition sample_config (token : option string) (ds : list drive_config)
    : config :=
  {| cfg_pushover_token := token;
     cfg_pushover_user := Some "user";
     cfg_max_push_notifications_per_day := None;
     cfg_drives := ds |}.

Definition clean_world : world :=
  {| tracking := NoFile; http := []; logs := ∅; stdout := [] |}.

(** The size of a unit by its name, and the number of bytes that a list
    of printed [(count, unit)] components stands for. *)
Definition unit_value (unit_name : string) : Z :=
  match find (fun u => String.eqb (fst u) unit_name) units with
  | Some (_, unit_size) => unit_size
  | None => 0
  end.

Definition parts_total (parts : list (Z * string)) : Z :=
  fold_right (fun p acc => fst p * unit_value (snd p) + acc) 0 parts.

(** Every unit with its count by division and modulo, zero or not. *)
Definition division_table (b : Z) : list (Z * string) :=
  [(b / 1024 ^ 4, "TB");
   (b mod 1024 ^ 4 / 1024 ^ 3, "GB");
   (b mod 1024 ^ 3 / 1024 ^ 2, "MB");
   (b mod 1024 ^ 2 / 1024, "KB");
   (b mod 1024, "B")].

Definition nonzero (p : Z * string) : bool := negb (fst p =? 0).

(** The same table for any list of units: each count is the quotient of
    what the larger units left over. *)
Fixpoint remainder_table (us : list (string * Z)) (remaining : Z) : list (Z * string) :=
  match us with
  | [] => []
  | (unit_name, unit_size) :: rest =>
      (remaining / unit_size, unit_name)
        :: remainder_table rest (remaining mod unit_size)
  end.

(** The derivation of the log name in the order the specification lists
    its steps: trailing separators, separators, colons, and then the empty
    or root result. *)
Definition safe_name_as_specified (drive_path : string) : string :=
  let name :=
    PyStr.replace ":" ""
      (PyStr.replace "/" "_"
         (PyStr.replace "\" "_" (PyStr.rstrip_with is_separator drive_path))) in
  if String.eqb name "" || String.eqb name "_" then "root" else name.

(** ** The log series as the specification describes it

    Two passes: every line is classified as a current-format entry, a
    legacy entry or neither; then the legacy entries, in file order, get
    their synthetic times.  A field is what [split(" ", 2)] of the stripped
    line gives, as in the source. *)

Inductive line_class : Type :=
| Current (timestamp free_space : Z)
| Legacy (free_space : Z)
| Dropped.

Definition first_field (line : string) : string :=
  hd "" (PyStr.split " " 2 (PyStr.strip line)).

Definition second_field (line : string) : option string :=
  nth_error (PyStr.split " " 2 (PyStr.strip line)) 1.

Definition is_legacy (c : line_class) : bool :=
  match c with
  | Legacy _ => true
  | _ => false
  end.

Definition legacy_count (cs : list line_class) : nat :=
  length (List.filter is_legacy cs).

(** The timestamps of the synthetic entries of a tagged series. *)
Definition synthetic_times (series : list (bool * (Z * Z))) : list Z :=
  map (fun e => fst (snd e)) (List.filter fst series).

Section LogSeries.

Variable fromisoformat : string -> option Z.
Variable now : nat -> Z.

Definition classify (line : string) : line_class :=
  let field1 := first_field line in
  if looks_like_timestamp field1 then
    match second_field line with
    | Some field2 =>
        match fromisoformat field1, PyStr.int field2 with
        | Some timestamp, Some free_space => Current timestamp free_space
        | _, _ => Dropped
        end
    | None => Dropped
    end
  else
    match PyStr.int field1 with
    | Some free_space => Legacy free_space
    | None => Dropped
    end.

(** The series for [k] legacy lines, from the [i]-th legacy line on; an
    entry is tagged [true] when its time is synthetic. *)
Fixpoint backfill (k i : nat) (cs : list line_class) : list (bool * (Z * Z)) :=
  match cs with
  | [] => []
  | Current timestamp free_space :: rest =>
      (false, (timestamp, free_space)) :: backfill k i rest
  | Legacy free_space :: rest =>
      (true, (now i - timedelta_hours (Z.of_nat k - Z.of_nat i), free_space))
        :: backfill k (S i) rest
  | Dropped :: rest => backfill k i rest
  end.

End LogSeries.

(** The first whitespace-delimited field of a line, [line.split()[0]],
    and the legacy lines by that field. *)
Definition first_field_by_whitespace (line : string) : string :=
  fst (span (fun c => negb (PyStr.is_space c))
         (PyStr.lstrip_with PyStr.is_space line)).

Definition legacy_by_whitespace (line : string) : bool :=
  let field := first_field_by_whitespace line in
  negb (looks_like_timestamp field)
  && match PyStr.int field with Some _ => true | None => false end.

Definition TAB : string := String "009" "".

(** A legacy line whose human-readable part follows a tab. *)
Definition tabbed_line : string := "123" ++ TAB ++ "(95 GB)".

(** A clock that stands still at noon of 2024-01-02. *)
Definition noon : Z := 63839793600000000.
Definition still_clock (n : nat) : Z := noon.

(** A clock that is set back by two hours after its first reading. *)
Definition stepping_clock (n : nat) : Z :=
  match n with
  | O => noon
  | S _ => noon - timedelta_hours 2
  end.

(** ** Character facts used in the proofs *)

Fixpoint all_chars (p : ascii -> bool) (s : string) : bool :=
  match s with
  | EmptyString => true
  | String c r => p c && all_chars p r
  end.

Fixpoint count_char (c : ascii) (s : string) : nat :=
  match s with
  | EmptyString => O
  | String d r => (if Ascii.eqb d c then 1 else 0) + count_char c r
  end.

Definition is_digit_or_underscore (c : ascii) : bool :=
  PyStr.is_digit c || Ascii.eqb c "_".

Definition is_int_char (c : ascii) : bool :=
  PyStr.is_int_space c || is_digit_or_underscore c
  || Ascii.eqb c "+" || Ascii.eqb c "-".

(** ** The size grammar of the specification

    [<number>[.<number>]<unit>] with optional whitespace before the unit
    and the unit one of the six known ones. *)

Definition is_number (s : string) : Prop :=
  s <> "" /\ all_chars PyStr.is_digit s = true.

Definition known_units : list string := [""; "B"; "KB"; "MB"; "GB"; "TB"].

Definition size_grammar (s : string) : Prop :=
  exists number fraction spaces unit,
    s = number ++ fraction ++ spaces ++ unit
    /\ is_number number
    /\ (fraction = "" \/ exists f, fraction = "." ++ f /\ is_number f)
    /\ all_chars PyStr.is_space spaces = true
    /\ In unit known_units.

(** The grammar with the unit in either case. *)
Definition size_grammar_ci (s : string) : Prop :=
  size_grammar (PyStr.upper s).

(** The grammar with the unit in either case and whitespace around. *)
Definition padded_size_grammar (s : string) : Prop :=
  exists l core r,
    s = l ++ core ++ r
    /\ all_chars PyStr.is_space l = true
    /\ all_chars PyStr.is_space r = true
    /\ size_grammar_ci core.

(** A log with a legacy line, a current-format line and a legacy line
    with its human-readable part. *)
Definition sample_log : list string :=
  ["102176960512" ++ NL;
   "2024-01-01T12:00:00.123456 102176960512 (95 GB 163 MB 556 KB)" ++ NL;
   "55 (55 B)" ++ NL].

(** [allow(max_per_day)] of the specification, for a given count. *)
Definition allow (max_per_day : option Z) (count_today : Z) : bool :=
  match max_per_day with
  | None => true
  | Some max => count_today <? max
  end.

(** * [_parse_size] on every [str]

    The strings that the rest of the program handles are taken to hold
    code points below 256.  A threshold is whatever the settings hold, so
    [_parse_size] is also given for a [str] of arbitrary code points: [\d]
    and [float()] accept the decimal digits of every script, [\s] and
    [strip()] the whitespace of Unicode, and [upper()] maps a character to
    one or more characters.  The tables of decimal digits and of upper-case
    mappings belong to the interpreter; they enter as parameters. *)

Module Unicode.

Local Open Scope N_scope.
Local Open Scope list_scope.

(** A [str] as the list of its code points. *)
Definition str : Type := list N.

Definition code (c : ascii) : N := N_of_ascii c.

#[global] Arguments code : simpl never.

Definition of_string (s : string) : str :=
  map N_of_ascii (list_ascii_of_string s).

(** [str.isspace] on one character; it is the set that [strip()] removes
    and that [\s] matches. *)
Definition is_space (c : N) : bool :=
  (9 <=? c) && (c <=? 13) || (28 <=? c) && (c <=? 32)
  || (c =? 133) || (c =? 160) || (c =? 5760)
  || (8192 <=? c) && (c <=? 8202)
  || (c =? 8232) || (c =? 8233) || (c =? 8239) || (c =? 8287)
  || (c =? 12288).

Definition is_empty (s : str) : bool :=
  match s with [] => true | _ :: _ => false end.

Fixpoint lstrip (s : str) : str :=
  match s with
  | [] => []
  | c :: r => if is_space c then lstrip r else s
  end.

Fixpoint rstrip (s : str) : str :=
  match s with
  | [] => []
  | c :: r =>
      let r' := rstrip r in
      if is_space c && is_empty r' then [] else c :: r'
  end.

(** [s.strip()] *)
Definition strip (s : str) : str := rstrip (lstrip s).

(** The longest prefix of [s] whose characters satisfy [p], and the rest. *)
Fixpoint span (p : N -> bool) (s : str) : str * str :=
  match s with
  | [] => ([], [])
  | c :: r =>
      if p c then let '(a, b) := span p r in (c :: a, b)
      else ([], s)
  end.

Section Tables.

(** The value of a decimal digit (a character of category Nd), [None]
    for every other character. *)
Variable decimal : N -> option Z.

(** The upper-case mapping of one character: one or more characters. *)
Variable upper_char : N -> str.

(** [\d] *)
Definition is_decimal (c : N) : bool :=
  match decimal c with Some _ => true | None => false end.

(** [s.upper()] *)
Definition upper (s : str) : str := flat_map upper_char s.

Definition is_prefix_letter (c : N) : bool :=
  (c =? code "K") || (c =? code "M") || (c =? code "G") || (c =? code "T").

(** The optional group [(?:\.\d+)?]. *)
Definition match_fraction (r : str) : option str * str :=
  match r with
  | c :: r' =>
      if c =? code "." then
        let '(fs, r'') := span is_decimal r' in
        if is_empty fs then (None, r) else (Some fs, r'')
      else (None, r)
  | [] => (None, r)
  end.

(** Group 2, [[KMGT]?B?]. *)
Definition match_unit (r : str) : str * str :=
  let '(u1, r3) :=
    match r with
    | c :: r' => if is_prefix_letter c then ([c], r') else ([], r)
    | [] => ([], r)
    end in
  let '(u2, r4) :=
    match r3 with
    | c :: r' => if c =? code "B" then ([c], r') else ([], r3)
    | [] => ([], r3)
    end in
  (u1 ++ u2, r4).

(** [re.match(r"^(\d+(?:\.\d+)?)\s*([KMGT]?B?)$", s)]: the integer digits,
    the fraction digits when there are some, and group 2; [$] lets one
    final newline stand. *)
Definition match_size (s : str) : option (str * option str * str) :=
  let '(ds, r) := span is_decimal s in
  if is_empty ds then None
  else
    let '(fr, r1) := match_fraction r in
    let '(_, r2) := span is_space r1 in
    let '(unit, r4) := match_unit r2 in
    if is_empty r4 || bool_decide (r4 = [code "010"])
    then Some (ds, fr, unit)
    else None.

(** The characters that the pattern can match. *)
Definition in_pattern (c : N) : bool :=
  is_decimal c || (c =? code ".") || is_space c || is_prefix_letter c
  || (c =? code "B").

(** The number that a run of decimal digits writes. *)
Definition digits_value (s : str) : Z :=
  fold_left (fun acc c => (10 * acc + default 0 (decimal c))%Z) s 0%Z.

(** [float(s)] for [s] a run of digits with an optional fraction. *)
Definition float_of_decimal (int_part : str) (frac_part : option str)
    : PyFloat.t :=
  match frac_part with
  | None => PyFloat.round (inject_Z (digits_value int_part))
  | Some f =>
      let scale := (10 ^ Z.of_nat (length f))%Z in
      PyFloat.round
        (Qmake (digits_value int_part * scale + digits_value f)
           (Z.to_pos scale))
  end.

Definition unit_multiplier (unit : str) : option Z :=
  if bool_decide (unit = of_string "B") || bool_decide (unit = []) then Some 1%Z
  else if bool_decide (unit = of_string "KB") then Some 1024%Z
  else if bool_decide (unit = of_string "MB") then Some (1024 ^ 2)%Z
  else if bool_decide (unit = of_string "GB") then Some (1024 ^ 3)%Z
  else if bool_decide (unit = of_string "TB") then Some (1024 ^ 4)%Z
  else None.

Definition _parse_size (size_str : str) : result Z :=
  let size_str := upper (strip size_str) in
  match match_size size_str with
  | None => Raise ValueError
  | Some (int_part, frac_part, unit) =>
      let value := float_of_decimal int_part frac_part in
      match unit_multiplier unit with
      | None => Raise ValueError
      | Some multiplier =>
          PyFloat.to_int (PyFloat.mul value (PyFloat.of_int multiplier))
      end
  end.

(** *** The size grammar

    [<number>[.<number>]<unit>] with optional whitespace before the unit:
    a number is one or more decimal digits, of any script, and the unit is
    one of the six known ones. *)

Definition is_number (s : str) : Prop :=
  s <> [] /\ forallb is_decimal s = true.

Definition known_units : list str :=
  map of_string [""; "B"; "KB"; "MB"; "GB"; "TB"]%string.

Definition size_grammar (s : str) : Prop :=
  exists number fraction spaces unit,
    s = number ++ fraction ++ spaces ++ unit
    /\ is_number number
    /\ (fraction = [] \/ exists f, fraction = code "." :: f /\ is_number f)
    /\ forallb is_space spaces = true
    /\ In unit known_units.

(** The grammar with the unit in either case. *)
Definition size_grammar_ci (s : str) : Prop := size_grammar (upper s).

(** The grammar with the unit in either case and whitespace around. *)
Definition padded_size_grammar (s : str) : Prop :=
  exists l core r,
    s = l ++ core ++ r
    /\ forallb is_space l = true
    /\ forallb is_space r = true
    /\ size_grammar_ci core.

(** What the statements assume of the two tables; each holds of the
    tables of Python.  The ASCII digits are decimal digits with their
    values and the other ASCII characters are none; [upper()] turns the
    ASCII letters into capitals and leaves the other ASCII characters;
    whitespace has no case; what is not whitespace is mapped to at least
    one character, none of them whitespace; a decimal digit is not
    whitespace. *)
Record tables_of_python : Prop := {
  decimal_ascii :
    forall c, c < 128 ->
      decimal c
      = if (48 <=? c) && (c <=? 57) then Some (Z.of_N c - 48)%Z else None;
  upper_ascii :
    forall c, c < 128 ->
      upper_char c = [if (97 <=? c) && (c <=? 122) then c - 32 else c];
  upper_space :
    forall c, is_space c = true -> upper_char c = [c];
  upper_other :
    forall c, is_space c = false ->
      upper_char c <> []
      /\ forallb (fun x => negb (is_space x)) (upper_char c) = true;
  decimal_not_space :
    forall c d, decimal c = Some d -> is_space c = false
}.

End Tables.

(** *** The tables of Python 3.11

    The decimal digits of Unicode 14.0, the version of Python 3.11: 66
    blocks of ten consecutive code points, from the digit of value 0 to
    the digit of value 9; here are the zeros. *)
Definition decimal_zeros : list N :=
  [48; 1632; 1776; 1984; 2406; 2534; 2662; 2790;
   2918; 3046; 3174; 3302; 3430; 3558; 3664; 3792;
   3872; 4160; 4240; 6112; 6160; 6470; 6608; 6784;
   6800; 6992; 7088; 7232; 7248; 42528; 43216; 43264;
   43472; 43504; 43600; 44016; 65296; 66720; 68912; 69734;
   69872; 69942; 70096; 70384; 70736; 70864; 71248; 71360;
   71472; 71904; 72016; 72784; 73040; 73120; 92768; 92864;
   93008; 120782; 120792; 120802; 120812; 120822; 123200; 123632;
   125264; 130032].

Definition python311_decimal (c : N) : option Z :=
  match find (fun zero => (zero <=? c) && (c <? zero + 10)) decimal_zeros with
  | Some zero => Some (Z.of_N (c - zero))
  | None => None
  end.

(** [str.upper] of Python 3.11 (Unicode 14.0): the characters that it
    changes, each with the characters it becomes; every other character is
    left as it is. *)
Definition python311_upper : list (N * str) :=
  [(97, [65]); (98, [66]); (99, [67]); (100, [68]); (101, [69]); (102, [70]);
   (103, [71]); (104, [72]); (105, [73]); (106, [74]); (107, [75]); (108, [76]);
   (109, [77]); (110, [78]); (111, [79]); (112, [80]); (113, [81]); (114, [82]);
   (115, [83]); (116, [84]); (117, [85]); (118, [86]); (119, [87]); (120, [88]);
   (121, [89]); (122, [90]); (181, [924]); (223, [83; 83]); (224, [192]);
   (225, [193]); (226, [194]); (227, [195]); (228, [196]); (229, [197]);
   (230, [198]); (231, [199]); (232, [200]); (233, [201]); (234, [202]);
   (235, [203]); (236, [204]); (237, [205]); (238, [206]); (239, [207]);
   (240, [208]); (241, [209]); (242, [210]); (243, [211]); (244, [212]);
   (245, [213]); (246, [214]); (248, [216]); (249, [217]); (250, [218]);
   (251, [219]); (252, [220]); (253, [221]); (254, [222]); (255, [376]);
   (257, [256]); (259, [258]); (261, [260]); (263, [262]); (265, [264]);
   (267, [266]); (269, [268]); (271, [270]); (273, [272]); (275, [274]);
   (277, [276]); (279, [278]); (281, [280]); (283, [282]); (285, [284]);
   (287, [286]); (289, [288]); (291, [290]); (293, [292]); (295, [294]);
   (297, [296]); (299, [298]); (301, [300]); (303, [302]); (305, [73]);
   (307, [306]); (309, [308]); (311, [310]); (314, [313]); (316, [315]);
   (318, [317]); (320, [319]); (322, [321]); (324, [323]); (326, [325]);
   (328, [327]); (329, [700; 78]); (331, [330]); (333, [332]); (335, [334]);
   (337, [336]); (339, [338]); (341, [340]); (343, [342]); (345, [344]);
   (347, [346]); (349, [348]); (351, [350]); (353, [352]); (355, [354]);
   (357, [356]); (359, [358]); (361, [360]); (363, [362]); (365, [364]);
   (367, [366]); (369, [368]); (371, [370]); (373, [372]); (375, [374]);
   (378, [377]); (380, [379]); (382, [381]); (383, [83]); (384, [579]);
   (387, [386]); (389, [388]); (392, [391]); (396, [395]); (402, [401]);
   (405, [502]); (409, [408]); (410, [573]); (414, [544]); (417, [416]);
   (419, [418]); (421, [420]); (424, [423]); (429, [428]); (432, [431]);
   (436, [435]); (438, [437]); (441, [440]); (445, [444]); (447, [503]);
   (453, [452]); (454, [452]); (456, [455]); (457, [455]); (459, [458]);
   (460, [458]); (462, [461]); (464, [463]); (466, [465]); (468, [467]);
   (470, [469]); (472, [471]); (474, [473]); (476, [475]); (477, [398]);
   (479, [478]); (481, [480]); (483, [482]); (485, [484]); (487, [486]);
   (489, [488]); (491, [490]); (493, [492]); (495, [494]); (496, [74; 780]);
   (498, [497]); (499, [497]); (501, [500]); (505, [504]); (507, [506]);
   (509, [508]); (511, [510]); (513, [512]); (515, [514]); (517, [516]);
   (519, [518]); (521, [520]); (523, [522]); (525, [524]); (527, [526]);
   (529, [528]); (531, [530]); (533, [532]); (535, [534]); (537, [536]);
   (539, [538]); (541, [540]); (543, [542]); (547, [546]); (549, [548]);
   (551, [550]); (553, [552]); (555, [554]); (557, [556]); (559, [558]);
   (561, [560]); (563, [562]); (572, [571]); (575, [11390]); (576, [11391]);
   (578, [577]); (583, [582]); (585, [584]); (587, [586]); (589, [588]);
   (591, [590]); (592, [11375]); (593, [11373]); (594, [11376]); (595, [385]);
   (596, [390]); (598, [393]); (599, [394]); (601, [399]); (603, [400]);
   (604, [42923]); (608, [403]); (609, [42924]); (611, [404]); (613, [42893]);
   (614, [42922]); (616, [407]); (617, [406]); (618, [42926]); (619, [11362]);
   (620, [42925]); (623, [412]); (625, [11374]); (626, [413]); (629, [415]);
   (637, [11364]); (640, [422]); (642, [42949]); (643, [425]); (647, [42929]);
   (648, [430]); (649, [580]); (650, [433]); (651, [434]); (652, [581]);
   (658, [439]); (669, [42930]); (670, [42928]); (837, [921]); (881, [880]);
   (883, [882]); (887, [886]); (891, [1021]); (892, [1022]); (893, [1023]);
   (912, [921; 776; 769]); (940, [902]); (941, [904]); (942, [905]);
   (943, [906]); (944, [933; 776; 769]); (945, [913]); (946, [914]);
   (947, [915]); (948, [916]); (949, [917]); (950, [918]); (951, [919]);
   (952, [920]); (953, [921]); (954, [922]); (955, [923]); (956, [924]);
   (957, [925]); (958, [926]); (959, [927]); (960, [928]); (961, [929]);
   (962, [931]); (963, [931]); (964, [932]); (965, [933]); (966, [934]);
   (967, [935]); (968, [936]); (969, [937]); (970, [938]); (971, [939]);
   (972, [908]); (973, [910]); (974, [911]); (976, [914]); (977, [920]);
   (981, [934]); (982, [928]); (983, [975]); (985, [984]); (987, [986]);
   (989, [988]); (991, [990]); (993, [992]); (995, [994]); (997, [996]);
   (999, [998]); (1001, [1000]); (1003, [1002]); (1005, [1004]); (1007, [1006]);
   (1008, [922]); (1009, [929]); (1010, [1017]); (1011, [895]); (1013, [917]);
   (1016, [1015]); (1019, [1018]); (1072, [1040]); (1073, [1041]);
   (1074, [1042]); (1075, [1043]); (1076, [1044]); (1077, [1045]);
   (1078, [1046]); (1079, [1047]); (1080, [1048]); (1081, [1049]);
   (1082, [1050]); (1083, [1051]); (1084, [1052]); (1085, [1053]);
   (1086, [1054]); (1087, [1055]); (1088, [1056]); (1089, [1057]);
   (1090, [1058]); (1091, [1059]); (1092, [1060]); (1093, [1061]);
   (1094, [1062]); (1095, [1063]); (1096, [1064]); (1097, [1065]);
   (1098, [1066]); (1099, [1067]); (1100, [1068]); (1101, [1069]);
   (1102, [1070]); (1103, [1071]); (1104, [1024]); (1105, [1025]);
   (1106, [1026]); (1107, [1027]); (1108, [1028]); (1109, [1029]);
   (1110, [1030]); (1111, [1031]); (1112, [1032]); (1113, [1033]);
   (1114, [1034]); (1115, [1035]); (1116, [1036]); (1117, [1037]);
   (1118, [1038]); (1119, [1039]); (1121, [1120]); (1123, [1122]);
   (1125, [1124]); (1127, [1126]); (1129, [1128]); (1131, [1130]);
   (1133, [1132]); (1135, [1134]); (1137, [1136]); (1139, [1138]);
   (1141, [1140]); (1143, [1142]); (1145, [1144]); (1147, [1146]);
   (1149, [1148]); (1151, [1150]); (1153, [1152]); (1163, [1162]);
   (1165, [1164]); (1167, [1166]); (1169, [1168]); (1171, [1170]);
   (1173, [1172]); (1175, [1174]); (1177, [1176]); (1179, [1178]);
   (1181, [1180]); (1183, [1182]); (1185, [1184]); (1187, [1186]);
   (1189, [1188]); (1191, [1190]); (1193, [1192]); (1195, [1194]);
   (1197, [1196]); (1199, [1198]); (1201, [1200]); (1203, [1202]);
   (1205, [1204]); (1207, [1206]); (1209, [1208]); (1211, [1210]);
   (1213, [1212]); (1215, [1214]); (1218, [1217]); (1220, [1219]);
   (1222, [1221]); (1224, [1223]); (1226, [1225]); (1228, [1227]);
   (1230, [1229]); (1231, [1216]); (1233, [1232]); (1235, [1234]);
   (1237, [1236]); (1239, [1238]); (1241, [1240]); (1243, [1242]);
   (1245, [1244]); (1247, [1246]); (1249, [1248]); (1251, [1250]);
   (1253, [1252]); (1255, [1254]); (1257, [1256]); (1259, [1258]);
   (1261, [1260]); (1263, [1262]); (1265, [1264]); (1267, [1266]);
   (1269, [1268]); (1271, [1270]); (1273, [1272]); (1275, [1274]);
   (1277, [1276]); (1279, [1278]); (1281, [1280]); (1283, [1282]);
   (1285, [1284]); (1287, [1286]); (1289, [1288]); (1291, [1290]);
   (1293, [1292]); (1295, [1294]); (1297, [1296]); (1299, [1298]);
   (1301, [1300]); (1303, [1302]); (1305, [1304]); (1307, [1306]);
   (1309, [1308]); (1311, [1310]); (1313, [1312]); (1315, [1314]);
   (1317, [1316]); (1319, [1318]); (1321, [1320]); (1323, [1322]);
   (1325, [1324]); (1327, [1326]); (1377, [1329]); (1378, [1330]);
   (1379, [1331]); (1380, [1332]); (1381, [1333]); (1382, [1334]);
   (1383, [1335]); (1384, [1336]); (1385, [1337]); (1386, [1338]);
   (1387, [1339]); (1388, [1340]); (1389, [1341]); (1390, [1342]);
   (1391, [1343]); (1392, [1344]); (1393, [1345]); (1394, [1346]);
   (1395, [1347]); (1396, [1348]); (1397, [1349]); (1398, [1350]);
   (1399, [1351]); (1400, [1352]); (1401, [1353]); (1402, [1354]);
   (1403, [1355]); (1404, [1356]); (1405, [1357]); (1406, [1358]);
   (1407, [1359]); (1408, [1360]); (1409, [1361]); (1410, [1362]);
   (1411, [1363]); (1412, [1364]); (1413, [1365]); (1414, [1366]);
   (1415, [1333; 1362]); (4304, [7312]); (4305, [7313]); (4306, [7314]);
   (4307, [7315]); (4308, [7316]); (4309, [7317]); (4310, [7318]);
   (4311, [7319]); (4312, [7320]); (4313, [7321]); (4314, [7322]);
   (4315, [7323]); (4316, [7324]); (4317, [7325]); (4318, [7326]);
   (4319, [7327]); (4320, [7328]); (4321, [7329]); (4322, [7330]);
   (4323, [7331]); (4324, [7332]); (4325, [7333]); (4326, [7334]);
   (4327, [7335]); (4328, [7336]); (4329, [7337]); (4330, [7338]);
   (4331, [7339]); (4332, [7340]); (4333, [7341]); (4334, [7342]);
   (4335, [7343]); (4336, [7344]); (4337, [7345]); (4338, [7346]);
   (4339, [7347]); (4340, [7348]); (4341, [7349]); (4342, [7350]);
   (4343, [7351]); (4344, [7352]); (4345, [7353]); (4346, [7354]);
   (4349, [7357]); (4350, [7358]); (4351, [7359]); (5112, [5104]);
   (5113, [5105]); (5114, [5106]); (5115, [5107]); (5116, [5108]);
   (5117, [5109]); (7296, [1042]); (7297, [1044]); (7298, [1054]);
   (7299, [1057]); (7300, [1058]); (7301, [1058]); (7302, [1066]);
   (7303, [1122]); (7304, [42570]); (7545, [42877]); (7549, [11363]);
   (7566, [42950]); (7681, [7680]); (7683, [7682]); (7685, [7684]);
   (7687, [7686]); (7689, [7688]); (7691, [7690]); (7693, [7692]);
   (7695, [7694]); (7697, [7696]); (7699, [7698]); (7701, [7700]);
   (7703, [7702]); (7705, [7704]); (7707, [7706]); (7709, [7708]);
   (7711, [7710]); (7713, [7712]); (7715, [7714]); (7717, [7716]);
   (7719, [7718]); (7721, [7720]); (7723, [7722]); (7725, [7724]);
   (7727, [7726]); (7729, [7728]); (7731, [7730]); (7733, [7732]);
   (7735, [7734]); (7737, [7736]); (7739, [7738]); (7741, [7740]);
   (7743, [7742]); (7745, [7744]); (7747, [7746]); (7749, [7748]);
   (7751, [7750]); (7753, [7752]); (7755, [7754]); (7757, [7756]);
   (7759, [7758]); (7761, [7760]); (7763, [7762]); (7765, [7764]);
   (7767, [7766]); (7769, [7768]); (7771, [7770]); (7773, [7772]);
   (7775, [7774]); (7777, [7776]); (7779, [7778]); (7781, [7780]);
   (7783, [7782]); (7785, [7784]); (7787, [7786]); (7789, [7788]);
   (7791, [7790]); (7793, [7792]); (7795, [7794]); (7797, [7796]);
   (7799, [7798]); (7801, [7800]); (7803, [7802]); (7805, [7804]);
   (7807, [7806]); (7809, [7808]); (7811, [7810]); (7813, [7812]);
   (7815, [7814]); (7817, [7816]); (7819, [7818]); (7821, [7820]);
   (7823, [7822]); (7825, [7824]); (7827, [7826]); (7829, [7828]);
   (7830, [72; 817]); (7831, [84; 776]); (7832, [87; 778]); (7833, [89; 778]);
   (7834, [65; 702]); (7835, [7776]); (7841, [7840]); (7843, [7842]);
   (7845, [7844]); (7847, [7846]); (7849, [7848]); (7851, [7850]);
   (7853, [7852]); (7855, [7854]); (7857, [7856]); (7859, [7858]);
   (7861, [7860]); (7863, [7862]); (7865, [7864]); (7867, [7866]);
   (7869, [7868]); (7871, [7870]); (7873, [7872]); (7875, [7874]);
   (7877, [7876]); (7879, [7878]); (7881, [7880]); (7883, [7882]);
   (7885, [7884]); (7887, [7886]); (7889, [7888]); (7891, [7890]);
   (7893, [7892]); (7895, [7894]); (7897, [7896]); (7899, [7898]);
   (7901, [7900]); (7903, [7902]); (7905, [7904]); (7907, [7906]);
   (7909, [7908]); (7911, [7910]); (7913, [7912]); (7915, [7914]);
   (7917, [7916]); (7919, [7918]); (7921, [7920]); (7923, [7922]);
   (7925, [7924]); (7927, [7926]); (7929, [7928]); (7931, [7930]);
   (7933, [7932]); (7935, [7934]); (7936, [7944]); (7937, [7945]);
   (7938, [7946]); (7939, [7947]); (7940, [7948]); (7941, [7949]);
   (7942, [7950]); (7943, [7951]); (7952, [7960]); (7953, [7961]);
   (7954, [7962]); (7955, [7963]); (7956, [7964]); (7957, [7965]);
   (7968, [7976]); (7969, [7977]); (7970, [7978]); (7971, [7979]);
   (7972, [7980]); (7973, [7981]); (7974, [7982]); (7975, [7983]);
   (7984, [7992]); (7985, [7993]); (7986, [7994]); (7987, [7995]);
   (7988, [7996]); (7989, [7997]); (7990, [7998]); (7991, [7999]);
   (8000, [8008]); (8001, [8009]); (8002, [8010]); (8003, [8011]);
   (8004, [8012]); (8005, [8013]); (8016, [933; 787]); (8017, [8025]);
   (8018, [933; 787; 768]); (8019, [8027]); (8020, [933; 787; 769]);
   (8021, [8029]); (8022, [933; 787; 834]); (8023, [8031]); (8032, [8040]);
   (8033, [8041]); (8034, [8042]); (8035, [8043]); (8036, [8044]);
   (8037, [8045]); (8038, [8046]); (8039, [8047]); (8048, [8122]);
   (8049, [8123]); (8050, [8136]); (8051, [8137]); (8052, [8138]);
   (8053, [8139]); (8054, [8154]); (8055, [8155]); (8056, [8184]);
   (8057, [8185]); (8058, [8170]); (8059, [8171]); (8060, [8186]);
   (8061, [8187]); (8064, [7944; 921]); (8065, [7945; 921]);
   (8066, [7946; 921]); (8067, [7947; 921]); (8068, [7948; 921]);
   (8069, [7949; 921]); (8070, [7950; 921]); (8071, [7951; 921]);
   (8072, [7944; 921]); (8073, [7945; 921]); (8074, [7946; 921]);
   (8075, [7947; 921]); (8076, [7948; 921]); (8077, [7949; 921]);
   (8078, [7950; 921]); (8079, [7951; 921]); (8080, [7976; 921]);
   (8081, [7977; 921]); (8082, [7978; 921]); (8083, [7979; 921]);
   (8084, [7980; 921]); (8085, [7981; 921]); (8086, [7982; 921]);
   (8087, [7983; 921]); (8088, [7976; 921]); (8089, [7977; 921]);
   (8090, [7978; 921]); (8091, [7979; 921]); (8092, [7980; 921]);
   (8093, [7981; 921]); (8094, [7982; 921]); (8095, [7983; 921]);
   (8096, [8040; 921]); (8097, [8041; 921]); (8098, [8042; 921]);
   (8099, [8043; 921]); (8100, [8044; 921]); (8101, [8045; 921]);
   (8102, [8046; 921]); (8103, [8047; 921]); (8104, [8040; 921]);
   (8105, [8041; 921]); (8106, [8042; 921]); (8107, [8043; 921]);
   (8108, [8044; 921]); (8109, [8045; 921]); (8110, [8046; 921]);
   (8111, [8047; 921]); (8112, [8120]); (8113, [8121]); (8114, [8122; 921]);
   (8115, [913; 921]); (8116, [902; 921]); (8118, [913; 834]);
   (8119, [913; 834; 921]); (8124, [913; 921]); (8126, [921]);
   (8130, [8138; 921]); (8131, [919; 921]); (8132, [905; 921]);
   (8134, [919; 834]); (8135, [919; 834; 921]); (8140, [919; 921]);
   (8144, [8152]); (8145, [8153]); (8146, [921; 776; 768]);
   (8147, [921; 776; 769]); (8150, [921; 834]); (8151, [921; 776; 834]);
   (8160, [8168]); (8161, [8169]); (8162, [933; 776; 768]);
   (8163, [933; 776; 769]); (8164, [929; 787]); (8165, [8172]);
   (8166, [933; 834]); (8167, [933; 776; 834]); (8178, [8186; 921]);
   (8179, [937; 921]); (8180, [911; 921]); (8182, [937; 834]);
   (8183, [937; 834; 921]); (8188, [937; 921]); (8526, [8498]); (8560, [8544]);
   (8561, [8545]); (8562, [8546]); (8563, [8547]); (8564, [8548]);
   (8565, [8549]); (8566, [8550]); (8567, [8551]); (8568, [8552]);
   (8569, [8553]); (8570, [8554]); (8571, [8555]); (8572, [8556]);
   (8573, [8557]); (8574, [8558]); (8575, [8559]); (8580, [8579]);
   (9424, [9398]); (9425, [9399]); (9426, [9400]); (9427, [9401]);
   (9428, [9402]); (9429, [9403]); (9430, [9404]); (9431, [9405]);
   (9432, [9406]); (9433, [9407]); (9434, [9408]); (9435, [9409]);
   (9436, [9410]); (9437, [9411]); (9438, [9412]); (9439, [9413]);
   (9440, [9414]); (9441, [9415]); (9442, [9416]); (9443, [9417]);
   (9444, [9418]); (9445, [9419]); (9446, [9420]); (9447, [9421]);
   (9448, [9422]); (9449, [9423]); (11312, [11264]); (11313, [11265]);
   (11314, [11266]); (11315, [11267]); (11316, [11268]); (11317, [11269]);
   (11318, [11270]); (11319, [11271]); (11320, [11272]); (11321, [11273]);
   (11322, [11274]); (11323, [11275]); (11324, [11276]); (11325, [11277]);
   (11326, [11278]); (11327, [11279]); (11328, [11280]); (11329, [11281]);
   (11330, [11282]); (11331, [11283]); (11332, [11284]); (11333, [11285]);
   (11334, [11286]); (11335, [11287]); (11336, [11288]); (11337, [11289]);
   (11338, [11290]); (11339, [11291]); (11340, [11292]); (11341, [11293]);
   (11342, [11294]); (11343, [11295]); (11344, [11296]); (11345, [11297]);
   (11346, [11298]); (11347, [11299]); (11348, [11300]); (11349, [11301]);
   (11350, [11302]); (11351, [11303]); (11352, [11304]); (11353, [11305]);
   (11354, [11306]); (11355, [11307]); (11356, [11308]); (11357, [11309]);
   (11358, [11310]); (11359, [11311]); (11361, [11360]); (11365, [570]);
   (11366, [574]); (11368, [11367]); (11370, [11369]); (11372, [11371]);
   (11379, [11378]); (11382, [11381]); (11393, [11392]); (11395, [11394]);
   (11397, [11396]); (11399, [11398]); (11401, [11400]); (11403, [11402]);
   (11405, [11404]); (11407, [11406]); (11409, [11408]); (11411, [11410]);
   (11413, [11412]); (11415, [11414]); (11417, [11416]); (11419, [11418]);
   (11421, [11420]); (11423, [11422]); (11425, [11424]); (11427, [11426]);
   (11429, [11428]); (11431, [11430]); (11433, [11432]); (11435, [11434]);
   (11437, [11436]); (11439, [11438]); (11441, [11440]); (11443, [11442]);
   (11445, [11444]); (11447, [11446]); (11449, [11448]); (11451, [11450]);
   (11453, [11452]); (11455, [11454]); (11457, [11456]); (11459, [11458]);
   (11461, [11460]); (11463, [11462]); (11465, [11464]); (11467, [11466]);
   (11469, [11468]); (11471, [11470]); (11473, [11472]); (11475, [11474]);
   (11477, [11476]); (11479, [11478]); (11481, [11480]); (11483, [11482]);
   (11485, [11484]); (11487, [11486]); (11489, [11488]); (11491, [11490]);
   (11500, [11499]); (11502, [11501]); (11507, [11506]); (11520, [4256]);
   (11521, [4257]); (11522, [4258]); (11523, [4259]); (11524, [4260]);
   (11525, [4261]); (11526, [4262]); (11527, [4263]); (11528, [4264]);
   (11529, [4265]); (11530, [4266]); (11531, [4267]); (11532, [4268]);
   (11533, [4269]); (11534, [4270]); (11535, [4271]); (11536, [4272]);
   (11537, [4273]); (11538, [4274]); (11539, [4275]); (11540, [4276]);
   (11541, [4277]); (11542, [4278]); (11543, [4279]); (11544, [4280]);
   (11545, [4281]); (11546, [4282]); (11547, [4283]); (11548, [4284]);
   (11549, [4285]); (11550, [4286]); (11551, [4287]); (11552, [4288]);
   (11553, [4289]); (11554, [4290]); (11555, [4291]); (11556, [4292]);
   (11557, [4293]); (11559, [4295]); (11565, [4301]); (42561, [42560]);
   (42563, [42562]); (42565, [42564]); (42567, [42566]); (42569, [42568]);
   (42571, [42570]); (42573, [42572]); (42575, [42574]); (42577, [42576]);
   (42579, [42578]); (42581, [42580]); (42583, [42582]); (42585, [42584]);
   (42587, [42586]); (42589, [42588]); (42591, [42590]); (42593, [42592]);
   (42595, [42594]); (42597, [42596]); (42599, [42598]); (42601, [42600]);
   (42603, [42602]); (42605, [42604]); (42625, [42624]); (42627, [42626]);
   (42629, [42628]); (42631, [42630]); (42633, [42632]); (42635, [42634]);
   (42637, [42636]); (42639, [42638]); (42641, [42640]); (42643, [42642]);
   (42645, [42644]); (42647, [42646]); (42649, [42648]); (42651, [42650]);
   (42787, [42786]); (42789, [42788]); (42791, [42790]); (42793, [42792]);
   (42795, [42794]); (42797, [42796]); (42799, [42798]); (42803, [42802]);
   (42805, [42804]); (42807, [42806]); (42809, [42808]); (42811, [42810]);
   (42813, [42812]); (42815, [42814]); (42817, [42816]); (42819, [42818]);
   (42821, [42820]); (42823, [42822]); (42825, [42824]); (42827, [42826]);
   (42829, [42828]); (42831, [42830]); (42833, [42832]); (42835, [42834]);
   (42837, [42836]); (42839, [42838]); (42841, [42840]); (42843, [42842]);
   (42845, [42844]); (42847, [42846]); (42849, [42848]); (42851, [42850]);
   (42853, [42852]); (42855, [42854]); (42857, [42856]); (42859, [42858]);
   (42861, [42860]); (42863, [42862]); (42874, [42873]); (42876, [42875]);
   (42879, [42878]); (42881, [42880]); (42883, [42882]); (42885, [42884]);
   (42887, [42886]); (42892, [42891]); (42897, [42896]); (42899, [42898]);
   (42900, [42948]); (42903, [42902]); (42905, [42904]); (42907, [42906]);
   (42909, [42908]); (42911, [42910]); (42913, [42912]); (42915, [42914]);
   (42917, [42916]); (42919, [42918]); (42921, [42920]); (42933, [42932]);
   (42935, [42934]); (42937, [42936]); (42939, [42938]); (42941, [42940]);
   (42943, [42942]); (42945, [42944]); (42947, [42946]); (42952, [42951]);
   (42954, [42953]); (42961, [42960]); (42967, [42966]); (42969, [42968]);
   (42998, [42997]); (43859, [42931]); (43888, [5024]); (43889, [5025]);
   (43890, [5026]); (43891, [5027]); (43892, [5028]); (43893, [5029]);
   (43894, [5030]); (43895, [5031]); (43896, [5032]); (43897, [5033]);
   (43898, [5034]); (43899, [5035]); (43900, [5036]); (43901, [5037]);
   (43902, [5038]); (43903, [5039]); (43904, [5040]); (43905, [5041]);
   (43906, [5042]); (43907, [5043]); (43908, [5044]); (43909, [5045]);
   (43910, [5046]); (43911, [5047]); (43912, [5048]); (43913, [5049]);
   (43914, [5050]); (43915, [5051]); (43916, [5052]); (43917, [5053]);
   (43918, [5054]); (43919, [5055]); (43920, [5056]); (43921, [5057]);
   (43922, [5058]); (43923, [5059]); (43924, [5060]); (43925, [5061]);
   (43926, [5062]); (43927, [5063]); (43928, [5064]); (43929, [5065]);
   (43930, [5066]); (43931, [5067]); (43932, [5068]); (43933, [5069]);
   (43934, [5070]); (43935, [5071]); (43936, [5072]); (43937, [5073]);
   (43938, [5074]); (43939, [5075]); (43940, [5076]); (43941, [5077]);
   (43942, [5078]); (43943, [5079]); (43944, [5080]); (43945, [5081]);
   (43946, [5082]); (43947, [5083]); (43948, [5084]); (43949, [5085]);
   (43950, [5086]); (43951, [5087]); (43952, [5088]); (43953, [5089]);
   (43954, [5090]); (43955, [5091]); (43956, [5092]); (43957, [5093]);
   (43958, [5094]); (43959, [5095]); (43960, [5096]); (43961, [5097]);
   (43962, [5098]); (43963, [5099]); (43964, [5100]); (43965, [5101]);
   (43966, [5102]); (43967, [5103]); (64256, [70; 70]); (64257, [70; 73]);
   (64258, [70; 76]); (64259, [70; 70; 73]); (64260, [70; 70; 76]);
   (64261, [83; 84]); (64262, [83; 84]); (64275, [1348; 1350]);
   (64276, [1348; 1333]); (64277, [1348; 1339]); (64278, [1358; 1350]);
   (64279, [1348; 1341]); (65345, [65313]); (65346, [65314]); (65347, [65315]);
   (65348, [65316]); (65349, [65317]); (65350, [65318]); (65351, [65319]);
   (65352, [65320]); (65353, [65321]); (65354, [65322]); (65355, [65323]);
   (65356, [65324]); (65357, [65325]); (65358, [65326]); (65359, [65327]);
   (65360, [65328]); (65361, [65329]); (65362, [65330]); (65363, [65331]);
   (65364, [65332]); (65365, [65333]); (65366, [65334]); (65367, [65335]);
   (65368, [65336]); (65369, [65337]); (65370, [65338]); (66600, [66560]);
   (66601, [66561]); (66602, [66562]); (66603, [66563]); (66604, [66564]);
   (66605, [66565]); (66606, [66566]); (66607, [66567]); (66608, [66568]);
   (66609, [66569]); (66610, [66570]); (66611, [66571]); (66612, [66572]);
   (66613, [66573]); (66614, [66574]); (66615, [66575]); (66616, [66576]);
   (66617, [66577]); (66618, [66578]); (66619, [66579]); (66620, [66580]);
   (66621, [66581]); (66622, [66582]); (66623, [66583]); (66624, [66584]);
   (66625, [66585]); (66626, [66586]); (66627, [66587]); (66628, [66588]);
   (66629, [66589]); (66630, [66590]); (66631, [66591]); (66632, [66592]);
   (66633, [66593]); (66634, [66594]); (66635, [66595]); (66636, [66596]);
   (66637, [66597]); (66638, [66598]); (66639, [66599]); (66776, [66736]);
   (66777, [66737]); (66778, [66738]); (66779, [66739]); (66780, [66740]);
   (66781, [66741]); (66782, [66742]); (66783, [66743]); (66784, [66744]);
   (66785, [66745]); (66786, [66746]); (66787, [66747]); (66788, [66748]);
   (66789, [66749]); (66790, [66750]); (66791, [66751]); (66792, [66752]);
   (66793, [66753]); (66794, [66754]); (66795, [66755]); (66796, [66756]);
   (66797, [66757]); (66798, [66758]); (66799, [66759]); (66800, [66760]);
   (66801, [66761]); (66802, [66762]); (66803, [66763]); (66804, [66764]);
   (66805, [66765]); (66806, [66766]); (66807, [66767]); (66808, [66768]);
   (66809, [66769]); (66810, [66770]); (66811, [66771]); (66967, [66928]);
   (66968, [66929]); (66969, [66930]); (66970, [66931]); (66971, [66932]);
   (66972, [66933]); (66973, [66934]); (66974, [66935]); (66975, [66936]);
   (66976, [66937]); (66977, [66938]); (66979, [66940]); (66980, [66941]);
   (66981, [66942]); (66982, [66943]); (66983, [66944]); (66984, [66945]);
   (66985, [66946]); (66986, [66947]); (66987, [66948]); (66988, [66949]);
   (66989, [66950]); (66990, [66951]); (66991, [66952]); (66992, [66953]);
   (66993, [66954]); (66995, [66956]); (66996, [66957]); (66997, [66958]);
   (66998, [66959]); (66999, [66960]); (67000, [66961]); (67001, [66962]);
   (67003, [66964]); (67004, [66965]); (68800, [68736]); (68801, [68737]);
   (68802, [68738]); (68803, [68739]); (68804, [68740]); (68805, [68741]);
   (68806, [68742]); (68807, [68743]); (68808, [68744]); (68809, [68745]);
   (68810, [68746]); (68811, [68747]); (68812, [68748]); (68813, [68749]);
   (68814, [68750]); (68815, [68751]); (68816, [68752]); (68817, [68753]);
   (68818, [68754]); (68819, [68755]); (68820, [68756]); (68821, [68757]);
   (68822, [68758]); (68823, [68759]); (68824, [68760]); (68825, [68761]);
   (68826, [68762]); (68827, [68763]); (68828, [68764]); (68829, [68765]);
   (68830, [68766]); (68831, [68767]); (68832, [68768]); (68833, [68769]);
   (68834, [68770]); (68835, [68771]); (68836, [68772]); (68837, [68773]);
   (68838, [68774]); (68839, [68775]); (68840, [68776]); (68841, [68777]);
   (68842, [68778]); (68843, [68779]); (68844, [68780]); (68845, [68781]);
   (68846, [68782]); (68847, [68783]); (68848, [68784]); (68849, [68785]);
   (68850, [68786]); (71872, [71840]); (71873, [71841]); (71874, [71842]);
   (71875, [71843]); (71876, [71844]); (71877, [71845]); (71878, [71846]);
   (71879, [71847]); (71880, [71848]); (71881, [71849]); (71882, [71850]);
   (71883, [71851]); (71884, [71852]); (71885, [71853]); (71886, [71854]);
   (71887, [71855]); (71888, [71856]); (71889, [71857]); (71890, [71858]);
   (71891, [71859]); (71892, [71860]); (71893, [71861]); (71894, [71862]);
   (71895, [71863]); (71896, [71864]); (71897, [71865]); (71898, [71866]);
   (71899, [71867]); (71900, [71868]); (71901, [71869]); (71902, [71870]);
   (71903, [71871]); (93792, [93760]); (93793, [93761]); (93794, [93762]);
   (93795, [93763]); (93796, [93764]); (93797, [93765]); (93798, [93766]);
   (93799, [93767]); (93800, [93768]); (93801, [93769]); (93802, [93770]);
   (93803, [93771]); (93804, [93772]); (93805, [93773]); (93806, [93774]);
   (93807, [93775]); (93808, [93776]); (93809, [93777]); (93810, [93778]);
   (93811, [93779]); (93812, [93780]); (93813, [93781]); (93814, [93782]);
   (93815, [93783]); (93816, [93784]); (93817, [93785]); (93818, [93786]);
   (93819, [93787]); (93820, [93788]); (93821, [93789]); (93822, [93790]);
   (93823, [93791]); (125218, [125184]); (125219, [125185]); (125220, [125186]);
   (125221, [125187]); (125222, [125188]); (125223, [125189]);
   (125224, [125190]); (125225, [125191]); (125226, [125192]);
   (125227, [125193]); (125228, [125194]); (125229, [125195]);
   (125230, [125196]); (125231, [125197]); (125232, [125198]);
   (125233, [125199]); (125234, [125200]); (125235, [125201]);
   (125236, [125202]); (125237, [125203]); (125238, [125204]);
   (125239, [125205]); (125240, [125206]); (125241, [125207]);
   (125242, [125208]); (125243, [125209]); (125244, [125210]);
   (125245, [125211]); (125246, [125212]); (125247, [125213]);
   (125248, [125214]); (125249, [125215]); (125250, [125216]);
   (125251, [125217])].

Definition python311_upper_char (c : N) : str :=
  match find (fun entry => fst entry =? c) python311_upper with
  | Some entry => snd entry
  | None => [c]
  end.

(** The digits 0 to 9 and no others: the decimal digits as the
    specification reads them. *)
Definition ascii_decimal (c : N) : option Z :=
  if (48 <=? c) && (c <=? 57) then Some (Z.of_N c - 48)%Z else None.

(** The fullwidth digits 1 and 0 followed by [GB]. *)
Definition fullwidth_10GB : str := [65297; 65296; code "G"; code "B"].

(** The Arabic-Indic digit 7 followed by [XB], and the size 1.5 TB
    written with fullwidth digits, in small letters, with whitespace around
    it and before the unit. *)
Definition arabic_7XB : str := [1639; code "X"; code "B"].

Definition fullwidth_1_5_tb : str :=
  [code " "; 65297; code "."; 65301; 12288; code "t"; code "b"; code "010"].

End Unicode.

(** A string of ASCII characters. *)
Definition is_ascii (s : string) : bool :=
  all_chars (fun c => (N_of_ascii c <? 128)%N) s.

(** The characters below 256 that the pattern can match. *)
Definition in_pattern (c : ascii) : bool :=
  PyStr.is_digit c || Ascii.eqb c "." || PyStr.is_space c
  || is_prefix_letter c || Ascii.eqb c "B".

(** Python 3.11 gives the character the capital that [PyStr.upper_char]
    gives it. *)
Definition same_capital (c : ascii) : bool :=
  match Unicode.python311_upper_char (N_of_ascii c) with
  | [x] => (x =? N_of_ascii (PyStr.upper_char c))%N
  | _ => false
  end.

(** Both capitals of the character stand outside the pattern: that of
    [PyStr.upper_char], and one character at least of that of Python 3.11. *)
Definition capitals_outside_pattern (c : ascii) : bool :=
  negb (in_pattern (PyStr.upper_char c))
  && negb (forallb (Unicode.in_pattern Unicode.python311_decimal)
             (Unicode.python311_upper_char (N_of_ascii c))).

(** * The rest of the program *)

(** A character that is neither a path separator nor a colon. *)
Definition is_name_char (c : ascii) : bool :=
  negb (is_separator c) && negb (Ascii.eqb c ":").

(** ** Notions used in the statements about a run *)

(** The query of the drive succeeds and finds less free space than the
    threshold. *)
Definition below_threshold (e : env) (d : drive) : Prop :=
  exists total used free,
    disk_usage e (drive_path d) = Some (total, used, free)
    /\ free < minimum_bytes d.

(** The request is the alert of drive [d]. *)
Definition is_alert_for (m : monitor) (d : drive) (r : request) : Prop :=
  req_title r = alert_title (drive_path d)
  /\ req_priority r = 1
  /\ req_token r = pushover_token m
  /\ req_user r = pushover_user m.

(** A record of today with a count of 3 and one more key. *)
Definition today_record : gmap string json :=
  <["date" := JStr "2024-01-02"]>
    (<["count" := JInt 3]> (<["host" := JStr "nas"]> ∅)).

Definition broken_world : world :=
  {| tracking := NotJson; http := []; logs := ∅; stdout := [] |}.

(** A drive of [sample_env] with more free space than its threshold. *)
Definition healthy_drive : drive := {| drive_path := "/"; minimum_bytes := GB |}.

(** The POSTs among [rs] that come back with a success status. *)
Definition successful (e : env) (rs : list request) : list request :=
  List.filter (post_succeeds e) rs.



(** The count that the limit check reads can be compared with the cap:
    there is no cap, or the count is a number. *)
Definition count_comparable (e : env) (m : monitor) (w : world) : Prop :=
  max_push_notifications_per_day m = None
  \/ exists c, _get_notification_count_today (today e) (tracking w) = JInt c.

(** No chart of the run ends in an exception: matplotlib is not
    installed, so that nothing is plotted, or sorting and plotting the
    points of a drive never raises. *)
Definition charts_return (e : env) : Prop :=
  has_matplotlib e = false
  \/ forall drive_path data_points ex,
       plot e drive_path data_points <> PlotRaises ex.

(** No drive of the list reports a total size of 0. *)
Definition no_zero_total (e : env) (ds : list drive) : Prop :=
  forall d total used free,
    In d ds -> disk_usage e (drive_path d) = Some (total, used, free) ->
    total <> 0.

(** The entry [dc] of the [drives] list is an object with a non-empty
    path and a non-empty threshold that [_parse_size] accepts, and [d] is
    the drive made of them. *)
Definition valid_drive (dc : drive_config) (d : drive) : Prop :=
  exists threshold,
    dc = DriveObject (Some (drive_path d)) (Some threshold)
    /\ drive_path d <> ""
    /\ threshold <> ""
    /\ _parse_size threshold = Ok (minimum_bytes d).

(** The query of the drive succeeds and finds less free space than the
    threshold, as a test. *)
Definition is_low (e : env) (d : drive) : bool :=
  match disk_usage e (drive_path d) with
  | Some (_, _, free) => free <? minimum_bytes d
  | None => false
  end.

Definition low_drives (e : env) (ds : list drive) : list drive :=
  List.filter (is_low e) ds.

(** The cap leaves room for [n] more notifications: there is no cap, or
    the count of today is a number with [count + n <= max]. *)
Definition room_for (e : env) (m : monitor) (w : world) (n : nat) : Prop :=
  match max_push_notifications_per_day m with
  | None => True
  | Some max =>
      exists c, _get_notification_count_today (today e) (tracking w) = JInt c
                /\ c + Z.of_nat n <= max
  end.



(** An entry of the [drives] list that [_parse_drives_config] refuses
    before it looks at the size: it is not an object, or its path or its
    threshold is missing or empty. *)
Definition incomplete_drive (dc : drive_config) : Prop :=
  match dc with
  | NotAnObject => True
  | DriveObject path minimum_disk_space =>
      falsy path = true \/ falsy minimum_disk_space = true
  | ThresholdNotAString path => falsy path = true
  end.

(** ** Checks run over finite ranges *)

Definition unit_names : list string := ["B"; "KB"; "MB"; "GB"; "TB"].

(** [format_bytes] prints [n] times the [k]-th unit as [n.00] and the
    name of that unit. *)
Definition prints_whole_units (n k : nat) : bool :=
  String.eqb (format_bytes (Z.of_nat n * 1024 ^ Z.of_nat k))
    (pretty (Z.of_nat n) ++ ".00 " ++ nth k unit_names "").

(** A float that is not negative. *)
Definition float_nonneg (x : PyFloat.t) : Prop :=
  match x with
  | PyFloat.Fin q => 0 <= Qnum q
  | PyFloat.Inf => True
  end.
(** * Properties *)

(** ** The primitives on concrete inputs *)

Example int_plain : PyStr.int "102176960512" = Some 102176960512.
Proof. reflexivity. Qed.

Example int_spaces_sign : PyStr.int "  -1_000 " = Some (-1000).
Proof. reflexivity. Qed.

Example int_rejects :
  PyStr.int "12a" = None /\ PyStr.int "" = None /\ PyStr.int "1__0" = None
  /\ PyStr.int "_1" = None /\ PyStr.int "1_" = None /\ PyStr.int "- 1" = None
  /\ PyStr.int "2024-01-01" = None.
Proof. repeat split; reflexivity. Qed.

Example split_at_most_twice : PyStr.split " " 2 "a b c d" = ["a"; "b"; "c d"].
Proof. reflexivity. Qed.

Example split_keeps_empty_fields :
  PyStr.split " " 2 "123  (95 GB)" = ["123"; ""; "(95 GB)"].
Proof. reflexivity. Qed.

Example strip_both_ends : PyStr.strip ("  a b " ++ NL) = "a b".
Proof. reflexivity. Qed.

Example float_of_one_tenth :
  PyFloat.round (1 # 10) = PyFloat.Fin (3602879701896397 # 36028797018963968).
Proof. reflexivity. Qed.

Example float_ties_to_even :
  PyFloat.of_int (2 ^ 53 + 1) = PyFloat.Fin (inject_Z (2 ^ 53))
  /\ PyFloat.of_int (2 ^ 53 + 3) = PyFloat.Fin (inject_Z (2 ^ 53 + 4)).
Proof. split; reflexivity. Qed.

Example format_fixed_ties_to_even :
  PyFloat.format_fixed 1 (PyFloat.Fin (1 # 4)) = "0.2"
  /\ PyFloat.format_fixed 1 (PyFloat.Fin (3 # 4)) = "0.8"
  /\ PyFloat.format_fixed 2 (PyFloat.round (1 # 3)) = "0.33".
Proof. repeat split; reflexivity. Qed.

Example format_bytes_examples :
  map format_bytes [0; 1023; 1024; 1536; 5 * GB; 100 * GB]
  = ["0.00 B"; "1023.00 B"; "1.00 KB"; "1.50 KB"; "5.00 GB"; "100.00 GB"].
Proof. vm_compute. reflexivity. Qed.

Example fromisoformat_example :
  IsoFormat.fromisoformat "2024-01-01T12:00:00.123456" = Some 63839707200123456
  /\ IsoFormat.fromisoformat "2024-01-02T12:00:00" = Some noon
  /\ IsoFormat.fromisoformat "2024-13-01" = None.
Proof. repeat split; reflexivity. Qed.


(** ** Strings *)

#[local] Arguments String.append !s1 s2 : simpl nomatch.

Lemma all_chars_app p a b :
  all_chars p (a ++ b) = all_chars p a && all_chars p b.
Proof.
  induction a as [|c a IH]; simpl; [reflexivity|].
  rewrite IH. apply andb_assoc.
Qed.

Lemma all_chars_weaken (p q : ascii -> bool) s :
  (forall c, p c = true -> q c = true) ->
  all_chars p s = true -> all_chars q s = true.
Proof.
  intros Hpq. induction s as [|c s IH]; simpl; [reflexivity|].
  intros H. apply andb_true_iff in H. destruct H as [Hc Hs].
  rewrite (Hpq c Hc), (IH Hs). reflexivity.
Qed.

Lemma all_chars_contains p c s :
  all_chars p s = true -> PyStr.contains c s = true -> p c = true.
Proof.
  induction s as [|d s IH]; simpl; [discriminate|].
  intros Hall Hin. apply andb_true_iff in Hall. destruct Hall as [Hd Hs].
  apply orb_true_iff in Hin. destruct Hin as [Heq|Hin]; [|exact (IH Hs Hin)].
  apply Ascii.eqb_eq in Heq. subst d. exact Hd.
Qed.

Lemma count_char_app c a b :
  count_char c (a ++ b) = (count_char c a + count_char c b)%nat.
Proof.
  induction a as [|d a IH]; simpl; [reflexivity|]. rewrite IH. lia.
Qed.

Lemma count_char_none p c s :
  all_chars p s = true -> p c = false -> count_char c s = O.
Proof.
  intros Hall Hc. induction s as [|d s IH]; simpl; [reflexivity|].
  simpl in Hall. apply andb_true_iff in Hall. destruct Hall as [Hd Hs].
  rewrite (IH Hs). destruct (Ascii.eqb_spec d c) as [->|_]; [congruence|reflexivity].
Qed.

Lemma lstrip_with_spec p s :
  exists l, s = l ++ PyStr.lstrip_with p s /\ all_chars p l = true.
Proof.
  induction s as [|c s IH]; simpl.
  - exists "". split; reflexivity.
  - destruct (p c) eqn:Hc.
    + destruct IH as (l & Hs & Hl). exists (String c l). simpl.
      rewrite Hc, Hl. split; [f_equal; exact Hs | reflexivity].
    + exists "". split; reflexivity.
Qed.

Lemma rstrip_with_spec p s :
  exists r, s = PyStr.rstrip_with p s ++ r /\ all_chars p r = true.
Proof.
  induction s as [|c s IH]; simpl.
  - exists "". split; reflexivity.
  - destruct IH as (r & Hs & Hr).
    destruct (p c) eqn:Hc; simpl.
    + destruct (PyStr.rstrip_with p s) as [|d t] eqn:Ht; simpl.
      * exists (String c s). simpl in Hs. subst r. simpl.
        rewrite Hc, Hr. split; reflexivity.
      * exists r. split; [f_equal; exact Hs | exact Hr].
    + exists r. split; [f_equal; exact Hs | exact Hr].
Qed.

(** Stripping removes characters of the class at both ends and nothing
    else. *)
Lemma strip_with_spec p s :
  exists l r, s = l ++ PyStr.strip_with p s ++ r
              /\ all_chars p l = true /\ all_chars p r = true.
Proof.
  unfold PyStr.strip_with.
  destruct (lstrip_with_spec p s) as (l & Hs & Hl).
  destruct (rstrip_with_spec p (PyStr.lstrip_with p s)) as (r & Hm & Hr).
  exists l, r. split; [|split; assumption].
  rewrite <- Hm. exact Hs.
Qed.

Lemma strip_spec s :
  exists l r, s = l ++ PyStr.strip s ++ r
              /\ all_chars PyStr.is_space l = true
              /\ all_chars PyStr.is_space r = true.
Proof. apply strip_with_spec. Qed.

Lemma int_digits_chars s :
  forall acc prev v,
    PyStr.int_digits acc prev s = Some v ->
    all_chars is_digit_or_underscore s = true.
Proof.
  induction s as [|c s IH]; intros acc prev v H; simpl in *; [reflexivity|].
  unfold is_digit_or_underscore at 1.
  destruct (PyStr.is_digit c); simpl.
  - exact (IH _ _ _ H).
  - destruct (Ascii.eqb c "_"); simpl in *; [|discriminate].
    destruct prev; simpl in H; [|discriminate].
    destruct s as [|d s']; [discriminate|].
    destruct (PyStr.is_digit d) eqn:Hd; [|discriminate].
    exact (IH _ _ _ H).
Qed.

(** What [int()] accepts: whitespace, at most one sign, digits and
    underscores. *)
Lemma int_accepts s v :
  PyStr.int s = Some v ->
  all_chars is_int_char s = true /\ (count_char "-" s <= 1)%nat.
Proof.
  unfold PyStr.int. intros H.
  destruct (strip_with_spec PyStr.is_int_space s) as (l & r & Hs & Hl & Hr).
  assert (Hcore : exists sign body,
             PyStr.strip_with PyStr.is_int_space s = sign ++ body
             /\ all_chars is_digit_or_underscore body = true
             /\ (sign = "" \/ sign = "-" \/ sign = "+")).
  { destruct (PyStr.strip_with PyStr.is_int_space s) as [|c t] eqn:Hst.
    - exists "", "". repeat split. left. reflexivity.
    - destruct (Ascii.eqb_spec c "-") as [->|Hminus].
      + exists "-", t. split; [reflexivity|]. split; [|auto].
        destruct (PyStr.int_digits 0 false t) eqn:Hd; [|discriminate].
        exact (int_digits_chars _ _ _ _ Hd).
      + destruct (Ascii.eqb_spec c "+") as [->|Hplus].
        * exists "+", t. split; [reflexivity|]. split; [|auto].
          exact (int_digits_chars _ _ _ _ H).
        * exists "", (String c t). split; [reflexivity|]. split; [|auto].
          assert (Hd : PyStr.int_digits 0 false (String c t) = Some v).
          { destruct c as [[] [] [] [] [] [] [] []]; try exact H;
              exfalso;
              first [apply Hminus; reflexivity | apply Hplus; reflexivity]. }
          exact (int_digits_chars _ _ _ _ Hd). }
  destruct Hcore as (sign & body & Hst & Hbody & Hsign).
  rewrite Hs, Hst. split.
  - rewrite !all_chars_app.
    rewrite (all_chars_weaken PyStr.is_int_space is_int_char l),
            (all_chars_weaken PyStr.is_int_space is_int_char r),
            (all_chars_weaken is_digit_or_underscore is_int_char body);
      try assumption;
      try (intros c Hc; unfold is_int_char; rewrite Hc;
           rewrite ?orb_true_r; reflexivity).
    destruct Hsign as [-> | [-> | ->]]; reflexivity.
  - rewrite !count_char_app.
    rewrite (count_char_none PyStr.is_int_space "-" l Hl eq_refl),
            (count_char_none PyStr.is_int_space "-" r Hr eq_refl),
            (count_char_none is_digit_or_underscore "-" body Hbody eq_refl).
    destruct Hsign as [-> | [-> | ->]]; simpl; lia.
Qed.

Lemma two_dashes s :
  PyStr.char_at_is 4 "-" s = true -> PyStr.char_at_is 7 "-" s = true ->
  (2 <= count_char "-" s)%nat.
Proof.
  unfold PyStr.char_at_is.
  destruct s as [|c0 [|c1 [|c2 [|c3 [|c4 [|c5 [|c6 [|c7 s]]]]]]]];
    simpl; try discriminate.
  intros H4 H7. rewrite H4, H7. lia.
Qed.

(** A first field that looks like a timestamp is never an integer. *)
Lemma timestamp_is_not_int s :
  looks_like_timestamp s = true -> PyStr.int s = None.
Proof.
  intros Hts. destruct (PyStr.int s) as [v|] eqn:Hint; [|reflexivity].
  exfalso. destruct (int_accepts s v Hint) as [Hchars Hcount].
  unfold looks_like_timestamp in Hts.
  apply orb_true_iff in Hts. destruct Hts as [HT|Hshape].
  - pose proof (all_chars_contains _ _ _ Hchars HT) as Habs. discriminate Habs.
  - apply andb_true_iff in Hshape. destruct Hshape as [Hshape H7].
    apply andb_true_iff in Hshape. destruct Hshape as [_ H4].
    pose proof (two_dashes s H4 H7). lia.
Qed.

(** ** The log parser *)

Section LogParserFacts.

Variable fromisoformat : string -> option Z.
Variable now : nat -> Z.

(** The first loop counts the legacy lines. *)
Lemma count_line_classify n line :
  count_line n line
  = if is_legacy (classify fromisoformat line) then n + 1 else n.
Proof.
  unfold count_line, classify, first_field, second_field.
  destruct (PyStr.strip line) as [|c s] eqn:Hstrip; [reflexivity|].
  cbv beta iota zeta. unfold PyStr.is_empty.
  destruct (PyStr.split " " 2 (String c s)) as [|f1 rest] eqn:Hsplit.
  - reflexivity.
  - simpl hd. destruct (looks_like_timestamp f1); simpl.
    + destruct rest as [|f2 rest]; simpl; [reflexivity|].
      destruct (fromisoformat f1); [|reflexivity].
      destruct (PyStr.int f2); reflexivity.
    + destruct (PyStr.int f1); reflexivity.
Qed.

Lemma fold_count_line lines :
  forall n,
    fold_left count_line lines n
    = n + Z.of_nat (legacy_count (map (classify fromisoformat) lines)).
Proof.
  unfold legacy_count.
  induction lines as [|line lines IH]; intros n; simpl; [lia|].
  rewrite IH, count_line_classify.
  destruct (is_legacy (classify fromisoformat line)); simpl length; lia.
Qed.

(** The second loop treats a line by its class. *)
Lemma parse_line_classify k st line :
  parse_line fromisoformat now k st line
  = match classify fromisoformat line with
    | Current timestamp free_space =>
        {| old_format_index := old_format_index st;
           data_points := data_points st ++ [(timestamp, free_space)];
           clock_reads := clock_reads st |}
    | Legacy free_space =>
        {| old_format_index := old_format_index st + 1;
           data_points :=
             data_points st
               ++ [(now (clock_reads st)
                    - timedelta_hours (k - old_format_index st), free_space)];
           clock_reads := S (clock_reads st) |}
    | Dropped => st
    end.
Proof.
  unfold parse_line, classify,
    first_field, second_field, parse_old_format.
  destruct (PyStr.strip line) as [|c s] eqn:Hstrip; [reflexivity|].
  cbv beta iota zeta. unfold PyStr.is_empty.
  destruct (PyStr.split " " 2 (String c s)) as [|f1 [|f2 rest]] eqn:Hsplit;
    simpl hd; simpl nth_error.
  - reflexivity.
  - destruct (looks_like_timestamp f1) eqn:Hts.
    + rewrite (timestamp_is_not_int f1 Hts). reflexivity.
    + destruct (PyStr.int f1); reflexivity.
  - destruct (looks_like_timestamp f1) eqn:Hts.
    + rewrite (timestamp_is_not_int f1 Hts).
      destruct (fromisoformat f1); [|reflexivity].
      destruct (PyStr.int f2); reflexivity.
    + destruct (PyStr.int f1); reflexivity.
Qed.

Lemma fold_parse_line k lines :
  forall st i,
    clock_reads st = i -> old_format_index st = Z.of_nat i ->
    data_points (fold_left (parse_line fromisoformat now (Z.of_nat k)) lines st)
    = (data_points st
       ++ map snd (backfill now k i (map (classify fromisoformat) lines)))%list.
Proof.
  induction lines as [|line lines IH]; intros st i Hreads Hindex; simpl.
  - rewrite app_nil_r. reflexivity.
  - rewrite parse_line_classify.
    destruct (classify fromisoformat line) as [ts v|v|]; simpl.
    + rewrite (IH _ i) by assumption. simpl. rewrite <- app_assoc. reflexivity.
    + rewrite (IH _ (S i)) by (simpl; lia). simpl.
      rewrite <- app_assoc, Hreads, Hindex. reflexivity.
    + apply IH; assumption.
Qed.

(** The parser is the two-pass series. *)
Lemma parse_log_file_backfill lines :
  _parse_log_file fromisoformat now (Some lines)
  = map snd
      (backfill now (legacy_count (map (classify fromisoformat) lines)) 0
         (map (classify fromisoformat) lines)).
Proof.
  unfold _parse_log_file. rewrite fold_count_line, Z.add_0_l.
  rewrite (fold_parse_line _ lines _ O) by reflexivity.
  reflexivity.
Qed.

Lemma synthetic_times_backfill k cs :
  forall i,
    synthetic_times (backfill now k i cs)
    = map (fun j => now j - timedelta_hours (Z.of_nat k - Z.of_nat j))
        (seq i (legacy_count cs)).
Proof.
  unfold synthetic_times, legacy_count.
  induction cs as [|[ts v|v|] cs IH]; intros i; simpl; auto.
  f_equal. apply IH.
Qed.

Lemma synthetic_times_increasing k n :
  (forall i j, (i <= j)%nat -> now i <= now j) ->
  forall i,
    StronglySorted Z.lt
      (map (fun j => now j - timedelta_hours (Z.of_nat k - Z.of_nat j))
         (seq i n)).
Proof.
  intros Hmono. induction n as [|n IH]; intros i; simpl; constructor.
  - apply IH.
  - apply List.Forall_forall. intros t Hin.
    apply in_map_iff in Hin. destruct Hin as (j & <- & Hj).
    apply in_seq in Hj. pose proof (Hmono i j ltac:(lia)).
    unfold timedelta_hours. lia.
Qed.

End LogParserFacts.

(** C2 as stated fails, in two ways.  In the line [123<tab>(95 GB)] the
    first whitespace-delimited field is the integer [123], so it is a
    legacy line by that reading; the parser splits at spaces only, finds
    the first field [123<tab>(95], which is no integer, and recovers no
    entry.  And the clock is read anew for every legacy line: when it is
    set back by two hours between two readings, the second of two legacy
    lines gets an earlier time than the first. *)
Lemma tabs_and_clock_steps_break_the_backfill :
  first_field_by_whitespace tabbed_line = "123"
  /\ legacy_by_whitespace tabbed_line = true
  /\ PyStr.split " " 2 (PyStr.strip tabbed_line) = ["123" ++ TAB ++ "(95"; "GB)"]
  /\ _parse_log_file IsoFormat.fromisoformat still_clock (Some [tabbed_line])
     = []
  /\ _parse_log_file IsoFormat.fromisoformat stepping_clock
       (Some ["100" ++ NL; "200" ++ NL])
     = [(noon - timedelta_hours 2, 100); (noon - timedelta_hours 3, 200)]
  /\ noon - timedelta_hours 3 < noon - timedelta_hours 2.
Proof. repeat split; reflexivity. Qed.

(** Times in a row are strictly increasing exactly when each one is
    before the next. *)
Lemma sorted_steps (f : nat -> Z) n :
  forall i,
    StronglySorted Z.lt (map f (seq i n))
    <-> forall j, (i <= j)%nat -> (S j < i + n)%nat -> f j < f (S j).
Proof.
  induction n as [|n IH]; intros i; simpl.
  - split; [intros _ j Hij Hj; lia | intros _; constructor].
  - split.
    + intros H. apply StronglySorted_inv in H. destruct H as [Hs Hall].
      intros j Hij Hj.
      destruct (Nat.eq_dec i j) as [<-|Hne].
      * rewrite List.Forall_forall in Hall. apply Hall.
        apply in_map, in_seq. lia.
      * apply (proj1 (IH (S i)) Hs); lia.
    + intros Hstep. constructor.
      * apply (IH (S i)). intros j Hij Hj. apply Hstep; lia.
      * apply List.Forall_forall. intros t Hin.
        apply in_map_iff in Hin. destruct Hin as (j & <- & Hj).
        apply in_seq in Hj.
        assert (Hchain : forall d, (i + S d < i + S n)%nat -> f i < f (i + S d)%nat).
        { induction d as [|d IHd]; intros Hd.
          - replace (i + 1)%nat with (S i) by lia. apply Hstep; lia.
          - pose proof (IHd ltac:(lia)) as H1.
            pose proof (Hstep (i + S d)%nat ltac:(lia) ltac:(lia)) as H2.
            replace (i + S (S d))%nat with (S (i + S d)) by lia. lia. }
        replace j with (i + S (j - S i))%nat by lia. apply Hchain. lia.
Qed.

(** C2, amended: take the fields of a line to be what splitting the
    stripped line at single spaces gives, and the legacy lines to be those
    whose first field is not timestamp-shaped and is accepted by [int()].
    With [k] legacy lines the parser returns, in file order, the
    current-format lines with the timestamps written in them and the legacy
    lines with synthetic timestamps; the [i]-th legacy line (from 0) gets
    the clock reading taken for it minus [k - i] hours, so the first gets
    [k] hours and the last one hour.  All this holds whatever the clock
    does.  The synthetic timestamps are strictly increasing exactly when
    no clock reading is an hour or more before the one taken for the line
    before; in particular they are when the clock does not run
    backwards. *)
Theorem legacy_lines_are_backfilled
    (fromisoformat : string -> option Z) (now : nat -> Z) (lines : list string) :
  let cs := map (classify fromisoformat) lines in
  let k := legacy_count cs in
  let series := backfill now k 0 cs in
  _parse_log_file fromisoformat now (Some lines) = map snd series
  /\ synthetic_times series
     = map (fun i => now i - timedelta_hours (Z.of_nat k - Z.of_nat i)) (seq 0 k)
  /\ ((0 < k)%nat ->
      nth_error (synthetic_times series) 0
      = Some (now O - timedelta_hours (Z.of_nat k))
      /\ nth_error (synthetic_times series) (k - 1)
         = Some (now (k - 1)%nat - timedelta_hours 1))
  /\ (StronglySorted Z.lt (synthetic_times series)
      <-> forall i, (S i < k)%nat -> now i - timedelta_hours 1 < now (S i))
  /\ ((forall i j, (i <= j)%nat -> now i <= now j) ->
      StronglySorted Z.lt (synthetic_times series)).
Proof.
  intros cs k series. subst series k.
  rewrite synthetic_times_backfill.
  split; [apply parse_log_file_backfill|]. split; [reflexivity|].
  split; [|split; [|intros Hclock; apply synthetic_times_increasing;
                     exact Hclock]].
  - intros Hk. split.
    + destruct (legacy_count cs) eqn:E; [lia|].
      cbn [seq map nth_error]. rewrite Z.sub_0_r. reflexivity.
    + rewrite nth_error_map, nth_error_seq.
      destruct (Nat.ltb_spec (legacy_count cs - 1) (legacy_count cs)); [|lia].
      cbn [option_map Nat.add].
      replace (Z.of_nat (legacy_count cs) - Z.of_nat (legacy_count cs - 1))
        with 1 by lia.
      reflexivity.
  - rewrite sorted_steps. unfold timedelta_hours.
    split; intros H i.
    + intros Hi. pose proof (H i ltac:(lia) ltac:(lia)). lia.
    + intros _ Hi. pose proof (H i ltac:(lia)). lia.
Qed.

Lemma legacy_lines_are_backfilled_witness :
  _parse_log_file IsoFormat.fromisoformat still_clock (Some sample_log)
  = [(noon - timedelta_hours 2, 102176960512);
     (63839707200123456, 102176960512);
     (noon - timedelta_hours 1, 55)]
  /\ StronglySorted Z.lt [noon - timedelta_hours 2; noon - timedelta_hours 1].
Proof.
  destruct (legacy_lines_are_backfilled IsoFormat.fromisoformat still_clock
              sample_log)
    as (Hseries & _ & _ & _ & Hsorted).
  split; [exact Hseries | exact (Hsorted (fun _ _ _ => Z.le_refl noon))].
Defined.

(** ** Exit status *)

Lemma main_returns_1_without_settings e w :
  fst (main e SettingsMissing w) = 1 /\ fst (main e SettingsNotJson w) = 1.
Proof. split; reflexivity. Qed.

Lemma main_returns_1_on_bad_config e c w ex :
  __init__ (mkdir_error e) c = Raise ex -> main e (Settings c) w = (1, w).
Proof.
  intros H. unfold main; simpl. rewrite H. destruct ex; reflexivity.
Qed.

Example configuration_errors :
  __init__ None (sample_config None [DriveObject (Some "/") (Some "10GB")])
  = Raise ValueError
  /\ __init__ None (sample_config (Some "token") []) = Raise ValueError
  /\ __init__ None
       (sample_config (Some "token") [DriveObject (Some "/") (Some "10XB")])
     = Raise ValueError
  /\ __init__ None
       (sample_config (Some "token") [DriveObject (Some "/") None])
     = Raise ValueError
  /\ __init__ (Some OSError)
       (sample_config (Some "token") [DriveObject (Some "/") (Some "10GB")])
     = Raise OSError
  /\ __init__ None
       (sample_config (Some "token") [DriveObject (Some "/") (Some "10GB")])
     = Ok (sample_monitor None [root_drive]).
Proof. repeat split; vm_compute; reflexivity. Qed.

Lemma script_exit_status_0 e f w : script_exit_status e f w = 0.
Proof. unfold script_exit_status. destruct (main e f w); reflexivity. Qed.

(** C1: when the settings file does not exist, [main()] returns 1, yet
    the script drops that value and the process ends with status 0; the
    exit status of the process is 0 whatever the configuration. *)
Theorem exit_status_drops_main_value e w :
  fst (main e SettingsMissing w) = 1
  /\ script_exit_status e SettingsMissing w = 0
  /\ (forall f, script_exit_status e f w = 0).
Proof.
  split; [reflexivity|]. split; [reflexivity|].
  intros f. apply script_exit_status_0.
Qed.

(** ** The notification tracker *)

Lemma counted_date today n : counted today n !! "date" = Some (JStr today).
Proof.
  unfold counted, fresh_record.
  rewrite lookup_insert_ne by discriminate. apply lookup_insert_eq.
Qed.

Lemma counted_count today n : counted today n !! "count" = Some (JInt n).
Proof. unfold counted. apply lookup_insert_eq. Qed.

Lemma fresh_record_count today : fresh_record today !! "count" = Some (JInt 0).
Proof.
  unfold fresh_record.
  rewrite lookup_insert_ne by discriminate. apply lookup_insert_eq.
Qed.

Lemma count_today_counted today n :
  _get_notification_count_today today (Tracking (counted today n)) = JInt n.
Proof.
  unfold _get_notification_count_today.
  rewrite decide_True by apply counted_date.
  rewrite counted_count. reflexivity.
Qed.

Lemma increment_counted today n :
  _increment_notification_count today (Tracking (counted today n))
  = Tracking (counted today (n + 1)).
Proof.
  unfold _increment_notification_count.
  rewrite decide_True by apply counted_date.
  rewrite counted_count. simpl. f_equal.
Qed.

Lemma increment_stale today d :
  d !! "date" ≠ Some (JStr today) ->
  _increment_notification_count today (Tracking d) = Tracking (counted today 1).
Proof.
  intros H. unfold _increment_notification_count.
  rewrite decide_False by exact H.
  fold (fresh_record today). rewrite fresh_record_count. reflexivity.
Qed.

Lemma increment_no_file today :
  _increment_notification_count today NoFile = Tracking (counted today 1).
Proof. reflexivity. Qed.

Lemma increment_iter_counted today n k :
  Nat.iter k (_increment_notification_count today) (Tracking (counted today n))
  = Tracking (counted today (n + Z.of_nat k)).
Proof.
  induction k as [|k IH].
  - simpl. do 2 f_equal. lia.
  - rewrite Nat.iter_succ, IH, increment_counted. do 2 f_equal. lia.
Qed.

Lemma count_after_sends today file n :
  _increment_notification_count today file = Tracking (counted today 1) ->
  _get_notification_count_today today file = JInt 0 ->
  _get_notification_count_today today
    (Nat.iter n (_increment_notification_count today) file)
  = JInt (Z.of_nat n).
Proof.
  intros Hstep Hzero. destruct n as [|n]; [exact Hzero|].
  rewrite Nat.iter_succ_r, Hstep, increment_iter_counted, count_today_counted.
  f_equal. lia.
Qed.

(** A tracking file that does not parse is never repaired: the count
    stays 0 however many sends are recorded. *)
Lemma increment_not_json today : _increment_notification_count today NotJson = NotJson.
Proof. reflexivity. Qed.

(** C3: if the stored date differs from today, [count_today()] is 0
    whatever count is stored; [record_send()] then leaves the record
    [{date: today, count: 1}], that is, the fresh record for today
    incremented once; and after [n] calls of [record_send()] on that day,
    starting from such a record or from no file, [count_today()] is [n]. *)
Theorem count_never_spans_a_day (today : string) (d : gmap string json) (n : nat)
    (Hdate : d !! "date" ≠ Some (JStr today)) :
  _get_notification_count_today today (Tracking d) = JInt 0
  /\ _increment_notification_count today (Tracking d)
     = Tracking (<["count" := JInt (0 + 1)]> (fresh_record today))
  /\ _get_notification_count_today today
       (Nat.iter n (_increment_notification_count today) (Tracking d))
     = JInt (Z.of_nat n)
  /\ _get_notification_count_today today
       (Nat.iter n (_increment_notification_count today) NoFile)
     = JInt (Z.of_nat n).
Proof.
  assert (Hzero : _get_notification_count_today today (Tracking d) = JInt 0).
  { unfold _get_notification_count_today. rewrite decide_False by exact Hdate.
    reflexivity. }
  split; [exact Hzero|]. split; [exact (increment_stale today d Hdate)|].
  split.
  - apply count_after_sends; [exact (increment_stale today d Hdate) | exact Hzero].
  - apply count_after_sends; reflexivity.
Qed.

Lemma count_never_spans_a_day_witness :
  _get_notification_count_today "2024-01-02" (Tracking yesterday_record) = JInt 0
  /\ _increment_notification_count "2024-01-02" (Tracking yesterday_record)
     = Tracking (<["count" := JInt (0 + 1)]> (fresh_record "2024-01-02"))
  /\ _get_notification_count_today "2024-01-02"
       (Nat.iter 3 (_increment_notification_count "2024-01-02")
          (Tracking yesterday_record))
     = JInt (Z.of_nat 3)
  /\ _get_notification_count_today "2024-01-02"
       (Nat.iter 3 (_increment_notification_count "2024-01-02") NoFile)
     = JInt (Z.of_nat 3).
Proof.
  apply (count_never_spans_a_day "2024-01-02" yesterday_record 3).
  vm_compute. discriminate.
Defined.

(** ** The sender *)

Lemma check_daily_limit_allow e m w count_today :
  _get_notification_count_today (today e) (tracking w) = JInt count_today ->
  check_daily_limit e m w
  = if allow (max_push_notifications_per_day m) count_today then Proceed
    else LimitHit count_today (default 0 (max_push_notifications_per_day m)).
Proof.
  intros H. unfold check_daily_limit, allow.
  destruct (max_push_notifications_per_day m) as [max|]; [|reflexivity].
  rewrite H. simpl.
  destruct (Z.leb_spec max count_today), (Z.ltb_spec count_today max);
    try reflexivity; lia.
Qed.

(** C4: without a cap the POST is made.  With a cap [max] and [count]
    sends counted today, the POST is made if and only if [count < max];
    otherwise the call returns [False], prints the limit message and makes
    no POST.  With [max = 0] and a count that is not negative, no POST is
    made. *)
Theorem send_respects_daily_cap e m title message priority w :
  let data := post_data m title message priority in
  let out := send_pushover_notification e m title message priority w in
  match max_push_notifications_per_day m with
  | None => http (snd out) = (http w ++ [data])%list
  | Some max =>
      forall count_today,
        _get_notification_count_today (today e) (tracking w) = JInt count_today ->
        (count_today < max <-> http (snd out) = (http w ++ [data])%list)
        /\ (~ count_today < max ->
            out = (Ok false, print (LimitReached count_today max) w)
            /\ http (snd out) = http w)
        /\ (max = 0 -> 0 <= count_today ->
            fst out = Ok false /\ http (snd out) = http w)
  end.
Proof.
  intros data out. subst out.
  unfold send_pushover_notification, check_daily_limit.
  destruct (max_push_notifications_per_day m) as [max|] eqn:Hmax.
  - intros count_today Hcount. rewrite Hcount.
    destruct (Z.leb_spec max count_today) as [Hle|Hlt]; simpl.
    + repeat split.
      * intros Hc. lia.
      * intros Heq. apply (f_equal (@length _)) in Heq.
        rewrite length_app in Heq. simpl in Heq. lia.
    + fold data. split; [|split].
      * split; [intros _|intros _; exact Hlt].
        destruct (post_succeeds e data); reflexivity.
      * intros Hn. lia.
      * intros -> Hc. lia.
  - simpl. fold data. destruct (post_succeeds e data); reflexivity.
Qed.

Lemma send_respects_daily_cap_witness :
  fst (send_pushover_notification sample_env (sample_monitor (Some 0) [root_drive])
         "title" "message" 1 clean_world) = Ok false
  /\ http (snd (send_pushover_notification sample_env
                  (sample_monitor (Some 0) [root_drive])
                  "title" "message" 1 clean_world)) = [].
Proof.
  pose proof (send_respects_daily_cap sample_env
                (sample_monitor (Some 0) [root_drive])
                "title" "message" 1 clean_world) as H.
  simpl in H. destruct (H 0 eq_refl) as (_ & _ & H0).
  apply H0; [reflexivity | lia].
Defined.

(** C5 as stated fails without a cap: the POST succeeds and the call
    returns [True], but the tracking file is not touched, whereas
    [record_send()] would have created it. *)
Lemma send_without_cap_does_not_record :
  let out := send_pushover_notification sample_env
               (sample_monitor None [root_drive]) "title" "message" 1
               clean_world in
  fst out = Ok true
  /\ tracking (snd out) = NoFile
  /\ tracking (snd out)
     <> _increment_notification_count (today sample_env) (tracking clean_world).
Proof. vm_compute. repeat split; discriminate. Qed.

(** C5, amended: when the limit check lets the send go on and the POST
    succeeds, the call returns [True]; if a daily cap is set the tracking
    file is what [_increment_notification_count] leaves, and if none is set
    the tracking file is left as it was. *)
Theorem successful_send_is_recorded_under_a_cap e m title message priority w
    (Hallow : check_daily_limit e m w = Proceed)
    (Hpost : post_succeeds e (post_data m title message priority) = true) :
  let out := send_pushover_notification e m title message priority w in
  fst out = Ok true
  /\ match max_push_notifications_per_day m with
     | Some _ =>
         tracking (snd out)
         = _increment_notification_count (today e) (tracking w)
     | None => tracking (snd out) = tracking w
     end.
Proof.
  intros out. subst out. unfold send_pushover_notification.
  rewrite Hallow, Hpost.
  destruct (max_push_notifications_per_day m); split; reflexivity.
Qed.

Lemma successful_send_is_recorded_under_a_cap_witness :
  fst (send_pushover_notification sample_env (sample_monitor (Some 3) [root_drive])
         "title" "message" 1 clean_world) = Ok true
  /\ tracking (snd (send_pushover_notification sample_env
                      (sample_monitor (Some 3) [root_drive])
                      "title" "message" 1 clean_world))
     = _increment_notification_count "2024-01-02" NoFile.
Proof.
  apply (successful_send_is_recorded_under_a_cap sample_env
           (sample_monitor (Some 3) [root_drive]) "title" "message" 1
           clean_world); reflexivity.
Defined.

(** ** The loop over the drives *)

Lemma In_print x ev w : In x (stdout w) -> In x (stdout (print ev w)).
Proof. intros H. simpl. apply in_or_app. left. exact H. Qed.

Lemma stdout_send e m title message priority w :
  forall x, In x (stdout w) ->
    In x (stdout (snd (send_pushover_notification e m title message priority w))).
Proof.
  intros x H. unfold send_pushover_notification.
  destruct (check_daily_limit e m w); simpl; auto.
  - destruct (post_succeeds e _); [destruct (max_push_notifications_per_day m)|];
      simpl; auto.
    apply in_or_app. left. exact H.
  - apply in_or_app. left. exact H.
Qed.

(** [_generate_graph] only prints: it returns in the state it was called
    in, or after one or two more lines, or it raises in the state it was
    called in. *)
Lemma generate_graph_cases e drive_path w :
  (exists ex, _generate_graph e drive_path w = (Raise ex, w))
  \/ _generate_graph e drive_path w = (Ok tt, w)
  \/ (exists ev, _generate_graph e drive_path w = (Ok tt, print ev w))
  \/ (exists ev1 ev2,
        _generate_graph e drive_path w = (Ok tt, print ev2 (print ev1 w))).
Proof.
  unfold _generate_graph. destruct (has_matplotlib e); simpl.
  - destruct (length _ <? 2)%nat; [right; left; reflexivity|].
    destruct (plot e drive_path _) as [| |ex].
    + right; right; left. eexists. reflexivity.
    + right; right; left. eexists. reflexivity.
    + left. exists ex. reflexivity.
  - right; right; right. eexists _, _. reflexivity.
Qed.

Lemma stdout_generate_graph e drive_path w :
  forall x, In x (stdout w) ->
    In x (stdout (snd (_generate_graph e drive_path w))).
Proof.
  intros x H.
  destruct (generate_graph_cases e drive_path w)
    as [(ex & ->)|[->|[(ev & ->)|(ev1 & ev2 & ->)]]]; simpl;
    repeat (apply in_or_app; left); exact H.
Qed.

(** What has been printed stays printed. *)
Lemma stdout_loop e m ds :
  forall w x, In x (stdout w) ->
    In x (stdout (snd (check_and_notify_loop e m ds w))).
Proof.
  induction ds as [|d ds IH]; intros w x H; simpl; [exact H|].
  destruct (disk_usage e (drive_path d)) as [[[total used] free]|].
  - destruct (free_percent free total) as [fp|]; [|exact H].
    set (w0 := _log_free_space e (drive_path d) free _).
    assert (H0 : In x (stdout w0)) by (apply In_print; exact H).
    pose proof (stdout_generate_graph e (drive_path d) w0 x H0) as H1.
    destruct (_generate_graph e (drive_path d) w0) as [[[]|ex] w1];
      simpl in H1; [|exact H1].
    destruct (free <? minimum_bytes d).
    + pose proof (stdout_send e m (alert_title (drive_path d))
                    (alert_message (drive_path d) free used total fp
                       (minimum_bytes d)) 1
                    (print (AlertLine ("⚠️  ALERT: " ++ drive_path d
                                         ++ " below threshold!")) w1) x
                    (In_print _ _ _ H1)) as H2.
      destruct (send_pushover_notification _ _ _ _ _ _) as [[r|ex] w2];
        simpl in *; auto.
    + apply IH. exact H1.
  - apply IH. apply In_print. exact H.
Qed.

(** The loop over a concatenation: the second part runs from where the
    first one ended, unless the first one raised. *)
Lemma loop_app e m ds1 ds2 :
  forall w,
    check_and_notify_loop e m (ds1 ++ ds2) w
    = match check_and_notify_loop e m ds1 w with
      | (Ok _, w') => check_and_notify_loop e m ds2 w'
      | (Raise ex, w') => (Raise ex, w')
      end.
Proof.
  induction ds1 as [|d ds1 IH]; intros w; simpl; [reflexivity|].
  destruct (disk_usage e (drive_path d)) as [[[total used] free]|]; [|apply IH].
  destruct (free_percent free total) as [fp|]; [|reflexivity].
  destruct (_generate_graph e (drive_path d) _) as [[[]|ex] w1]; [|reflexivity].
  destruct (free <? minimum_bytes d); [|apply IH].
  destruct (send_pushover_notification _ _ _ _ _ _) as [[r|ex] w2];
    [apply IH | reflexivity].
Qed.

Lemma free_percent_None free total :
  free_percent free total = None <-> total = 0.
Proof.
  unfold free_percent, PyFloat.int_truediv.
  destruct (Z.eqb_spec total 0); split; intros H; congruence.
Qed.

(** C9 as stated fails: for 5 GB free of 100 GB the percentage is printed
    with one decimal place, [5.0], not [5.00]. *)
Lemma percent_is_not_printed_with_two_decimals :
  percent_text <$> free_percent (5 * GB) (100 * GB) <> Some "5.00"
  /\ stdout (snd (check_and_notify sample_env (sample_monitor None [root_drive])
                    clean_world))
     = [StatusLine "Drive /: 5.00 GB free (5.0%) of 100.00 GB [threshold: 10.00 GB]";
        AlertLine "⚠️  ALERT: / below threshold!"].
Proof. vm_compute. split; [discriminate | reflexivity]. Qed.

(** C9, amended: for a volume with 100 GB in total and 5 GB free,
    [free / total * 100] is the float 5.0, it is rendered with one decimal
    place as [5.0], and the check prints the status line with [(5.0%)]:
    this holds for a volume at any place in the list of drives, provided
    the check gets to it, that is, the drives before it are gone through
    without an exception. *)
Theorem status_line_reports_one_decimal e m w w' before path threshold after used
    (Hdrives : drives m
               = (before
                  ++ {| drive_path := path; minimum_bytes := threshold |}
                       :: after)%list)
    (Hbefore : check_and_notify_loop e m before w = (Ok tt, w'))
    (Hquery : disk_usage e path = Some (100 * GB, used, 5 * GB)) :
  free_percent (5 * GB) (100 * GB) = Some (PyFloat.Fin 5%Q)
  /\ percent_text (PyFloat.Fin 5%Q) = "5.0"
  /\ In (StatusLine ("Drive " ++ path ++ ": 5.00 GB free (5.0%) of 100.00 GB"
                       ++ " [threshold: " ++ format_bytes threshold ++ "]"))
       (stdout (snd (check_and_notify e m w))).
Proof.
  split; [reflexivity|]. split; [reflexivity|].
  unfold check_and_notify. rewrite Hdrives, loop_app, Hbefore.
  simpl. rewrite Hquery.
  change (free_percent (5 * GB) (100 * GB)) with (Some (PyFloat.Fin 5%Q)).
  cbv iota beta.
  set (line := StatusLine _).
  assert (Hline : line = StatusLine (status_line path (5 * GB) (100 * GB)
                                       (PyFloat.Fin 5%Q) threshold))
    by reflexivity.
  set (w0 := _log_free_space e path (5 * GB) (print line w')).
  assert (H0 : In line (stdout w0)).
  { simpl. apply in_or_app. right. left. reflexivity. }
  pose proof (stdout_generate_graph e path w0 line H0) as H1.
  destruct (_generate_graph e path w0) as [[[]|ex] w1];
    simpl in H1 |- *; [|exact H1].
  destruct (5 * GB <? threshold).
  - pose proof (stdout_send e m (alert_title path)
                  (alert_message path (5 * GB) used (100 * GB)
                     (PyFloat.Fin 5%Q) threshold) 1
                  (print (AlertLine ("⚠️  ALERT: " ++ path
                                       ++ " below threshold!")) w1) line
                  (In_print _ _ _ H1)) as H2.
    destruct (send_pushover_notification _ _ _ _ _ _) as [[r|ex] w2];
      simpl in H2 |- *; [apply stdout_loop|]; exact H2.
  - apply stdout_loop. exact H1.
Qed.

Lemma status_line_reports_one_decimal_witness :
  In (StatusLine ("Drive " ++ "/" ++ ": 5.00 GB free (5.0%) of 100.00 GB"
                    ++ " [threshold: " ++ format_bytes (10 * GB) ++ "]"))
    (stdout (snd (check_and_notify sample_env
                    (sample_monitor None [absent_drive; root_drive; absent_drive])
                    clean_world))).
Proof.
  apply (status_line_reports_one_decimal sample_env
           (sample_monitor None [absent_drive; root_drive; absent_drive])
           clean_world (print (DiskError "/absent/") clean_world)
           [absent_drive] "/" (10 * GB) [absent_drive] (95 * GB));
    reflexivity.
Defined.

(** C10: the division raises exactly when the total is 0.  When the
    query of a drive succeeds with a total of 0, the loop raises
    [ZeroDivisionError] at that drive: the state is the one the drives
    before it left, and the drives after it are not looked at.  When the
    query fails, only an error line is printed and the loop goes on with
    the drives after it. *)
Theorem zero_total_aborts_the_loop e m before d after w w' used free
    (Hbefore : check_and_notify_loop e m before w = (Ok tt, w')) :
  (forall f t, free_percent f t = None <-> t = 0)
  /\ (disk_usage e (drive_path d) = Some (0, used, free) ->
      check_and_notify_loop e m (before ++ d :: after) w
      = (Raise ZeroDivisionError, w'))
  /\ (disk_usage e (drive_path d) = None ->
      check_and_notify_loop e m (before ++ d :: after) w
      = check_and_notify_loop e m after
          (print (DiskError (normalize_drive (os_name_nt e) (drive_path d))) w')).
Proof.
  split; [exact free_percent_None|].
  split; intros Hq; rewrite loop_app, Hbefore; simpl; rewrite Hq; reflexivity.
Qed.

Lemma zero_total_aborts_the_loop_witness :
  check_and_notify_loop sample_env (sample_monitor None [])
    ([absent_drive] ++ empty_drive :: [root_drive]) clean_world
  = (Raise ZeroDivisionError, print (DiskError "/absent/") clean_world).
Proof.
  apply (zero_total_aborts_the_loop sample_env (sample_monitor None [])
           [absent_drive] empty_drive [root_drive] clean_world
           (print (DiskError "/absent/") clean_world) 0 0);
    reflexivity.
Defined.

(** ** Formatting with several units *)

Lemma parts_total_filter l :
  parts_total (List.filter nonzero l) = parts_total l.
Proof.
  induction l as [|[v n] l IH]; [reflexivity|].
  simpl List.filter. unfold nonzero at 1. simpl fst.
  destruct (Z.eqb_spec v 0) as [->|Hv]; simpl; rewrite IH; lia.
Qed.

Lemma sublist_List_filter {A} (f : A -> bool) (l : list A) :
  sublist (List.filter f l) l.
Proof.
  induction l as [|x l IH]; simpl; [constructor|].
  destruct (f x); [apply sublist_skip | apply sublist_cons]; exact IH.
Qed.

Lemma sublist_map {A B} (f : A -> B) (l1 l2 : list A) :
  sublist l1 l2 -> sublist (map f l1) (map f l2).
Proof.
  induction 1; simpl; [constructor | apply sublist_skip | apply sublist_cons];
    assumption.
Qed.

Lemma multiple_units_parts_remainders us :
  Forall (fun u => 0 < snd u) us ->
  forall remaining, 0 <= remaining ->
    multiple_units_parts us remaining
    = List.filter nonzero (remainder_table us remaining).
Proof.
  induction 1 as [|[name size] us Hsize _ IH]; intros remaining Hr;
    [reflexivity|].
  simpl in Hsize. simpl. unfold nonzero at 1. simpl fst.
  destruct (Z.leb_spec size remaining) as [Hle|Hlt].
  - assert (Hq : 0 < remaining / size) by (apply Z.div_str_pos; lia).
    destruct (Z.eqb_spec (remaining / size) 0) as [H0|_]; [lia|].
    simpl. f_equal. apply IH. apply Z.mod_pos_bound. exact Hsize.
  - rewrite Z.div_small by lia. simpl.
    rewrite Z.mod_small by lia. apply IH. exact Hr.
Qed.

Lemma mod_mod_1024 a k :
  0 < k -> (a mod (1024 * k)) mod k = a mod k.
Proof.
  intros Hk. apply Z.mod_mod_divide. exists 1024. reflexivity.
Qed.

Lemma remainder_table_units b : remainder_table units b = division_table b.
Proof.
  unfold units, division_table, remainder_table.
  change (1024 ^ 4) with (1024 * 1024 ^ 3).
  change (1024 ^ 3) with (1024 * 1024 ^ 2).
  change (1024 ^ 2) with (1024 * 1024).
  rewrite !mod_mod_1024 by lia. rewrite Z.div_1_r. reflexivity.
Qed.

Lemma multiple_units_parts_table b :
  0 <= b -> multiple_units_parts units b = List.filter nonzero (division_table b).
Proof.
  intros Hb. rewrite <- remainder_table_units.
  apply multiple_units_parts_remainders; [|exact Hb].
  unfold units. repeat constructor.
Qed.

(** C7: for [0 <= b] the components printed are the non-zero entries of
    the table of counts by division and modulo, in the order TB, GB, MB,
    KB, B; their counts times their unit sizes add up to [b]; none is
    zero; 0 is rendered as [0 B], and any other [b] as the components
    joined by spaces. *)
Theorem multiple_units_decompose_exactly (b : Z) (Hb : 0 <= b) :
  let parts := multiple_units_parts units b in
  parts = List.filter nonzero (division_table b)
  /\ parts_total parts = b
  /\ Forall (fun p => 0 < fst p) parts
  /\ sublist (map snd parts) ["TB"; "GB"; "MB"; "KB"; "B"]
  /\ format_bytes_multiple_units 0 = "0 B"
  /\ (0 < b ->
      format_bytes_multiple_units b = PyStr.join " " (map render_part parts)).
Proof.
  intros parts. subst parts.
  rewrite (multiple_units_parts_table b Hb).
  split; [reflexivity|]. split; [|split; [|split; [|split]]].
  - rewrite parts_total_filter. unfold parts_total, division_table, unit_value.
    simpl. Z.to_euclidean_division_equations. lia.
  - apply List.Forall_forall. intros [v n] Hin.
    apply filter_In in Hin. destruct Hin as [Hin Hnz].
    unfold nonzero in Hnz. simpl in *.
    apply negb_true_iff, Z.eqb_neq in Hnz.
    assert (0 <= v); [|lia].
    unfold division_table in Hin. simpl in Hin.
    change (1024 ^ 4) with 1099511627776 in Hin.
    change (1024 ^ 3) with 1073741824 in Hin.
    change (1024 ^ 2) with 1048576 in Hin.
    repeat (destruct Hin as [Hin|Hin];
            [inversion Hin; subst; Z.to_euclidean_division_equations; lia|]).
    destruct Hin.
  - change ["TB"; "GB"; "MB"; "KB"; "B"] with (map snd (division_table b)).
    apply sublist_map. apply sublist_List_filter.
  - reflexivity.
  - intros Hpos. unfold format_bytes_multiple_units.
    destruct (Z.eqb_spec b 0) as [->|_]; [lia|].
    rewrite (multiple_units_parts_table b Hb).
    destruct (map render_part (List.filter nonzero (division_table b))) eqn:E;
      [|reflexivity].
    exfalso. apply map_eq_nil in E.
    assert (Ht : parts_total (List.filter nonzero (division_table b)) = b).
    { rewrite parts_total_filter. unfold parts_total, division_table, unit_value.
      simpl. Z.to_euclidean_division_equations. lia. }
    rewrite E in Ht. simpl in Ht. lia.
Qed.

Lemma multiple_units_decompose_exactly_witness :
  multiple_units_parts units 102176960512 = [(95, "GB"); (163, "MB"); (556, "KB")]
  /\ parts_total (multiple_units_parts units 102176960512) = 102176960512
  /\ format_bytes_multiple_units 102176960512 = "95 GB 163 MB 556 KB".
Proof.
  assert (H0 : 0 <= 102176960512) by lia.
  destruct (multiple_units_decompose_exactly 102176960512 H0)
    as (_ & Hsum & _ & _ & _ & _).
  split; [reflexivity|]. split; [exact Hsum | reflexivity].
Defined.

(** ** The log file name *)

(** C8: for the path [:] the stem of the log file name is empty (the
    file is [.log]): the empty name is replaced by [root] before the colons
    are removed, not after.  Taking the steps in the order the
    specification lists them gives [root]. *)
Theorem log_name_of_a_colon_is_empty :
  safe_name ":" = ""
  /\ _get_log_filename ":" = ".log"
  /\ safe_name_as_specified ":" = "root".
Proof. repeat split; reflexivity. Qed.

Lemma log_name_examples :
  _get_log_filename "/" = "root.log"
  /\ _get_log_filename "C:" = "C.log"
  /\ _get_log_filename "C:\" = "C.log"
  /\ _get_log_filename "/mnt/data/" = "_mnt_data.log".
Proof. repeat split; reflexivity. Qed.

(** ** The size parser *)

Lemma span_spec p s :
  forall a b, span p s = (a, b) -> s = a ++ b /\ all_chars p a = true.
Proof.
  induction s as [|c s IH]; intros a b H; simpl in H.
  - inversion H. split; reflexivity.
  - destruct (p c) eqn:Hc.
    + destruct (span p s) as [a' b'] eqn:Hsp. inversion H; subst.
      destruct (IH a' b eq_refl) as [Hs Ha]. simpl. rewrite Hc, Ha.
      split; [f_equal; exact Hs | reflexivity].
    + inversion H. split; reflexivity.
Qed.

Lemma is_empty_false s : PyStr.is_empty s = false -> s <> "".
Proof. destruct s; [discriminate | intros _; discriminate]. Qed.

Lemma match_fraction_spec r fr r1 :
  match_fraction r = (fr, r1) ->
  exists fraction,
    r = fraction ++ r1
    /\ (fraction = "" \/ exists f, fraction = "." ++ f /\ is_number f).
Proof.
  unfold match_fraction. destruct r as [|c r'].
  - intros H. inversion H. exists "". split; [reflexivity | left; reflexivity].
  - destruct (Ascii.eqb_spec c ".") as [->|_].
    + destruct (span PyStr.is_digit r') as [fs r''] eqn:Hsp.
      destruct (span_spec _ _ _ _ Hsp) as [Hr' Hfs].
      destruct (PyStr.is_empty fs) eqn:He; intros H; inversion H; subst.
      * exists "". split; [reflexivity | left; reflexivity].
      * exists ("." ++ fs). split; [reflexivity|].
        right. exists fs. split; [reflexivity|].
        split; [apply is_empty_false; exact He | exact Hfs].
    + intros H. inversion H. exists "". split; [reflexivity | left; reflexivity].
Qed.

Lemma match_unit_spec r unit r4 :
  match_unit r = (unit, r4) -> r = unit ++ r4.
Proof.
  unfold match_unit. intros H.
  destruct r as [|c r']; simpl in H.
  - inversion H. reflexivity.
  - destruct (is_prefix_letter c).
    + destruct r' as [|d r'']; simpl in H.
      * inversion H. reflexivity.
      * destruct (Ascii.eqb_spec d "B") as [->|_]; inversion H; reflexivity.
    + destruct (Ascii.eqb_spec c "B") as [->|_]; inversion H; reflexivity.
Qed.

Lemma unit_multiplier_known unit multiplier :
  unit_multiplier unit = Some multiplier -> In unit known_units.
Proof.
  unfold unit_multiplier, known_units. simpl.
  destruct (String.eqb_spec unit "B") as [->|_]; [tauto|].
  destruct (String.eqb_spec unit "") as [->|_]; [tauto|]. simpl.
  destruct (String.eqb_spec unit "KB") as [->|_]; [tauto|].
  destruct (String.eqb_spec unit "MB") as [->|_]; [tauto|].
  destruct (String.eqb_spec unit "GB") as [->|_]; [tauto|].
  destruct (String.eqb_spec unit "TB") as [->|_]; [tauto|].
  discriminate.
Qed.

Lemma append_assoc (a b c : string) : (a ++ b) ++ c = a ++ b ++ c.
Proof. induction a as [|x a IH]; simpl; [reflexivity | f_equal; exact IH]. Qed.

(** What the pattern matches is a string of the grammar, possibly with
    one newline after it. *)
Lemma match_size_sound s number fr unit multiplier :
  match_size s = Some (number, fr, unit) ->
  unit_multiplier unit = Some multiplier ->
  exists tail, (tail = "" \/ tail = NL)
               /\ exists g, s = g ++ tail /\ size_grammar g.
Proof.
  unfold match_size. intros H Hunit.
  destruct (span PyStr.is_digit s) as [ds r] eqn:Hds.
  destruct (PyStr.is_empty ds) eqn:He; [discriminate|].
  destruct (match_fraction r) as [fr' r1] eqn:Hfr.
  destruct (span PyStr.is_space r1) as [sp r2] eqn:Hsp.
  destruct (match_unit r2) as [u r4] eqn:Hu.
  destruct (span_spec _ _ _ _ Hds) as [Hs Hdigits].
  destruct (match_fraction_spec _ _ _ Hfr) as (fraction & Hr & Hfraction).
  destruct (span_spec _ _ _ _ Hsp) as [Hr1 Hspaces].
  pose proof (match_unit_spec _ _ _ Hu) as Hr2.
  destruct (PyStr.is_empty r4 || (r4 =? String "010" "")%string) eqn:Hend;
    [|discriminate].
  inversion H; subst number fr' u. clear H.
  exists r4. split.
  - apply orb_true_iff in Hend. destruct Hend as [Hend|Hend].
    + left. destruct r4; [reflexivity | discriminate].
    + right. apply String.eqb_eq in Hend. exact Hend.
  - exists (ds ++ fraction ++ sp ++ unit). split.
    + rewrite Hs, Hr, Hr1, Hr2. rewrite !append_assoc. reflexivity.
    + exists ds, fraction, sp, unit. split; [reflexivity|].
      split; [split; [apply is_empty_false; exact He | exact Hdigits]|].
      split; [exact Hfraction|]. split; [exact Hspaces|].
      exact (unit_multiplier_known _ _ Hunit).
Qed.


(** ** [_parse_size] on every [str] *)

Section UnicodeParseSize.

Local Open Scope list_scope.

Variable decimal : N -> option Z.
Variable upper_char : N -> Unicode.str.

(** *** Stripping *)

Lemma unicode_lstrip_spec s :
  exists l, s = l ++ Unicode.lstrip s /\ forallb Unicode.is_space l = true.
Proof.
  induction s as [|c s IH]; simpl.
  - exists []. split; reflexivity.
  - destruct (Unicode.is_space c) eqn:Hc.
    + destruct IH as (l & Hs & Hl). exists (c :: l). simpl.
      rewrite Hc, Hl. split; [f_equal; exact Hs | reflexivity].
    + exists []. split; reflexivity.
Qed.

Lemma unicode_lstrip_head s c t :
  Unicode.lstrip s = c :: t -> Unicode.is_space c = false.
Proof.
  induction s as [|d s IH]; simpl; [discriminate|].
  destruct (Unicode.is_space d) eqn:Hd; [exact IH|].
  intros H. inversion H; subst. exact Hd.
Qed.

Lemma unicode_rstrip_spec s :
  exists r, s = Unicode.rstrip s ++ r /\ forallb Unicode.is_space r = true.
Proof.
  induction s as [|c s IH]; simpl.
  - exists []. split; reflexivity.
  - destruct IH as (r & Hs & Hr).
    destruct (Unicode.is_space c) eqn:Hc; simpl.
    + destruct (Unicode.rstrip s) as [|d t] eqn:Ht; simpl.
      * exists (c :: s). simpl in Hs. subst r. simpl.
        rewrite Hc, Hr. split; reflexivity.
      * exists r. split; [f_equal; exact Hs | exact Hr].
    + exists r. split; [f_equal; exact Hs | exact Hr].
Qed.

Lemma unicode_rstrip_last s :
  forall t c, Unicode.rstrip s = t ++ [c] -> Unicode.is_space c = false.
Proof.
  induction s as [|d s IH]; intros t c; simpl.
  - destruct t; discriminate.
  - destruct (Unicode.is_space d && Unicode.is_empty (Unicode.rstrip s)) eqn:E.
    + destruct t; discriminate.
    + destruct t as [|x t]; simpl; intros H; inversion H; subst.
      * rewrite H2 in E. simpl in E. rewrite andb_true_r in E. exact E.
      * exact (IH t c H2).
Qed.

Lemma unicode_rstrip_snoc t c :
  Unicode.is_space c = false -> Unicode.rstrip (t ++ [c]) = t ++ [c].
Proof.
  intros Hc. induction t as [|x t IH]; simpl.
  - rewrite Hc. reflexivity.
  - rewrite IH. destruct (t ++ [c]) eqn:E;
      [destruct t; discriminate|].
    simpl. rewrite andb_false_r. reflexivity.
Qed.

Lemma unicode_rstrip_spaces r :
  forallb Unicode.is_space r = true -> Unicode.rstrip r = [].
Proof.
  induction r as [|c r IH]; simpl; [reflexivity|].
  intros H. apply andb_true_iff in H. destruct H as [Hc Hr].
  rewrite (IH Hr), Hc. reflexivity.
Qed.

Lemma unicode_rstrip_app s r :
  forallb Unicode.is_space r = true ->
  Unicode.rstrip (s ++ r) = Unicode.rstrip s.
Proof.
  intros Hr. induction s as [|c s IH]; simpl.
  - apply unicode_rstrip_spaces. exact Hr.
  - rewrite IH. reflexivity.
Qed.

Lemma unicode_lstrip_spaces l s :
  forallb Unicode.is_space l = true ->
  Unicode.lstrip (l ++ s) = Unicode.lstrip s.
Proof.
  induction l as [|c l IH]; simpl; [reflexivity|].
  intros H. apply andb_true_iff in H. destruct H as [Hc Hl].
  rewrite Hc. exact (IH Hl).
Qed.

Lemma unicode_lstrip_app s r :
  Unicode.lstrip (s ++ r)
  = if Unicode.is_empty (Unicode.lstrip s) then Unicode.lstrip r
    else Unicode.lstrip s ++ r.
Proof.
  induction s as [|c s IH]; simpl; [reflexivity|].
  destruct (Unicode.is_space c); [exact IH | reflexivity].
Qed.

(** [strip()] removes whitespace at both ends and nothing else. *)
Lemma unicode_strip_spec s :
  exists l r, s = l ++ Unicode.strip s ++ r
              /\ forallb Unicode.is_space l = true
              /\ forallb Unicode.is_space r = true.
Proof.
  unfold Unicode.strip.
  destruct (unicode_lstrip_spec s) as (l & Hs & Hl).
  destruct (unicode_rstrip_spec (Unicode.lstrip s)) as (r & Hm & Hr).
  exists l, r. split; [|split; assumption].
  rewrite <- Hm. exact Hs.
Qed.

Lemma unicode_strip_last s t c :
  Unicode.strip s = t ++ [c] -> Unicode.is_space c = false.
Proof. apply unicode_rstrip_last. Qed.

Lemma unicode_strip_head s c t :
  Unicode.strip s = c :: t -> Unicode.is_space c = false.
Proof.
  unfold Unicode.strip. intros H.
  destruct (unicode_rstrip_spec (Unicode.lstrip s)) as (r & Hm & _).
  rewrite H in Hm. simpl in Hm.
  exact (unicode_lstrip_head s c _ Hm).
Qed.

Lemma unicode_strip_padded l core r :
  forallb Unicode.is_space l = true ->
  forallb Unicode.is_space r = true ->
  Unicode.strip (l ++ core ++ r) = Unicode.strip core.
Proof.
  intros Hl Hr. unfold Unicode.strip.
  rewrite (unicode_lstrip_spaces l _ Hl), unicode_lstrip_app.
  destruct (Unicode.lstrip core) as [|c t] eqn:E; cbn [Unicode.is_empty].
  - destruct (unicode_lstrip_spec r) as (l' & Hr' & _).
    assert (Hall : forallb Unicode.is_space (Unicode.lstrip r) = true).
    { rewrite Hr' in Hr. rewrite forallb_app in Hr.
      apply andb_true_iff in Hr. exact (proj2 Hr). }
    destruct (Unicode.lstrip r) as [|c t] eqn:E'; [reflexivity|].
    simpl in Hall. rewrite (unicode_lstrip_head r c t E') in Hall.
    discriminate Hall.
  - apply (unicode_rstrip_app (c :: t) r Hr).
Qed.

(** *** Upper case *)

Lemma unicode_upper_app a b :
  Unicode.upper upper_char (a ++ b)
  = Unicode.upper upper_char a ++ Unicode.upper upper_char b.
Proof. apply flat_map_app. Qed.

(** *** The pattern *)

Lemma unicode_span_spec p s :
  forall a b, Unicode.span p s = (a, b) -> s = a ++ b /\ forallb p a = true.
Proof.
  induction s as [|c s IH]; intros a b H; simpl in H.
  - inversion H. split; reflexivity.
  - destruct (p c) eqn:Hc.
    + destruct (Unicode.span p s) as [a' b'] eqn:Hsp. inversion H; subst.
      destruct (IH a' b eq_refl) as [Hs Ha]. simpl. rewrite Hc, Ha.
      split; [f_equal; exact Hs | reflexivity].
    + inversion H. split; reflexivity.
Qed.

Lemma unicode_span_app_stop p a b :
  forallb p a = true ->
  match b with c :: _ => p c = false | [] => True end ->
  Unicode.span p (a ++ b) = (a, b).
Proof.
  intros Ha Hb. induction a as [|c a IH]; simpl.
  - destruct b as [|c b]; [reflexivity|]. simpl. rewrite Hb. reflexivity.
  - simpl in Ha. apply andb_true_iff in Ha. destruct Ha as [Hc Ha].
    rewrite Hc, (IH Ha). reflexivity.
Qed.

Lemma unicode_is_empty_false (s : Unicode.str) :
  Unicode.is_empty s = false -> s <> [].
Proof. destruct s; [discriminate | intros _; discriminate]. Qed.

Lemma unicode_match_fraction_spec r fr r1 :
  Unicode.match_fraction decimal r = (fr, r1) ->
  exists fraction,
    r = fraction ++ r1
    /\ (fraction = []
        \/ exists f, fraction = Unicode.code "." :: f
                     /\ Unicode.is_number decimal f).
Proof.
  unfold Unicode.match_fraction. destruct r as [|c r'].
  - intros H. inversion H. exists []. split; [reflexivity | left; reflexivity].
  - destruct (N.eqb_spec c (Unicode.code ".")) as [->|_].
    + destruct (Unicode.span (Unicode.is_decimal decimal) r') as [fs r'']
        eqn:Hsp.
      destruct (unicode_span_spec _ _ _ _ Hsp) as [Hr' Hfs].
      destruct (Unicode.is_empty fs) eqn:He; intros H; inversion H; subst.
      * exists []. split; [reflexivity | left; reflexivity].
      * exists (Unicode.code "." :: fs). split; [reflexivity|].
        right. exists fs. split; [reflexivity|].
        split; [apply unicode_is_empty_false; exact He | exact Hfs].
    + intros H. inversion H. exists []. split; [reflexivity | left; reflexivity].
Qed.

Lemma unicode_match_unit_spec r unit r4 :
  Unicode.match_unit r = (unit, r4) -> r = unit ++ r4.
Proof.
  unfold Unicode.match_unit. intros H.
  destruct r as [|c r']; simpl in H.
  - inversion H. reflexivity.
  - destruct (Unicode.is_prefix_letter c).
    + destruct r' as [|d r'']; simpl in H.
      * inversion H. reflexivity.
      * destruct (d =? Unicode.code "B")%N; inversion H; reflexivity.
    + destruct (c =? Unicode.code "B")%N; inversion H; reflexivity.
Qed.

Lemma unicode_unit_multiplier_known unit multiplier :
  Unicode.unit_multiplier unit = Some multiplier ->
  In unit Unicode.known_units.
Proof.
  unfold Unicode.unit_multiplier, Unicode.known_units. simpl.
  repeat match goal with
         | |- context [bool_decide ?P] => destruct (bool_decide_reflect P)
         end; simpl; try discriminate; intros _; subst; tauto.
Qed.

(** What the pattern matches is a string of the grammar, possibly with
    one newline after it. *)
Lemma unicode_match_size_sound s number fr unit multiplier :
  Unicode.match_size decimal s = Some (number, fr, unit) ->
  Unicode.unit_multiplier unit = Some multiplier ->
  exists tail, (tail = [] \/ tail = [Unicode.code "010"])
               /\ exists g, s = g ++ tail /\ Unicode.size_grammar decimal g.
Proof.
  unfold Unicode.match_size. intros H Hunit.
  destruct (Unicode.span (Unicode.is_decimal decimal) s) as [ds r] eqn:Hds.
  destruct (Unicode.is_empty ds) eqn:He; [discriminate|].
  destruct (Unicode.match_fraction decimal r) as [fr' r1] eqn:Hfr.
  destruct (Unicode.span Unicode.is_space r1) as [sp r2] eqn:Hsp.
  destruct (Unicode.match_unit r2) as [u r4] eqn:Hu.
  destruct (unicode_span_spec _ _ _ _ Hds) as [Hs Hdigits].
  destruct (unicode_match_fraction_spec _ _ _ Hfr) as (fraction & Hr & Hfraction).
  destruct (unicode_span_spec _ _ _ _ Hsp) as [Hr1 Hspaces].
  pose proof (unicode_match_unit_spec _ _ _ Hu) as Hr2.
  destruct (Unicode.is_empty r4 || bool_decide (r4 = [Unicode.code "010"]))
    eqn:Hend; [|discriminate].
  inversion H; subst number fr' u. clear H.
  exists r4. split.
  - apply orb_true_iff in Hend. destruct Hend as [Hend|Hend].
    + left. destruct r4; [reflexivity | discriminate].
    + right. apply bool_decide_eq_true in Hend. exact Hend.
  - exists (ds ++ fraction ++ sp ++ unit). split.
    + rewrite Hs, Hr, Hr1, Hr2. rewrite <- !app_assoc. reflexivity.
    + exists ds, fraction, sp, unit. split; [reflexivity|].
      split; [split; [apply unicode_is_empty_false; exact He | exact Hdigits]|].
      split; [exact Hfraction|]. split; [exact Hspaces|].
      exact (unicode_unit_multiplier_known _ _ Hunit).
Qed.

(** *** The characters of a match *)

Lemma forallb_weaken {A : Type} (p q : A -> bool) l :
  (forall x, p x = true -> q x = true) ->
  forallb p l = true -> forallb q l = true.
Proof.
  intros Hpq. induction l as [|x l IH]; [reflexivity|].
  simpl. intros H. apply andb_true_iff in H. destruct H as [Hx Hl].
  rewrite (Hpq x Hx), (IH Hl). reflexivity.
Qed.

Lemma unicode_match_unit_in_pattern r unit r4 :
  Unicode.match_unit r = (unit, r4) ->
  forallb (Unicode.in_pattern decimal) unit = true.
Proof.
  unfold Unicode.match_unit. intros H.
  destruct r as [|c r']; simpl in H.
  - inversion H. reflexivity.
  - destruct (Unicode.is_prefix_letter c) eqn:Hc.
    + assert (Hin : Unicode.in_pattern decimal c = true).
      { unfold Unicode.in_pattern. rewrite Hc.
        rewrite ?orb_true_r, ?orb_true_l. reflexivity. }
      destruct r' as [|d r'']; simpl in H.
      * inversion H. simpl. rewrite Hin. reflexivity.
      * destruct (d =? Unicode.code "B")%N eqn:Hd; inversion H; simpl;
          rewrite Hin; [|reflexivity].
        unfold Unicode.in_pattern. rewrite Hd.
        rewrite !orb_true_r. reflexivity.
    + destruct (c =? Unicode.code "B")%N eqn:Hb; inversion H; [|reflexivity].
      simpl. unfold Unicode.in_pattern. rewrite Hb.
      rewrite !orb_true_r. reflexivity.
Qed.

(** A string that the pattern matches is made of digits, dots, whitespace
    and the letters of the units. *)
Lemma unicode_match_size_in_pattern s matched :
  Unicode.match_size decimal s = Some matched ->
  forallb (Unicode.in_pattern decimal) s = true.
Proof.
  unfold Unicode.match_size. intros H.
  destruct (Unicode.span (Unicode.is_decimal decimal) s) as [ds r] eqn:Hds.
  destruct (Unicode.is_empty ds) eqn:He; [discriminate|].
  destruct (Unicode.match_fraction decimal r) as [fr' r1] eqn:Hfr.
  destruct (Unicode.span Unicode.is_space r1) as [sp r2] eqn:Hsp.
  destruct (Unicode.match_unit r2) as [u r4] eqn:Hu.
  destruct (unicode_span_spec _ _ _ _ Hds) as [Hs Hdigits].
  destruct (unicode_match_fraction_spec _ _ _ Hfr)
    as (fraction & Hr & Hfraction).
  destruct (unicode_span_spec _ _ _ _ Hsp) as [Hr1 Hspaces].
  pose proof (unicode_match_unit_spec _ _ _ Hu) as Hr2.
  pose proof (unicode_match_unit_in_pattern _ _ _ Hu) as Hunit.
  destruct (Unicode.is_empty r4 || bool_decide (r4 = [Unicode.code "010"]))
    eqn:Hend; [|discriminate].
  clear H. subst s r r1 r2. rewrite !forallb_app.
  assert (Hdec : forall x, Unicode.is_decimal decimal x = true ->
                           Unicode.in_pattern decimal x = true).
  { intros x Hx. unfold Unicode.in_pattern. rewrite Hx. reflexivity. }
  assert (Hspace : forall x, Unicode.is_space x = true ->
                             Unicode.in_pattern decimal x = true).
  { intros x Hx. unfold Unicode.in_pattern. rewrite Hx.
    rewrite ?orb_true_r, ?orb_true_l. reflexivity. }
  rewrite (forallb_weaken _ _ ds Hdec Hdigits).
  rewrite (forallb_weaken _ _ sp Hspace Hspaces), Hunit.
  assert (Hfrac : forallb (Unicode.in_pattern decimal) fraction = true).
  { destruct Hfraction as [->|(f & -> & _ & Hf)]; [reflexivity|].
    simpl. rewrite (forallb_weaken _ _ f Hdec Hf).
    unfold Unicode.in_pattern. rewrite N.eqb_refl.
    rewrite !orb_true_r. reflexivity. }
  assert (Htail : forallb (Unicode.in_pattern decimal) r4 = true).
  { apply orb_true_iff in Hend. destruct Hend as [Hend|Hend].
    - destruct r4; [reflexivity | discriminate].
    - apply bool_decide_eq_true in Hend. subst r4. simpl.
      rewrite (Hspace (Unicode.code "010") eq_refl). reflexivity. }
  rewrite Hfrac, Htail. reflexivity.
Qed.

Lemma unicode_parse_size_raises s ex :
  Unicode._parse_size decimal upper_char s = Raise ex ->
  ex = ValueError \/ ex = OverflowError.
Proof.
  unfold Unicode._parse_size.
  destruct (Unicode.match_size _ _) as [[[i f] u]|]; [|intros H; inversion H; tauto].
  destruct (Unicode.unit_multiplier u); [|intros H; inversion H; tauto].
  unfold PyFloat.to_int. destruct (PyFloat.mul _ _); intros H; inversion H; tauto.
Qed.

Hypothesis tables : Unicode.tables_of_python decimal upper_char.

(** What is not whitespace is not turned into whitespace at the end. *)
Lemma unicode_upper_last t c :
  Unicode.is_space c = false ->
  exists y x, Unicode.upper upper_char (t ++ [c]) = y ++ [x]
              /\ Unicode.is_space x = false.
Proof.
  intros Hc.
  destruct (Unicode.upper_other _ _ tables c Hc) as [Hne Hall].
  destruct (exists_last Hne) as (u & x & Hu).
  exists (Unicode.upper upper_char t ++ u), x.
  rewrite unicode_upper_app. unfold Unicode.upper at 2. simpl.
  rewrite app_nil_r, Hu, app_assoc. split; [reflexivity|].
  rewrite Hu, forallb_app in Hall. apply andb_true_iff in Hall.
  destruct Hall as [_ Hx]. simpl in Hx. rewrite andb_true_r in Hx.
  apply negb_true_iff in Hx. exact Hx.
Qed.

(** Whatever [_parse_size] does not reject with [ValueError] is a string
    of the grammar with whitespace around it. *)
Lemma unicode_parse_size_accepts_grammar_only s :
  Unicode._parse_size decimal upper_char s <> Raise ValueError ->
  Unicode.padded_size_grammar decimal upper_char s.
Proof.
  unfold Unicode._parse_size. intros H.
  destruct (Unicode.match_size decimal
              (Unicode.upper upper_char (Unicode.strip s)))
    as [[[number fr] unit]|] eqn:Hm; [|congruence].
  destruct (Unicode.unit_multiplier unit) as [multiplier|] eqn:Hu; [|congruence].
  destruct (unicode_match_size_sound _ _ _ _ _ Hm Hu)
    as (tail & Htail & g & Hg & Hgr).
  destruct (unicode_strip_spec s) as (l & r & Hs & Hl & Hr).
  destruct Htail as [-> | ->].
  - rewrite app_nil_r in Hg.
    exists l, (Unicode.strip s), r. split; [exact Hs|].
    split; [exact Hl|]. split; [exact Hr|].
    unfold Unicode.size_grammar_ci. rewrite Hg. exact Hgr.
  - exfalso.
    destruct (Unicode.strip s) as [|c0 t0] eqn:Hstrip;
      [destruct g; discriminate Hg|].
    assert (Hne : c0 :: t0 <> []) by discriminate.
    destruct (exists_last Hne) as (t & c & Hlast).
    rewrite Hlast in Hstrip, Hg.
    pose proof (unicode_strip_last s t c Hstrip) as Hc.
    destruct (unicode_upper_last t c Hc) as (y & x & Hup & Hx).
    rewrite Hup in Hg. apply app_inj_tail in Hg. destruct Hg as [_ ->].
    discriminate Hx.
Qed.

(** *** On ASCII strings, the parser of the strings below 256 *)

Lemma of_string_cons c s :
  Unicode.of_string (String c s) = N_of_ascii c :: Unicode.of_string s.
Proof. reflexivity. Qed.

Lemma of_string_app a b :
  Unicode.of_string (a ++ b) = Unicode.of_string a ++ Unicode.of_string b.
Proof.
  induction a as [|c a IH]; [reflexivity|].
  change (String c a ++ b)%string with (String c (a ++ b)).
  rewrite !of_string_cons, IH. reflexivity.
Qed.

Lemma of_string_inj a :
  forall b, Unicode.of_string a = Unicode.of_string b -> a = b.
Proof.
  induction a as [|c a IH]; intros [|d b] H; try discriminate; [reflexivity|].
  rewrite !of_string_cons in H. inversion H as [[Hc Hs]].
  apply (f_equal ascii_of_N) in Hc. rewrite !ascii_N_embedding in Hc.
  subst d. f_equal. exact (IH b Hs).
Qed.

Lemma of_string_empty s :
  Unicode.is_empty (Unicode.of_string s) = PyStr.is_empty s.
Proof. destruct s; reflexivity. Qed.

Lemma of_string_length s :
  length (Unicode.of_string s) = String.length s.
Proof.
  induction s as [|c s IH]; [reflexivity|].
  rewrite of_string_cons. simpl. rewrite IH. reflexivity.
Qed.

Lemma of_string_decide a b :
  bool_decide (Unicode.of_string a = Unicode.of_string b) = String.eqb a b.
Proof.
  destruct (String.eqb_spec a b) as [->|Hne].
  - apply bool_decide_eq_true. reflexivity.
  - apply bool_decide_eq_false. intros H. apply Hne.
    exact (of_string_inj _ _ H).
Qed.

Lemma unicode_is_space_ascii c :
  Unicode.is_space (N_of_ascii c) = PyStr.is_space c.
Proof. destruct c as [[] [] [] [] [] [] [] []]; reflexivity. Qed.

Lemma unicode_lstrip_of_string s :
  Unicode.lstrip (Unicode.of_string s)
  = Unicode.of_string (PyStr.lstrip_with PyStr.is_space s).
Proof.
  induction s as [|c s IH]; [reflexivity|].
  rewrite of_string_cons. simpl. rewrite unicode_is_space_ascii.
  destruct (PyStr.is_space c); [exact IH | reflexivity].
Qed.

Lemma unicode_rstrip_of_string s :
  Unicode.rstrip (Unicode.of_string s)
  = Unicode.of_string (PyStr.rstrip_with PyStr.is_space s).
Proof.
  induction s as [|c s IH]; [reflexivity|].
  rewrite of_string_cons. simpl.
  rewrite unicode_is_space_ascii, IH, of_string_empty.
  destruct (PyStr.is_space c && PyStr.is_empty _); reflexivity.
Qed.

Lemma unicode_strip_of_string s :
  Unicode.strip (Unicode.of_string s) = Unicode.of_string (PyStr.strip s).
Proof.
  unfold Unicode.strip, PyStr.strip, PyStr.strip_with.
  rewrite unicode_lstrip_of_string, unicode_rstrip_of_string. reflexivity.
Qed.

Lemma is_ascii_app a b : is_ascii (a ++ b) = is_ascii a && is_ascii b.
Proof. apply all_chars_app. Qed.

Lemma is_ascii_cons c s :
  is_ascii (String c s) = (N_of_ascii c <? 128)%N && is_ascii s.
Proof. reflexivity. Qed.

Lemma is_ascii_strip s : is_ascii s = true -> is_ascii (PyStr.strip s) = true.
Proof.
  intros H. destruct (strip_spec s) as (l & r & Hs & _ & _).
  rewrite Hs, !is_ascii_app in H.
  apply andb_true_iff in H. destruct H as [_ H].
  apply andb_true_iff in H. exact (proj1 H).
Qed.

Lemma upper_char_ascii c :
  (N_of_ascii c <? 128)%N = true ->
  (N_of_ascii (PyStr.upper_char c) <? 128)%N = true
  /\ N_of_ascii (PyStr.upper_char c)
     = (if (97 <=? N_of_ascii c)%N && (N_of_ascii c <=? 122)%N
        then N_of_ascii c - 32 else N_of_ascii c)%N.
Proof.
  destruct c as [[] [] [] [] [] [] [] []]; vm_compute; intros H;
    first [discriminate H | split; reflexivity].
Qed.

Lemma is_ascii_upper s : is_ascii s = true -> is_ascii (PyStr.upper s) = true.
Proof.
  induction s as [|c s IH]; [reflexivity|].
  change (PyStr.upper (String c s))
    with (String (PyStr.upper_char c) (PyStr.upper s)).
  rewrite !is_ascii_cons.
  intros H. apply andb_true_iff in H. destruct H as [Hc Hs].
  rewrite (proj1 (upper_char_ascii c Hc)), (IH Hs). reflexivity.
Qed.

Lemma unicode_upper_of_string s :
  is_ascii s = true ->
  Unicode.upper upper_char (Unicode.of_string s)
  = Unicode.of_string (PyStr.upper s).
Proof.
  induction s as [|c s IH]; [reflexivity|].
  intros H. rewrite is_ascii_cons in H.
  apply andb_true_iff in H. destruct H as [Hc Hs].
  change (PyStr.upper (String c s))
    with (String (PyStr.upper_char c) (PyStr.upper s)).
  rewrite !of_string_cons. unfold Unicode.upper in *. simpl.
  rewrite (IH Hs).
  rewrite (Unicode.upper_ascii _ _ tables (N_of_ascii c))
    by (apply N.ltb_lt; exact Hc).
  rewrite (proj2 (upper_char_ascii c Hc)). reflexivity.
Qed.

Lemma unicode_is_decimal_ascii c :
  (N_of_ascii c <? 128)%N = true ->
  Unicode.is_decimal decimal (N_of_ascii c) = PyStr.is_digit c.
Proof.
  intros Hc. unfold Unicode.is_decimal, PyStr.is_digit.
  rewrite (Unicode.decimal_ascii _ _ tables (N_of_ascii c))
    by (apply N.ltb_lt; exact Hc).
  destruct ((48 <=? N_of_ascii c)%N && (N_of_ascii c <=? 57)%N); reflexivity.
Qed.

Lemma unicode_decimal_digit c :
  PyStr.is_digit c = true ->
  decimal (N_of_ascii c) = Some (PyStr.digit_value c).
Proof.
  intros Hd.
  assert (Hc : (N_of_ascii c < 128)%N).
  { unfold PyStr.is_digit in Hd. apply andb_true_iff in Hd.
    destruct Hd as [_ Hd]. apply N.leb_le in Hd. lia. }
  rewrite (Unicode.decimal_ascii _ _ tables _ Hc).
  unfold PyStr.is_digit in Hd. rewrite Hd. reflexivity.
Qed.

Lemma unicode_span_of_string (good : ascii -> bool)
    (P : N -> bool) (p : ascii -> bool) s :
  (forall c, good c = true -> P (N_of_ascii c) = p c) ->
  all_chars good s = true ->
  Unicode.span P (Unicode.of_string s)
  = (Unicode.of_string (fst (span p s)), Unicode.of_string (snd (span p s))).
Proof.
  intros HP. induction s as [|c s IH]; [reflexivity|].
  intros H. change (good c && all_chars good s = true) in H.
  apply andb_true_iff in H. destruct H as [Hc Hs].
  rewrite of_string_cons. simpl. rewrite (HP c Hc).
  destruct (p c); [|reflexivity].
  rewrite (IH Hs). destruct (span p s); reflexivity.
Qed.

Lemma all_chars_span (good : ascii -> bool) p s :
  all_chars good s = true ->
  all_chars good (fst (span p s)) = true
  /\ all_chars good (snd (span p s)) = true.
Proof.
  intros H. destruct (span p s) as [a b] eqn:E.
  destruct (span_spec _ _ _ _ E) as [Hs _].
  rewrite Hs, all_chars_app in H. apply andb_true_iff in H. exact H.
Qed.

Lemma unicode_match_fraction_of_string (good : ascii -> bool) r :
  (forall c, good c = true ->
     Unicode.is_decimal decimal (N_of_ascii c) = PyStr.is_digit c) ->
  all_chars good r = true ->
  Unicode.match_fraction decimal (Unicode.of_string r)
  = (Unicode.of_string <$> fst (match_fraction r),
     Unicode.of_string (snd (match_fraction r))).
Proof.
  intros Hgood H. destruct r as [|c r']; [reflexivity|].
  change (good c && all_chars good r' = true) in H.
  apply andb_true_iff in H. destruct H as [Hc Hr'].
  rewrite of_string_cons. unfold Unicode.match_fraction, match_fraction.
  assert (Hdot : (N_of_ascii c =? Unicode.code ".")%N = Ascii.eqb c ".").
  { destruct c as [[] [] [] [] [] [] [] []]; reflexivity. }
  rewrite Hdot. destruct (Ascii.eqb c "."); [|reflexivity].
  rewrite (unicode_span_of_string good _ PyStr.is_digit r' Hgood Hr').
  destruct (span PyStr.is_digit r') as [fs r'']. simpl fst. simpl snd.
  rewrite of_string_empty. destruct (PyStr.is_empty fs); reflexivity.
Qed.

Lemma unicode_match_unit_of_string r :
  Unicode.match_unit (Unicode.of_string r)
  = (Unicode.of_string (fst (match_unit r)),
     Unicode.of_string (snd (match_unit r))).
Proof.
  assert (Hp : forall c, Unicode.is_prefix_letter (N_of_ascii c)
                         = is_prefix_letter c).
  { intros c. destruct c as [[] [] [] [] [] [] [] []]; reflexivity. }
  assert (Hb : forall c, (N_of_ascii c =? Unicode.code "B")%N
                         = Ascii.eqb c "B").
  { intros c. destruct c as [[] [] [] [] [] [] [] []]; reflexivity. }
  unfold Unicode.match_unit, match_unit.
  destruct r as [|c r']; [reflexivity|].
  rewrite of_string_cons, Hp. destruct (is_prefix_letter c).
  - destruct r' as [|d r'']; [reflexivity|].
    rewrite of_string_cons, Hb.
    destruct (Ascii.eqb_spec d "B") as [->|_]; reflexivity.
  - rewrite Hb. destruct (Ascii.eqb_spec c "B") as [->|_]; reflexivity.
Qed.

Lemma all_chars_match_fraction (good : ascii -> bool) r :
  all_chars good r = true -> all_chars good (snd (match_fraction r)) = true.
Proof.
  intros H. destruct (match_fraction r) as [fr r1] eqn:E.
  destruct (match_fraction_spec _ _ _ E) as (fraction & Hr & _).
  rewrite Hr, all_chars_app in H. apply andb_true_iff in H. exact (proj2 H).
Qed.

(** Where [\d] is read alike on the characters of a string below 256, the
    two patterns match it alike. *)
Lemma unicode_match_size_of_string (good : ascii -> bool) s :
  (forall c, good c = true ->
     Unicode.is_decimal decimal (N_of_ascii c) = PyStr.is_digit c) ->
  all_chars good s = true ->
  Unicode.match_size decimal (Unicode.of_string s)
  = match match_size s with
    | Some (int_part, frac_part, unit) =>
        Some (Unicode.of_string int_part, Unicode.of_string <$> frac_part,
              Unicode.of_string unit)
    | None => None
    end.
Proof.
  intros Hgood H. unfold Unicode.match_size, match_size.
  rewrite (unicode_span_of_string good _ PyStr.is_digit s Hgood H).
  destruct (all_chars_span good PyStr.is_digit s H) as [_ Hr].
  destruct (span PyStr.is_digit s) as [ds r]. simpl fst. simpl snd in *.
  rewrite of_string_empty. destruct (PyStr.is_empty ds); [reflexivity|].
  rewrite (unicode_match_fraction_of_string good r Hgood Hr).
  pose proof (all_chars_match_fraction good r Hr) as Hr1.
  destruct (match_fraction r) as [fr r1]. simpl fst. simpl snd in *.
  rewrite (unicode_span_of_string good _ PyStr.is_space r1
             (fun c _ => unicode_is_space_ascii c) Hr1).
  destruct (span PyStr.is_space r1) as [sp r2]. simpl fst. simpl snd.
  rewrite unicode_match_unit_of_string.
  destruct (match_unit r2) as [unit r4]. simpl fst. simpl snd.
  rewrite of_string_empty.
  change [Unicode.code "010"] with (Unicode.of_string (String "010" "")).
  rewrite of_string_decide.
  destruct (PyStr.is_empty r4 || String.eqb r4 (String "010" ""));
    reflexivity.
Qed.

Lemma int_digits_fold s :
  all_chars PyStr.is_digit s = true ->
  forall acc,
    PyStr.int_digits acc true s
    = Some (fold_left (fun a c => 10 * a + default 0 (decimal c))
              (Unicode.of_string s) acc).
Proof.
  induction s as [|c s IH]; intros H acc; [reflexivity|].
  simpl in H. apply andb_true_iff in H. destruct H as [Hc Hs].
  rewrite of_string_cons. simpl. rewrite Hc, (IH Hs).
  rewrite (unicode_decimal_digit c Hc). reflexivity.
Qed.

Lemma unicode_digits_value_of_string s :
  all_chars PyStr.is_digit s = true ->
  Unicode.digits_value decimal (Unicode.of_string s) = PyFloat.digits_value s.
Proof.
  intros H. unfold Unicode.digits_value, PyFloat.digits_value.
  destruct s as [|c s]; [reflexivity|].
  simpl in H. apply andb_true_iff in H. destruct H as [Hc Hs].
  rewrite of_string_cons. simpl. rewrite Hc, (int_digits_fold s Hs).
  rewrite (unicode_decimal_digit c Hc). reflexivity.
Qed.

Lemma unicode_unit_multiplier_of_string unit :
  Unicode.unit_multiplier (Unicode.of_string unit) = unit_multiplier unit.
Proof.
  unfold Unicode.unit_multiplier, unit_multiplier.
  rewrite !of_string_decide.
  replace (bool_decide (Unicode.of_string unit = []))
    with (String.eqb unit ""); [reflexivity|].
  destruct unit as [|c unit]; [reflexivity|].
  symmetry. apply bool_decide_eq_false. discriminate.
Qed.

Lemma match_size_digits s int_part frac_part unit :
  match_size s = Some (int_part, frac_part, unit) ->
  all_chars PyStr.is_digit int_part = true
  /\ match frac_part with
     | Some f => all_chars PyStr.is_digit f = true
     | None => True
     end.
Proof.
  unfold match_size. intros H.
  destruct (span PyStr.is_digit s) as [ds r] eqn:Hds.
  destruct (PyStr.is_empty ds); [discriminate|].
  destruct (match_fraction r) as [fr r1] eqn:Hfr.
  destruct (span PyStr.is_space r1) as [sp r2].
  destruct (match_unit r2) as [u r4].
  destruct (PyStr.is_empty r4 || _); [|discriminate].
  inversion H; subst. split.
  - exact (proj2 (span_spec _ _ _ _ Hds)).
  - destruct frac_part as [f|]; [|exact I].
    unfold match_fraction in Hfr. destruct r as [|c r']; [discriminate|].
    destruct (Ascii.eqb c "."); [|discriminate].
    destruct (span PyStr.is_digit r') as [fs r''] eqn:Hfs.
    destruct (PyStr.is_empty fs); inversion Hfr; subst.
    exact (proj2 (span_spec _ _ _ _ Hfs)).
Qed.

(** Where the two capitals of the stripped string are the same, and [\d]
    is read alike on their characters, the parser for every [str] does what
    the parser for the strings below 256 does. *)
Lemma unicode_parse_size_agrees (good : ascii -> bool) size_str s :
  (forall c, good c = true ->
     Unicode.is_decimal decimal (N_of_ascii c) = PyStr.is_digit c) ->
  Unicode.upper upper_char (Unicode.strip size_str)
  = Unicode.of_string (PyStr.upper (PyStr.strip s)) ->
  all_chars good (PyStr.upper (PyStr.strip s)) = true ->
  Unicode._parse_size decimal upper_char size_str = _parse_size s.
Proof.
  intros Hgood Hup H. unfold Unicode._parse_size, _parse_size.
  rewrite Hup, (unicode_match_size_of_string good _ Hgood H).
  destruct (match_size (PyStr.upper (PyStr.strip s)))
    as [[[int_part frac_part] unit]|] eqn:Hm; [|reflexivity].
  destruct (match_size_digits _ _ _ _ Hm) as [Hi Hf].
  rewrite unicode_unit_multiplier_of_string.
  assert (Hval : Unicode.float_of_decimal decimal (Unicode.of_string int_part)
                   (Unicode.of_string <$> frac_part)
                 = PyFloat.of_decimal int_part frac_part).
  { unfold Unicode.float_of_decimal, PyFloat.of_decimal.
    destruct frac_part as [f|]; simpl.
    - rewrite of_string_length, !unicode_digits_value_of_string by assumption.
      reflexivity.
    - rewrite unicode_digits_value_of_string by assumption. reflexivity. }
  rewrite Hval. reflexivity.
Qed.

(** On a string of ASCII characters the parser for every [str] does
    what the parser for the strings below 256 does. *)
Lemma unicode_parse_size_of_string s :
  is_ascii s = true ->
  Unicode._parse_size decimal upper_char (Unicode.of_string s)
  = _parse_size s.
Proof.
  intros H.
  apply (unicode_parse_size_agrees (fun c => (N_of_ascii c <? 128)%N)).
  - exact unicode_is_decimal_ascii.
  - rewrite unicode_strip_of_string.
    exact (unicode_upper_of_string _ (is_ascii_strip s H)).
  - exact (is_ascii_upper _ (is_ascii_strip s H)).
Qed.

(** *** The parser accepts the whole grammar *)

Lemma unicode_upper_spaces l :
  forallb Unicode.is_space l = true -> Unicode.upper upper_char l = l.
Proof.
  induction l as [|c l IH]; [reflexivity|].
  simpl. intros H. apply andb_true_iff in H. destruct H as [Hc Hl].
  rewrite (Unicode.upper_space _ _ tables c Hc).
  fold (Unicode.upper upper_char l). rewrite (IH Hl). reflexivity.
Qed.

Lemma unicode_decimal_not_space c :
  Unicode.is_decimal decimal c = true -> Unicode.is_space c = false.
Proof.
  unfold Unicode.is_decimal. destruct (decimal c) as [d|] eqn:E; [|discriminate].
  intros _. exact (Unicode.decimal_not_space _ _ tables c d E).
Qed.

Lemma unicode_space_not_decimal c :
  Unicode.is_space c = true -> Unicode.is_decimal decimal c = false.
Proof.
  intros Hc. destruct (Unicode.is_decimal decimal c) eqn:E; [|reflexivity].
  rewrite (unicode_decimal_not_space c E) in Hc. discriminate Hc.
Qed.

Lemma unicode_ascii_not_decimal c :
  (c < 128)%N -> ((48 <=? c) && (c <=? 57))%N = false ->
  Unicode.is_decimal decimal c = false.
Proof.
  intros Hc Hd. unfold Unicode.is_decimal.
  rewrite (Unicode.decimal_ascii _ _ tables c Hc), Hd. reflexivity.
Qed.

Lemma unicode_known_unit_cases u :
  In u Unicode.known_units ->
  u = [] \/ u = Unicode.of_string "B" \/ u = Unicode.of_string "KB"
  \/ u = Unicode.of_string "MB" \/ u = Unicode.of_string "GB"
  \/ u = Unicode.of_string "TB".
Proof.
  unfold Unicode.known_units. simpl.
  intros [<-|[<-|[<-|[<-|[<-|[<-|[]]]]]]]; tauto.
Qed.

(** A number ends with a digit. *)
Lemma unicode_number_last n :
  Unicode.is_number decimal n ->
  exists t c, n = t ++ [c] /\ Unicode.is_space c = false.
Proof.
  intros [Hne Hall]. destruct (exists_last Hne) as (t & c & ->).
  exists t, c. split; [reflexivity|].
  rewrite forallb_app in Hall. apply andb_true_iff in Hall.
  destruct Hall as [_ Hc]. simpl in Hc. rewrite andb_true_r in Hc.
  exact (unicode_decimal_not_space c Hc).
Qed.

Lemma unicode_rstrip_grammar n fr sp u :
  Unicode.is_number decimal n ->
  (fr = [] \/ exists f, fr = Unicode.code "." :: f
                        /\ Unicode.is_number decimal f) ->
  forallb Unicode.is_space sp = true ->
  In u Unicode.known_units ->
  exists sp', forallb Unicode.is_space sp' = true
              /\ Unicode.rstrip (n ++ fr ++ sp ++ u) = n ++ fr ++ sp' ++ u.
Proof.
  intros Hn Hfr Hsp Hu.
  assert (Hend : exists t c, n ++ fr = t ++ [c] /\ Unicode.is_space c = false).
  { destruct Hfr as [->|(f & -> & Hf)].
    - rewrite app_nil_r. exact (unicode_number_last n Hn).
    - destruct (unicode_number_last f Hf) as (t & c & -> & Hc).
      exists (n ++ Unicode.code "." :: t), c.
      rewrite <- app_assoc. split; [reflexivity | exact Hc]. }
  destruct (unicode_known_unit_cases u Hu) as [->|Hrest].
  - exists []. split; [reflexivity|].
    rewrite !app_nil_r. rewrite app_assoc.
    rewrite (unicode_rstrip_app _ sp Hsp).
    destruct Hend as (t & c & -> & Hc). apply unicode_rstrip_snoc. exact Hc.
  - exists sp. split; [exact Hsp|].
    assert (Hlast : exists t, u = t ++ [Unicode.code "B"]).
    { destruct Hrest as [->|[->|[->|[->| ->]]]];
        [exists [] | eexists [_] | eexists [_] | eexists [_] | eexists [_]];
        reflexivity. }
    destruct Hlast as (t & ->).
    rewrite !app_assoc. apply unicode_rstrip_snoc. reflexivity.
Qed.

(** What follows the number in a string of the grammar starts neither
    with a digit nor, unless it is the fraction, with a dot. *)
Lemma unicode_after_number sp u :
  forallb Unicode.is_space sp = true ->
  In u Unicode.known_units ->
  Unicode.span Unicode.is_space (sp ++ u) = (sp, u)
  /\ Unicode.match_fraction decimal (sp ++ u) = (None, sp ++ u)
  /\ match sp ++ u with
     | c :: _ => Unicode.is_decimal decimal c = false
     | [] => True
     end.
Proof.
  intros Hsp Hu.
  assert (Hletter : forall c, In c (Unicode.of_string "BKMGT") ->
                      Unicode.is_decimal decimal c = false).
  { intros c Hc. simpl in Hc.
    destruct Hc as [<-|[<-|[<-|[<-|[<-|[]]]]]];
      apply unicode_ascii_not_decimal; reflexivity. }
  split; [|split].
  - apply unicode_span_app_stop; [exact Hsp|].
    destruct (unicode_known_unit_cases u Hu) as [->|[->|[->|[->|[->| ->]]]]];
      first [exact I | reflexivity].
  - destruct sp as [|c sp].
    + destruct (unicode_known_unit_cases u Hu) as [->|[->|[->|[->|[->| ->]]]]];
        reflexivity.
    + simpl in Hsp. apply andb_true_iff in Hsp. destruct Hsp as [Hc _].
      simpl. destruct (N.eqb_spec c (Unicode.code ".")) as [->|_];
        [discriminate Hc | reflexivity].
  - destruct sp as [|c sp].
    + destruct (unicode_known_unit_cases u Hu) as [->|[->|[->|[->|[->| ->]]]]];
        first [exact I | apply Hletter; simpl; tauto].
    + simpl in Hsp. apply andb_true_iff in Hsp. destruct Hsp as [Hc _].
      exact (unicode_space_not_decimal c Hc).
Qed.

(** The pattern matches every string of the grammar, with the unit of
    the string as its second group. *)
Lemma unicode_match_size_complete n fr sp u :
  Unicode.is_number decimal n ->
  (fr = [] \/ exists f, fr = Unicode.code "." :: f
                        /\ Unicode.is_number decimal f) ->
  forallb Unicode.is_space sp = true ->
  In u Unicode.known_units ->
  exists frac_part,
    Unicode.match_size decimal (n ++ fr ++ sp ++ u) = Some (n, frac_part, u).
Proof.
  intros [Hne Hn] Hfr Hsp Hu.
  destruct (unicode_after_number sp u Hsp Hu) as (Hspan & Hnofr & Hstop).
  assert (Hunit : Unicode.match_unit u = (u, [])).
  { destruct (unicode_known_unit_cases u Hu) as [->|[->|[->|[->|[->| ->]]]]];
      reflexivity. }
  assert (Hnempty : Unicode.is_empty n = false)
    by (destruct n; [contradiction | reflexivity]).
  unfold Unicode.match_size.
  destruct Hfr as [->|(f & -> & Hfne & Hf)].
  - exists None. simpl app.
    rewrite (unicode_span_app_stop _ n (sp ++ u) Hn Hstop), Hnempty.
    rewrite Hnofr, Hspan, Hunit. reflexivity.
  - exists (Some f).
    rewrite (unicode_span_app_stop _ n ((Unicode.code "." :: f) ++ sp ++ u) Hn)
      by (apply unicode_ascii_not_decimal; reflexivity).
    rewrite Hnempty.
    assert (Hmf : Unicode.match_fraction decimal
                    ((Unicode.code "." :: f) ++ sp ++ u)
                  = (Some f, sp ++ u)).
    { unfold Unicode.match_fraction. cbn [app]. rewrite N.eqb_refl.
      rewrite (unicode_span_app_stop _ f (sp ++ u) Hf Hstop).
      destruct f; [contradiction | reflexivity]. }
    rewrite Hmf, Hspan, Hunit. reflexivity.
Qed.

Lemma unicode_known_unit_multiplier u :
  In u Unicode.known_units ->
  exists multiplier, Unicode.unit_multiplier u = Some multiplier.
Proof.
  intros Hu.
  destruct (unicode_known_unit_cases u Hu) as [->|[->|[->|[->|[->| ->]]]]];
    eexists; reflexivity.
Qed.

(** The stripped and upper-cased form of a string of the padded grammar
    is a string of the grammar. *)
Lemma unicode_upper_strip_grammar s :
  Unicode.padded_size_grammar decimal upper_char s ->
  exists n fr sp u,
    Unicode.upper upper_char (Unicode.strip s) = n ++ fr ++ sp ++ u
    /\ Unicode.is_number decimal n
    /\ (fr = [] \/ exists f, fr = Unicode.code "." :: f
                             /\ Unicode.is_number decimal f)
    /\ forallb Unicode.is_space sp = true
    /\ In u Unicode.known_units.
Proof.
  intros (l & core & r & -> & Hl & Hr & n & fr & sp & u & Hg & Hn & Hfr & Hsp & Hu).
  rewrite (unicode_strip_padded l core r Hl Hr).
  destruct (unicode_strip_spec core) as (a & b & Hcore & Ha & Hb).
  assert (Hup : a ++ Unicode.upper upper_char (Unicode.strip core) ++ b
                = n ++ fr ++ sp ++ u).
  { rewrite <- Hg. rewrite Hcore at 2.
    rewrite !unicode_upper_app.
    rewrite (unicode_upper_spaces a Ha), (unicode_upper_spaces b Hb).
    reflexivity. }
  destruct Hn as [Hne Hdigits].
  destruct n as [|d n]; [contradiction|].
  assert (Hd : Unicode.is_space d = false).
  { simpl in Hdigits. apply andb_true_iff in Hdigits.
    exact (unicode_decimal_not_space d (proj1 Hdigits)). }
  destruct a as [|x a].
  2:{ simpl in Hup, Ha. inversion Hup; subst x.
      rewrite Hd in Ha. discriminate Ha. }
  simpl in Hup.
  destruct (unicode_rstrip_grammar (d :: n) fr sp u
              (conj Hne Hdigits) Hfr Hsp Hu) as (sp' & Hsp' & Hrs).
  exists (d :: n), fr, sp', u.
  split; [|split; [exact (conj Hne Hdigits)|split; [exact Hfr|split; assumption]]].
  change (d :: n ++ fr ++ sp ++ u) with ((d :: n) ++ fr ++ sp ++ u) in Hup.
  rewrite <- Hrs, <- Hup.
  rewrite (unicode_rstrip_app _ b Hb).
  destruct (Unicode.strip core) as [|c0 t0] eqn:Hstrip.
  - exfalso. simpl in Hup. rewrite Hup in Hb. simpl in Hb.
    rewrite Hd in Hb. discriminate Hb.
  - assert (Hnonempty : c0 :: t0 <> []) by discriminate.
    destruct (exists_last Hnonempty) as (t & c & Hlast).
    rewrite Hlast in Hstrip |- *.
    pose proof (unicode_strip_last core t c Hstrip) as Hc.
    destruct (unicode_upper_last t c Hc) as (y & x & Hy & Hx).
    rewrite Hy. symmetry. apply unicode_rstrip_snoc. exact Hx.
Qed.

(** A string of the padded grammar is not rejected for its form. *)
Lemma unicode_grammar_is_not_rejected s :
  Unicode.padded_size_grammar decimal upper_char s ->
  Unicode._parse_size decimal upper_char s <> Raise ValueError.
Proof.
  intros Hg Herr.
  destruct (unicode_upper_strip_grammar s Hg)
    as (n & fr & sp & u & Hup & Hn & Hfr & Hsp & Hu).
  unfold Unicode._parse_size in Herr. rewrite Hup in Herr.
  destruct (unicode_match_size_complete n fr sp u Hn Hfr Hsp Hu) as (fp & Hm).
  destruct (unicode_known_unit_multiplier u Hu) as (mult & Hmult).
  rewrite Hm, Hmult in Herr.
  unfold PyFloat.to_int in Herr.
  destruct (PyFloat.mul _ _); discriminate Herr.
Qed.

(** [_parse_size] raises [ValueError] exactly on the strings that, with
    the whitespace around them set aside and the case of the letters
    ignored, are not of the form number, optional fraction, optional
    whitespace, known unit, where a number is a run of decimal digits of
    any script.  A string of that form gives a number of bytes or, when
    the number is too large for a float, [OverflowError].  This holds for
    every [str], whatever the tables of decimal digits and of upper-case
    mappings are, as long as they treat ASCII and whitespace as those of
    Python do. *)
Theorem parse_size_rejects_exactly_the_malformed (size_str : Unicode.str) :
  (Unicode._parse_size decimal upper_char size_str = Raise ValueError
   <-> ~ Unicode.padded_size_grammar decimal upper_char size_str)
  /\ (Unicode.padded_size_grammar decimal upper_char size_str ->
      (exists bytes,
          Unicode._parse_size decimal upper_char size_str = Ok bytes)
      \/ Unicode._parse_size decimal upper_char size_str
         = Raise OverflowError).
Proof.
  split; [split|].
  - intros Herr Hg. exact (unicode_grammar_is_not_rejected _ Hg Herr).
  - intros Hnot.
    destruct (Unicode._parse_size decimal upper_char size_str)
      as [bytes|ex] eqn:E.
    + exfalso. apply Hnot. apply unicode_parse_size_accepts_grammar_only.
      rewrite E. discriminate.
    + destruct (unicode_parse_size_raises _ _ E) as [->| ->]; [reflexivity|].
      exfalso. apply Hnot. apply unicode_parse_size_accepts_grammar_only.
      rewrite E. discriminate.
  - intros Hg.
    pose proof (unicode_grammar_is_not_rejected _ Hg) as Hok.
    destruct (Unicode._parse_size decimal upper_char size_str)
      as [bytes|ex] eqn:E.
    + left. exists bytes. reflexivity.
    + destruct (unicode_parse_size_raises _ _ E) as [->| ->];
        [exfalso; apply Hok; reflexivity | right; reflexivity].
Qed.

(** C6, amended: the known values are parsed with binary multipliers,
    the invalid examples raise [ValueError], and so does every [str] that,
    once the whitespace around it is set aside, does not match the grammar
    with the unit in either case and with a number being a run of decimal
    digits of any script, as [\d] and [float()] take it. *)
Theorem parse_size_values_and_errors :
  let parse s := Unicode._parse_size decimal upper_char (Unicode.of_string s) in
  parse "10GB" = Ok (10 * 1024 ^ 3)
  /\ parse "500MB" = Ok (500 * 1024 ^ 2)
  /\ parse "1TB" = Ok (1024 ^ 4)
  /\ parse "0B" = Ok 0
  /\ parse "0" = Ok 0
  /\ parse "1KB" = Ok 1024
  /\ parse "10XB" = Raise ValueError
  /\ parse "abc" = Raise ValueError
  /\ parse "" = Raise ValueError
  /\ (forall s : Unicode.str,
        ~ Unicode.padded_size_grammar decimal upper_char s ->
        Unicode._parse_size decimal upper_char s = Raise ValueError).
Proof.
  intros parse. subst parse. cbv beta.
  repeat (split;
          [rewrite unicode_parse_size_of_string by reflexivity;
           vm_compute; reflexivity|]).
  intros s Hs.
  destruct (Unicode._parse_size decimal upper_char s) as [n|ex] eqn:E.
  - exfalso. apply Hs. apply unicode_parse_size_accepts_grammar_only.
    rewrite E. discriminate.
  - destruct (unicode_parse_size_raises _ _ E) as [->| ->]; [reflexivity|].
    exfalso. apply Hs. apply unicode_parse_size_accepts_grammar_only.
    rewrite E. discriminate.
Qed.

End UnicodeParseSize.

(** *** The tables of Python 3.11 are as assumed *)

Lemma below_128_listed (c : N) :
  (c < 128)%N -> In c (map N.of_nat (seq 0 128)).
Proof.
  intros H. apply in_map_iff. exists (N.to_nat c).
  split; [apply N2Nat.id | apply in_seq; lia].
Qed.

Lemma python311_upper_entries :
  forallb (fun entry : N * Unicode.str =>
             negb (Unicode.is_space (fst entry))
             && negb (Unicode.is_empty (snd entry))
             && forallb (fun x => negb (Unicode.is_space x)) (snd entry))
    Unicode.python311_upper = true.
Proof. vm_compute. reflexivity. Qed.

Lemma python311_upper_found c entry :
  find (fun entry : N * Unicode.str => (fst entry =? c)%N)
    Unicode.python311_upper = Some entry ->
  Unicode.is_space c = false
  /\ snd entry <> []
  /\ forallb (fun x => negb (Unicode.is_space x)) (snd entry) = true.
Proof.
  intros H. apply find_some in H. destruct H as [Hin Hc].
  apply N.eqb_eq in Hc. subst c.
  pose proof python311_upper_entries as Hall.
  rewrite List.forallb_forall in Hall. specialize (Hall entry Hin).
  apply andb_true_iff in Hall. destruct Hall as [Hall H3].
  apply andb_true_iff in Hall. destruct Hall as [H1 H2].
  apply negb_true_iff in H1. split; [exact H1|]. split; [|exact H3].
  destruct (snd entry); [discriminate H2 | discriminate].
Qed.

Lemma python311_decimal_blocks :
  forallb (fun zero =>
             forallb (fun i => negb (Unicode.is_space (zero + N.of_nat i)))
               (seq 0 10))
    Unicode.decimal_zeros = true.
Proof. vm_compute. reflexivity. Qed.

(** The tables of Python 3.11 have the properties that the statements
    assume. *)
Lemma python311_tables :
  Unicode.tables_of_python Unicode.python311_decimal
    Unicode.python311_upper_char.
Proof.
  split.
  - assert (H : forallb
                  (fun c =>
                     bool_decide
                       (Unicode.python311_decimal c
                        = if ((48 <=? c) && (c <=? 57))%N
                          then Some (Z.of_N c - 48) else None))
                  (map N.of_nat (seq 0 128)) = true)
      by (vm_compute; reflexivity).
    rewrite List.forallb_forall in H. intros c Hc.
    exact (proj1 (bool_decide_eq_true _) (H c (below_128_listed c Hc))).
  - assert (H : forallb
                  (fun c =>
                     bool_decide
                       (Unicode.python311_upper_char c
                        = [if ((97 <=? c) && (c <=? 122))%N
                           then (c - 32)%N else c]))
                  (map N.of_nat (seq 0 128)) = true)
      by (vm_compute; reflexivity).
    rewrite List.forallb_forall in H. intros c Hc.
    exact (proj1 (bool_decide_eq_true _) (H c (below_128_listed c Hc))).
  - intros c Hc. unfold Unicode.python311_upper_char.
    destruct (find _ Unicode.python311_upper) as [entry|] eqn:E; [|reflexivity].
    destruct (python311_upper_found c entry E) as [Hns _]. congruence.
  - intros c Hc. unfold Unicode.python311_upper_char.
    destruct (find _ Unicode.python311_upper) as [entry|] eqn:E.
    + destruct (python311_upper_found c entry E) as (_ & Hne & Hall).
      split; assumption.
    + split; [discriminate|]. simpl. rewrite Hc. reflexivity.
  - intros c d H. unfold Unicode.python311_decimal in H.
    destruct (find _ Unicode.decimal_zeros) as [zero|] eqn:E; [|discriminate].
    apply find_some in E. destruct E as [Hin Hrange].
    apply andb_true_iff in Hrange. destruct Hrange as [Hlo Hhi].
    apply N.leb_le in Hlo. apply N.ltb_lt in Hhi.
    pose proof python311_decimal_blocks as Hall.
    rewrite List.forallb_forall in Hall. specialize (Hall zero Hin).
    rewrite List.forallb_forall in Hall.
    specialize (Hall (N.to_nat (c - zero))
                  ltac:(apply in_seq; lia)).
    rewrite N2Nat.id in Hall.
    replace (zero + (c - zero))%N with c in Hall by lia.
    apply negb_true_iff in Hall. exact Hall.
Qed.

Lemma ascii_tables :
  Unicode.tables_of_python Unicode.ascii_decimal Unicode.python311_upper_char.
Proof.
  destruct python311_tables as [_ Hup Hsp Hot _].
  split; [|exact Hup | exact Hsp | exact Hot|].
  - intros c _. reflexivity.
  - intros c d. unfold Unicode.ascii_decimal, Unicode.is_space.
    destruct (N.leb_spec 48 c); [|discriminate].
    destruct (N.leb_spec c 57); [|discriminate]. intros _.
    repeat match goal with
           | |- context [(?a <=? ?b)%N] => destruct (N.leb_spec a b); try lia
           | |- context [(?a =? ?b)%N] => destruct (N.eqb_spec a b); try lia
           end; reflexivity.
Qed.

(** *** The strings below 256

    On the characters below 256 the model of [str.upper] in [PyStr] differs
    from Python's: it changes the letters a to z only.  The size parser
    does not see the difference. *)

Lemma match_unit_in_pattern r unit r4 :
  match_unit r = (unit, r4) -> all_chars in_pattern unit = true.
Proof.
  unfold match_unit. intros H.
  destruct r as [|c r']; simpl in H.
  - inversion H. reflexivity.
  - destruct (is_prefix_letter c) eqn:Hc.
    + assert (Hin : in_pattern c = true).
      { unfold in_pattern. rewrite Hc. rewrite ?orb_true_r, ?orb_true_l. reflexivity. }
      destruct r' as [|d r'']; simpl in H.
      * inversion H. simpl. rewrite Hin. reflexivity.
      * destruct (Ascii.eqb_spec d "B") as [->|_]; inversion H; simpl;
          rewrite Hin; reflexivity.
    + destruct (Ascii.eqb_spec c "B") as [->|_]; inversion H; reflexivity.
Qed.

Lemma match_size_in_pattern s matched :
  match_size s = Some matched -> all_chars in_pattern s = true.
Proof.
  unfold match_size. intros H.
  destruct (span PyStr.is_digit s) as [ds r] eqn:Hds.
  destruct (PyStr.is_empty ds) eqn:He; [discriminate|].
  destruct (match_fraction r) as [fr' r1] eqn:Hfr.
  destruct (span PyStr.is_space r1) as [sp r2] eqn:Hsp.
  destruct (match_unit r2) as [u r4] eqn:Hu.
  destruct (span_spec _ _ _ _ Hds) as [Hs Hdigits].
  destruct (match_fraction_spec _ _ _ Hfr) as (fraction & Hr & Hfraction).
  destruct (span_spec _ _ _ _ Hsp) as [Hr1 Hspaces].
  pose proof (match_unit_spec _ _ _ Hu) as Hr2.
  pose proof (match_unit_in_pattern _ _ _ Hu) as Hunit.
  destruct (PyStr.is_empty r4 || String.eqb r4 (String "010" EmptyString))
    eqn:Hend; [|discriminate].
  clear H. subst s r r1 r2. rewrite !all_chars_app.
  assert (Hdec : forall x, PyStr.is_digit x = true -> in_pattern x = true).
  { intros x Hx. unfold in_pattern. rewrite Hx. reflexivity. }
  assert (Hspace : forall x, PyStr.is_space x = true -> in_pattern x = true).
  { intros x Hx. unfold in_pattern. rewrite Hx.
    rewrite ?orb_true_r, ?orb_true_l. reflexivity. }
  rewrite (all_chars_weaken _ _ ds Hdec Hdigits).
  rewrite (all_chars_weaken _ _ sp Hspace Hspaces), Hunit.
  assert (Hfrac : all_chars in_pattern fraction = true).
  { destruct Hfraction as [->|(f & -> & _ & Hf)]; [reflexivity|].
    simpl. exact (all_chars_weaken _ _ f Hdec Hf). }
  assert (Htail : all_chars in_pattern r4 = true).
  { apply orb_true_iff in Hend. destruct Hend as [Hend|Hend].
    - destruct r4; [reflexivity | discriminate].
    - apply String.eqb_eq in Hend. subst r4. reflexivity. }
  rewrite Hfrac, Htail. reflexivity.
Qed.

(** Python 3.11 reads [\d] on a character below 256 as the model does. *)
Lemma python311_decimal_below_256 c :
  Unicode.is_decimal Unicode.python311_decimal (N_of_ascii c)
  = PyStr.is_digit c.
Proof. destruct c as [[] [] [] [] [] [] [] []]; vm_compute; reflexivity. Qed.

(** The capital that Python 3.11 gives a character below 256 is that of
    the model, or both stand outside the pattern. *)
Lemma capitals_below_256 c :
  same_capital c || capitals_outside_pattern c = true.
Proof. destruct c as [[] [] [] [] [] [] [] []]; vm_compute; reflexivity. Qed.

Lemma all_chars_any s : all_chars (fun _ => true) s = true.
Proof. induction s as [|c s IH]; [reflexivity | exact IH]. Qed.

Lemma same_capital_upper t :
  all_chars same_capital t = true ->
  Unicode.upper Unicode.python311_upper_char (Unicode.of_string t)
  = Unicode.of_string (PyStr.upper t).
Proof.
  induction t as [|c t IH]; [reflexivity|].
  intros H. change (same_capital c && all_chars same_capital t = true) in H.
  apply andb_true_iff in H. destruct H as [Hc Ht].
  change (PyStr.upper (String c t))
    with (String (PyStr.upper_char c) (PyStr.upper t)).
  rewrite !of_string_cons.
  change (Unicode.upper Unicode.python311_upper_char
            (N_of_ascii c :: Unicode.of_string t))
    with (Unicode.python311_upper_char (N_of_ascii c)
          ++ Unicode.upper Unicode.python311_upper_char (Unicode.of_string t))%list.
  rewrite (IH Ht). unfold same_capital in Hc.
  destruct (Unicode.python311_upper_char (N_of_ascii c)) as [|x [|y l]];
    try discriminate Hc.
  apply N.eqb_eq in Hc. subst x. reflexivity.
Qed.

Lemma other_capitals_outside_pattern t :
  all_chars same_capital t = false ->
  forallb (Unicode.in_pattern Unicode.python311_decimal)
    (Unicode.upper Unicode.python311_upper_char (Unicode.of_string t)) = false
  /\ all_chars in_pattern (PyStr.upper t) = false.
Proof.
  induction t as [|c t IH]; [discriminate|].
  intros H. change (same_capital c && all_chars same_capital t = false) in H.
  change (PyStr.upper (String c t))
    with (String (PyStr.upper_char c) (PyStr.upper t)).
  rewrite of_string_cons.
  change (Unicode.upper Unicode.python311_upper_char
            (N_of_ascii c :: Unicode.of_string t))
    with (Unicode.python311_upper_char (N_of_ascii c)
          ++ Unicode.upper Unicode.python311_upper_char (Unicode.of_string t))%list.
  rewrite forallb_app.
  change (all_chars in_pattern (String (PyStr.upper_char c) (PyStr.upper t)))
    with (in_pattern (PyStr.upper_char c)
          && all_chars in_pattern (PyStr.upper t)).
  pose proof (capitals_below_256 c) as Hc.
  destruct (same_capital c).
  - destruct (IH H) as [Hu Hl]. rewrite Hu, Hl, !andb_false_r.
    split; reflexivity.
  - unfold capitals_outside_pattern in Hc. simpl in Hc.
    apply andb_true_iff in Hc. destruct Hc as [Hl Hu].
    apply negb_true_iff in Hl, Hu. rewrite Hl, Hu. split; reflexivity.
Qed.

(** On every string of characters below 256 the parser for every [str],
    with the tables of Python 3.11, does what the parser for these strings
    does. *)
Lemma unicode_parse_size_below_256 s :
  Unicode._parse_size Unicode.python311_decimal Unicode.python311_upper_char
    (Unicode.of_string s)
  = _parse_size s.
Proof.
  destruct (all_chars same_capital (PyStr.strip s)) eqn:E.
  - apply (unicode_parse_size_agrees _ _ python311_tables (fun _ => true)).
    + intros c _. apply python311_decimal_below_256.
    + rewrite unicode_strip_of_string. exact (same_capital_upper _ E).
    + apply all_chars_any.
  - destruct (other_capitals_outside_pattern _ E) as [Hu Hl].
    unfold Unicode._parse_size, _parse_size.
    rewrite unicode_strip_of_string.
    destruct (Unicode.match_size _ _) as [matched|] eqn:Hm.
    + apply unicode_match_size_in_pattern in Hm. congruence.
    + destruct (match_size _) as [matched|] eqn:Hm'; [|reflexivity].
      apply match_size_in_pattern in Hm'. congruence.
Qed.

(** C6 as stated fails, in two ways: a string with a space in front does
    not match the grammar, and yet it is parsed; and so is a size written
    with fullwidth digits, which even with whitespace set aside is no
    string of the grammar when a number is made of the digits 0 to 9. *)
Lemma padded_and_fullwidth_sizes_are_accepted :
  ~ Unicode.size_grammar_ci Unicode.python311_decimal
      Unicode.python311_upper_char (Unicode.of_string " 10GB")
  /\ Unicode._parse_size Unicode.python311_decimal Unicode.python311_upper_char
       (Unicode.of_string " 10GB") = Ok (10 * 1024 ^ 3)
  /\ ~ Unicode.padded_size_grammar Unicode.ascii_decimal
         Unicode.python311_upper_char Unicode.fullwidth_10GB
  /\ Unicode._parse_size Unicode.python311_decimal Unicode.python311_upper_char
       Unicode.fullwidth_10GB = Ok (10 * 1024 ^ 3).
Proof.
  split; [|split; [vm_compute; reflexivity|split; [|vm_compute; reflexivity]]].
  - intros (number & fraction & spaces & unit & Heq & [Hne Hdigits] & _).
    destruct number as [|c number]; [apply Hne; reflexivity|].
    assert (Hup : Unicode.upper Unicode.python311_upper_char
                    (Unicode.of_string " 10GB")
                  = [32; 49; 48; 71; 66]%N) by (vm_compute; reflexivity).
    rewrite Hup in Heq. inversion Heq; subst c.
    simpl in Hdigits. discriminate Hdigits.
  - intros Hg.
    apply (unicode_grammar_is_not_rejected _ _ ascii_tables _ Hg).
    vm_compute. reflexivity.
Qed.

Lemma parse_size_values_and_errors_witness :
  Unicode._parse_size Unicode.python311_decimal Unicode.python311_upper_char
    (Unicode.of_string "500MB") = Ok (500 * 1024 ^ 2)
  /\ Unicode._parse_size Unicode.python311_decimal Unicode.python311_upper_char
       (Unicode.of_string "1.5.5GB") = Raise ValueError
  /\ Unicode._parse_size Unicode.python311_decimal Unicode.python311_upper_char
       Unicode.arabic_7XB = Raise ValueError.
Proof.
  destruct (parse_size_values_and_errors Unicode.python311_decimal
              Unicode.python311_upper_char python311_tables)
    as (_ & H500 & _ & _ & _ & _ & _ & _ & _ & Hall).
  split; [exact H500|]. split; apply Hall; intros Hg;
    apply (unicode_grammar_is_not_rejected _ _ python311_tables _ Hg);
    vm_compute; reflexivity.
Defined.

Lemma parse_size_rejects_exactly_the_malformed_witness :
  ~ Unicode.padded_size_grammar Unicode.python311_decimal
      Unicode.python311_upper_char Unicode.arabic_7XB
  /\ ((exists bytes,
          Unicode._parse_size Unicode.python311_decimal
            Unicode.python311_upper_char Unicode.fullwidth_1_5_tb = Ok bytes)
      \/ Unicode._parse_size Unicode.python311_decimal
           Unicode.python311_upper_char Unicode.fullwidth_1_5_tb
         = Raise OverflowError).
Proof.
  split.
  - apply (proj1 (proj1 (parse_size_rejects_exactly_the_malformed
                           Unicode.python311_decimal
                           Unicode.python311_upper_char python311_tables
                           Unicode.arabic_7XB))).
    vm_compute. reflexivity.
  - apply (proj2 (parse_size_rejects_exactly_the_malformed
                    Unicode.python311_decimal Unicode.python311_upper_char
                    python311_tables Unicode.fullwidth_1_5_tb)).
    exists [Unicode.code " "],
      [65297; Unicode.code "."; 65301; 12288; Unicode.code "t";
       Unicode.code "b"]%N,
      [Unicode.code "010"].
    split; [reflexivity|]. split; [reflexivity|]. split; [reflexivity|].
    exists [65297]%N, [Unicode.code "."; 65301]%N, [12288]%N,
      (Unicode.of_string "TB").
    split; [vm_compute; reflexivity|].
    split; [split; [discriminate | vm_compute; reflexivity]|].
    split; [right; exists [65301]%N; split; [reflexivity|];
            split; [discriminate | vm_compute; reflexivity]|].
    split; [reflexivity | simpl; tauto].
Defined.

(** * Properties of the rest of the program *)

(** ** More on strings *)

Lemma all_chars_true_app p a b :
  all_chars p a = true -> all_chars p b = true -> all_chars p (a ++ b) = true.
Proof. intros Ha Hb. rewrite all_chars_app, Ha, Hb. reflexivity. Qed.

Lemma rstrip_with_all p r :
  all_chars p r = true -> PyStr.rstrip_with p r = "".
Proof.
  induction r as [|c r IH]; simpl; [reflexivity|].
  intros H. apply andb_true_iff in H. destruct H as [Hc Hr].
  rewrite (IH Hr), Hc. reflexivity.
Qed.

(** Characters of the class at the end do not change what [rstrip]
    gives. *)
Lemma rstrip_with_app p x r :
  all_chars p r = true ->
  PyStr.rstrip_with p (x ++ r) = PyStr.rstrip_with p x.
Proof.
  intros Hr. induction x as [|c x IH]; simpl.
  - apply rstrip_with_all. exact Hr.
  - rewrite IH. reflexivity.
Qed.

Lemma lstrip_with_app p l x :
  all_chars p l = true ->
  PyStr.lstrip_with p (l ++ x) = PyStr.lstrip_with p x.
Proof.
  induction l as [|c l IH]; simpl; [reflexivity|].
  intros H. apply andb_true_iff in H. destruct H as [Hc Hl].
  rewrite Hc. exact (IH Hl).
Qed.

Lemma strip_with_app_r p s r :
  all_chars p r = true ->
  PyStr.strip_with p (s ++ r) = PyStr.strip_with p s.
Proof.
  intros Hr. unfold PyStr.strip_with. induction s as [|c s IH]; simpl.
  - rewrite (rstrip_with_all p (PyStr.lstrip_with p r)); [reflexivity|].
    destruct (lstrip_with_spec p r) as (l & Heq & Hl).
    rewrite Heq, all_chars_app in Hr. apply andb_true_iff in Hr. apply Hr.
  - destruct (p c); [exact IH|].
    change (String c (s ++ r)) with (String c s ++ r).
    apply rstrip_with_app. exact Hr.
Qed.

(** Whitespace around a string does not change what [strip] gives. *)
Lemma strip_with_padded p l s r :
  all_chars p l = true -> all_chars p r = true ->
  PyStr.strip_with p (l ++ s ++ r) = PyStr.strip_with p s.
Proof.
  intros Hl Hr. unfold PyStr.strip_with at 1.
  rewrite lstrip_with_app by exact Hl.
  apply (strip_with_app_r p s r Hr).
Qed.

Lemma strip_with_none p s :
  all_chars (fun c => negb (p c)) s = true -> PyStr.strip_with p s = s.
Proof.
  unfold PyStr.strip_with. intros H.
  assert (Hl : PyStr.lstrip_with p s = s).
  { destruct s as [|c s]; [reflexivity|]. simpl in *.
    apply andb_true_iff in H. destruct H as [Hc _].
    apply negb_true_iff in Hc. rewrite Hc. reflexivity. }
  rewrite Hl. clear Hl. induction s as [|c s IH]; simpl; [reflexivity|].
  simpl in H. apply andb_true_iff in H. destruct H as [Hc Hs].
  apply negb_true_iff in Hc. rewrite Hc, (IH Hs). reflexivity.
Qed.

(** ** [_get_log_filename] and [get_disk_space] *)

Lemma replace_all_chars (q0 q : ascii -> bool) a b s :
  all_chars q b = true ->
  (forall c, Ascii.eqb c a = false -> q0 c = true -> q c = true) ->
  all_chars q0 s = true ->
  all_chars q (PyStr.replace a b s) = true.
Proof.
  intros Hb Hq. induction s as [|c s IH]; simpl; [reflexivity|].
  intros H. apply andb_true_iff in H. destruct H as [Hc Hs].
  destruct (Ascii.eqb c a) eqn:E.
  - apply all_chars_true_app; [exact Hb | exact (IH Hs)].
  - simpl. rewrite (Hq c E Hc), (IH Hs). reflexivity.
Qed.

(** The stem of a log file name holds no path separator and no colon,
    whatever the drive path is. *)
Theorem log_name_has_no_separator_or_colon (drive_path : string) :
  all_chars is_name_char (safe_name drive_path) = true
  /\ _get_log_filename drive_path = safe_name drive_path ++ ".log".
Proof.
  split; [|reflexivity]. unfold safe_name.
  set (s0 := PyStr.rstrip_with is_separator drive_path).
  assert (H1 : all_chars (fun c => negb (Ascii.eqb c "\"))
                 (PyStr.replace "\" "_" s0) = true).
  { apply (replace_all_chars (fun _ => true)); [reflexivity| |apply all_chars_any].
    intros c E _. rewrite E. reflexivity. }
  assert (H2 : all_chars (fun c => negb (is_separator c))
                 (PyStr.replace "/" "_" (PyStr.replace "\" "_" s0)) = true).
  { apply (replace_all_chars (fun c => negb (Ascii.eqb c "\")));
      [reflexivity| |exact H1].
    intros c E Hc. unfold is_separator. rewrite E.
    apply negb_true_iff in Hc. rewrite Hc. reflexivity. }
  set (s2 := PyStr.replace "/" "_" (PyStr.replace "\" "_" s0)) in *.
  apply (replace_all_chars (fun c => negb (is_separator c))); [reflexivity| |].
  - intros c E Hc. unfold is_name_char. rewrite E, Hc. reflexivity.
  - destruct ((s2 =? "")%string || (s2 =? "_")%string); [reflexivity | exact H2].
Qed.

Lemma log_name_app_separators drive_path seps :
  all_chars is_separator seps = true ->
  _get_log_filename (drive_path ++ seps) = _get_log_filename drive_path.
Proof.
  intros Hseps. unfold _get_log_filename, safe_name.
  rewrite (rstrip_with_app is_separator drive_path seps Hseps). reflexivity.
Qed.

(** Separators at the end of a drive path do not change the log file
    name, and a path made of separators only (the root) is logged in
    [root.log]. *)
Theorem log_name_ignores_trailing_separators (drive_path seps : string)
    (Hseps : all_chars is_separator seps = true) :
  _get_log_filename (drive_path ++ seps) = _get_log_filename drive_path
  /\ _get_log_filename seps = "root.log".
Proof.
  split.
  - exact (log_name_app_separators drive_path seps Hseps).
  - unfold _get_log_filename, safe_name.
    rewrite (rstrip_with_all is_separator seps Hseps). reflexivity.
Qed.

Lemma log_name_ignores_trailing_separators_witness :
  _get_log_filename ("/mnt/data" ++ "//") = _get_log_filename "/mnt/data"
  /\ _get_log_filename "//" = "root.log".
Proof.
  apply (log_name_ignores_trailing_separators "/mnt/data" "//"). reflexivity.
Defined.


Lemma endswith_split c s :
  endswith c s = true -> exists s', s = s' ++ String c "".
Proof.
  induction s as [|d s IH]; simpl; [discriminate|].
  destruct s as [|d' s'].
  - intros H. apply Ascii.eqb_eq in H. subst d. exists "". reflexivity.
  - intros H. destruct (IH H) as (t & Ht). exists (String d t).
    simpl. rewrite <- Ht. reflexivity.
Qed.



(** ** [_parse_size] *)

Lemma is_space_upper_char c : PyStr.is_space (PyStr.upper_char c) = PyStr.is_space c.
Proof. destruct c as [[] [] [] [] [] [] [] []]; reflexivity. Qed.

Lemma upper_char_idem c : PyStr.upper_char (PyStr.upper_char c) = PyStr.upper_char c.
Proof. destruct c as [[] [] [] [] [] [] [] []]; reflexivity. Qed.

Lemma upper_idem s : PyStr.upper (PyStr.upper s) = PyStr.upper s.
Proof.
  induction s as [|c s IH]; simpl; [reflexivity|].
  rewrite upper_char_idem, IH. reflexivity.
Qed.

Lemma upper_lstrip s :
  PyStr.upper (PyStr.lstrip_with PyStr.is_space s)
  = PyStr.lstrip_with PyStr.is_space (PyStr.upper s).
Proof.
  induction s as [|c s IH]; simpl; [reflexivity|].
  rewrite is_space_upper_char. destruct (PyStr.is_space c); [exact IH | reflexivity].
Qed.

Lemma upper_rstrip s :
  PyStr.upper (PyStr.rstrip_with PyStr.is_space s)
  = PyStr.rstrip_with PyStr.is_space (PyStr.upper s).
Proof.
  induction s as [|c s IH]; simpl; [reflexivity|].
  rewrite is_space_upper_char, <- IH.
  destruct (PyStr.rstrip_with PyStr.is_space s); simpl;
    destruct (PyStr.is_space c); reflexivity.
Qed.

Lemma upper_strip s : PyStr.upper (PyStr.strip s) = PyStr.strip (PyStr.upper s).
Proof.
  unfold PyStr.strip, PyStr.strip_with. rewrite upper_rstrip, upper_lstrip.
  reflexivity.
Qed.

(** [_parse_size] does not look at whitespace around the size or at the
    case of the letters: two strings that agree up to these give the same
    result, be it a number of bytes or an error. *)
Theorem parse_size_ignores_padding_and_case (l s1 s2 r : string)
    (Hl : all_chars PyStr.is_space l = true)
    (Hr : all_chars PyStr.is_space r = true)
    (Hcase : PyStr.upper s1 = PyStr.upper s2) :
  _parse_size (l ++ s1 ++ r) = _parse_size s2.
Proof.
  unfold _parse_size, PyStr.strip.
  rewrite (strip_with_padded PyStr.is_space l s1 r Hl Hr).
  fold (PyStr.strip s1). fold (PyStr.strip s2).
  rewrite !upper_strip, Hcase. reflexivity.
Qed.

Lemma parse_size_ignores_padding_and_case_witness :
  _parse_size ("  " ++ "1.5 gb" ++ NL) = _parse_size "1.5 GB".
Proof.
  apply (parse_size_ignores_padding_and_case "  " "1.5 gb" "1.5 GB" NL);
    reflexivity.
Defined.

(** *** Sizes that the float arithmetic keeps exact *)

Lemma Qred_scaled N k : 0 <= k ->
  Qred (Qmake (N * 2 ^ k) (Z.to_pos (2 ^ k))) = inject_Z N.
Proof.
  intros Hk.
  assert (Hp : 0 < 2 ^ k) by (apply Z.pow_pos_nonneg; lia).
  transitivity (Qred (inject_Z N)).
  - apply Qred_complete. unfold Qeq, inject_Z. simpl.
    rewrite Z2Pos.id by exact Hp. lia.
  - unfold Qred, inject_Z.
    pose proof (Z.ggcd_gcd N 1) as Hg.
    pose proof (Z.ggcd_correct_divisors N 1) as Hd.
    destruct (Z.ggcd N 1) as (g, (aa, bb)). simpl in Hg, Hd.
    rewrite Z.gcd_1_r in Hg. subst g. destruct Hd as [Ha Hb].
    rewrite Z.mul_1_l in Ha, Hb. subst aa bb. reflexivity.
Qed.

Lemma round_exact a j :
  0 < a < 2 ^ 53 -> 0 <= j -> a * 2 ^ j < 2 ^ 1024 ->
  PyFloat.round (inject_Z (a * 2 ^ j)) = PyFloat.Fin (inject_Z (a * 2 ^ j)).
Proof.
  intros Ha Hj Hmax.
  assert (Hpj : 0 < 2 ^ j) by (apply Z.pow_pos_nonneg; lia).
  set (N := a * 2 ^ j) in *.
  assert (HN : 0 < N) by (unfold N; lia).
  pose proof (Z.log2_spec N HN) as HL.
  assert (HLa : Z.log2 N = Z.log2 a + j).
  { unfold N. rewrite Z.log2_mul_pow2 by lia. lia. }
  assert (Hla : 0 <= Z.log2 a < 53).
  { split; [apply Z.log2_nonneg|]. apply Z.log2_lt_pow2; lia. }
  set (L := Z.log2 N) in *.
  unfold PyFloat.round. cbn [Qnum Qden inject_Z].
  destruct (Z.eqb_spec N 0) as [|_]; [lia|].
  unfold PyFloat.round_parts. change (Z.log2 1) with 0. fold L.
  rewrite Z.sub_0_r.
  destruct (Z.ltb_spec (L - 53) 0) as [Hlt|Hge].
  - (* L <= 52 *)
    cbn [fst snd]. rewrite Z.div_1_r.
    assert (H53 : 2 ^ 53 <= N * 2 ^ (- (L - 53))).
    { replace (2 ^ 53) with (2 ^ L * 2 ^ (- (L - 53))).
      - apply Z.mul_le_mono_nonneg_r; [apply Z.pow_nonneg; lia | lia].
      - rewrite <- Z.pow_add_r by lia. f_equal. lia. }
    destruct (Z.leb_spec (2 ^ 53) (N * 2 ^ (- (L - 53)))) as [_|]; [|lia].
    rewrite Z.max_l by lia.
    destruct (Z.ltb_spec (L - 53 + 1) 0) as [Hlt'|Hge'].
    + rewrite Z.div_1_r, Z.mod_1_r, Z.mul_0_r.
      change (1 <? 0) with false. change (1 =? 0) with false. cbn [orb andb].
      unfold PyFloat.of_parts.
      destruct (Z.ltb_spec (L - 53 + 1) 0); [|lia].
      rewrite Qred_scaled by lia. reflexivity.
    + rewrite Z.mul_1_l.
      assert (L - 53 + 1 = 0) as -> by lia.
      change (2 ^ 0) with 1. rewrite Z.div_1_r, Z.mod_1_r, Z.mul_0_r.
      change (1 <? 0) with false. change (1 =? 0) with false. cbn [orb andb].
      unfold PyFloat.of_parts. change (0 <? 0) with false. cbv iota.
      rewrite Z.mul_1_r.
      destruct (Z.leb_spec (2 ^ 1024) N); [lia | reflexivity].
  - (* 53 <= L *)
    cbn [fst snd]. rewrite Z.mul_1_l.
    assert (Hp : 0 < 2 ^ (L - 53)) by (apply Z.pow_pos_nonneg; lia).
    assert (H53 : 2 ^ 53 <= N / 2 ^ (L - 53)).
    { apply Z.div_le_lower_bound; [exact Hp|].
      rewrite <- Z.pow_add_r by lia.
      replace (L - 53 + 53) with L by lia. lia. }
    destruct (Z.leb_spec (2 ^ 53) (N / 2 ^ (L - 53))) as [_|]; [|lia].
    rewrite Z.max_l by lia.
    destruct (Z.ltb_spec (L - 53 + 1) 0) as [|_]; [lia|].
    rewrite Z.mul_1_l.
    set (e := L - 53 + 1) in *.
    assert (Hpe : 0 < 2 ^ e) by (apply Z.pow_pos_nonneg; lia).
    assert (Hdiv : N = (a * 2 ^ (j - e)) * 2 ^ e).
    { unfold N. rewrite <- Z.mul_assoc, <- Z.pow_add_r by lia.
      do 2 f_equal. lia. }
    assert (Hmod : N mod 2 ^ e = 0).
    { rewrite Hdiv. apply Z.mod_mul. lia. }
    assert (Hquo : N / 2 ^ e * 2 ^ e = N).
    { rewrite Hdiv at 1. rewrite Z.div_mul by lia. symmetry. exact Hdiv. }
    rewrite Hmod, Z.mul_0_r.
    destruct (Z.ltb_spec (2 ^ e) 0); [lia|].
    destruct (Z.eqb_spec (2 ^ e) 0); [lia|]. cbn [orb andb].
    unfold PyFloat.of_parts.
    destruct (Z.ltb_spec e 0); [lia|].
    rewrite Hquo.
    destruct (Z.leb_spec (2 ^ 1024) N); [lia | reflexivity].
Qed.

Lemma digit_not_space c : PyStr.is_digit c = true -> PyStr.is_space c = false.
Proof.
  destruct c as [[] [] [] [] [] [] [] []]; vm_compute; intros H;
    first [reflexivity | discriminate H].
Qed.

Lemma digit_not_int_space c :
  PyStr.is_digit c = true -> PyStr.is_int_space c = false.
Proof.
  destruct c as [[] [] [] [] [] [] [] []]; vm_compute; intros H;
    first [reflexivity | discriminate H].
Qed.

Lemma upper_char_digit c : PyStr.is_digit c = true -> PyStr.upper_char c = c.
Proof.
  destruct c as [[] [] [] [] [] [] [] []]; vm_compute; intros H;
    first [reflexivity | discriminate H].
Qed.

Lemma upper_app a b : PyStr.upper (a ++ b) = PyStr.upper a ++ PyStr.upper b.
Proof. induction a as [|c a IH]; simpl; [reflexivity | rewrite IH; reflexivity]. Qed.

Lemma upper_digits s : all_chars PyStr.is_digit s = true -> PyStr.upper s = s.
Proof.
  induction s as [|c s IH]; simpl; [reflexivity|].
  intros H. apply andb_true_iff in H. destruct H as [Hc Hs].
  rewrite (upper_char_digit c Hc), (IH Hs). reflexivity.
Qed.

(** [int()] on a run of digits reads the digits. *)
Lemma int_of_digits s :
  all_chars PyStr.is_digit s = true ->
  PyStr.int s = PyStr.int_digits 0 false s.
Proof.
  intros H. unfold PyStr.int.
  rewrite strip_with_none.
  - destruct s as [|c s]; [reflexivity|].
    simpl in H. apply andb_true_iff in H. destruct H as [Hc _].
    destruct c as [[] [] [] [] [] [] [] []]; try reflexivity; discriminate Hc.
  - apply (all_chars_weaken PyStr.is_digit); [|exact H].
    intros c Hc. rewrite (digit_not_int_space c Hc). reflexivity.
Qed.

Lemma span_app_stop p a b :
  all_chars p a = true ->
  match b with String c _ => p c = false | EmptyString => True end ->
  span p (a ++ b) = (a, b).
Proof.
  intros Ha Hb. induction a as [|c a IH]; simpl.
  - destruct b as [|c b]; [reflexivity|]. simpl. rewrite Hb. reflexivity.
  - simpl in Ha. apply andb_true_iff in Ha. destruct Ha as [Hc Ha].
    rewrite Hc, (IH Ha). reflexivity.
Qed.

Lemma mul_pow2_below a j :
  0 <= a < 2 ^ 53 -> 0 <= j <= 40 -> a * 2 ^ j < 2 ^ 1024.
Proof.
  intros Ha Hj.
  assert (Hp : 0 < 2 ^ j) by (apply Z.pow_pos_nonneg; lia).
  assert (H1 : a * 2 ^ j < 2 ^ 53 * 2 ^ j) by (apply Z.mul_lt_mono_pos_r; lia).
  assert (H2 : 2 ^ 53 * 2 ^ j <= 2 ^ 1024).
  { rewrite <- Z.pow_add_r by lia. apply Z.pow_le_mono_r; lia. }
  lia.
Qed.

Lemma round_exact_0 a j :
  0 <= a < 2 ^ 53 -> 0 <= j <= 40 ->
  PyFloat.round (inject_Z (a * 2 ^ j)) = PyFloat.Fin (inject_Z (a * 2 ^ j)).
Proof.
  intros Ha Hj. destruct (Z.eq_dec a 0) as [->|Hne].
  - reflexivity.
  - apply round_exact; [lia | lia | apply mul_pow2_below; assumption].
Qed.

Lemma scaled_size_exact n j :
  0 <= n < 2 ^ 53 -> 0 <= j <= 40 ->
  PyFloat.to_int
    (PyFloat.mul (PyFloat.round (inject_Z n)) (PyFloat.of_int (2 ^ j)))
  = Ok (n * 2 ^ j).
Proof.
  intros Hn Hj.
  pose proof (round_exact_0 n 0 Hn ltac:(lia)) as Hr.
  change (2 ^ 0) with 1 in Hr. rewrite Z.mul_1_r in Hr. rewrite Hr.
  unfold PyFloat.of_int.
  pose proof (round_exact_0 1 j ltac:(lia) Hj) as Hm.
  rewrite Z.mul_1_l in Hm. rewrite Hm.
  unfold PyFloat.mul.
  assert (Hq : (inject_Z n * inject_Z (2 ^ j))%Q = inject_Z (n * 2 ^ j))
    by reflexivity.
  rewrite Hq, (round_exact_0 n j Hn Hj).
  unfold PyFloat.to_int, inject_Z. cbn [Qnum Qden].
  rewrite Z.div_1_r. reflexivity.
Qed.

Lemma digit_value_nonneg c : PyStr.is_digit c = true -> 0 <= PyStr.digit_value c.
Proof.
  destruct c as [[] [] [] [] [] [] [] []]; vm_compute; intros H;
    first [discriminate H | discriminate].
Qed.

Lemma int_digits_nonneg s :
  forall acc prev v,
    0 <= acc -> PyStr.int_digits acc prev s = Some v -> 0 <= v.
Proof.
  induction s as [|c s IH]; intros acc prev v Hacc H; simpl in H.
  - destruct prev; [inversion H; subst; exact Hacc | discriminate].
  - destruct (PyStr.is_digit c) eqn:Hc.
    + pose proof (digit_value_nonneg c Hc) as Hv.
      apply (IH (10 * acc + PyStr.digit_value c) true v); [lia | exact H].
    + destruct (Ascii.eqb c "_" && prev); [|discriminate].
      destruct s as [|d s']; [discriminate|].
      destruct (PyStr.is_digit d); [|discriminate].
      exact (IH _ _ _ Hacc H).
Qed.

Lemma unit_multiplier_cases unit multiplier :
  unit_multiplier unit = Some multiplier ->
  (unit = "B" /\ multiplier = 2 ^ 0) \/ (unit = "" /\ multiplier = 2 ^ 0)
  \/ (unit = "KB" /\ multiplier = 2 ^ 10) \/ (unit = "MB" /\ multiplier = 2 ^ 20)
  \/ (unit = "GB" /\ multiplier = 2 ^ 30) \/ (unit = "TB" /\ multiplier = 2 ^ 40).
Proof.
  unfold unit_multiplier.
  destruct (String.eqb_spec unit "B") as [->|_];
    [intros H; inversion H; tauto|].
  destruct (String.eqb_spec unit "") as [->|_];
    [intros H; inversion H; tauto|].
  cbn [orb].
  destruct (String.eqb_spec unit "KB") as [->|_];
    [intros H; inversion H; tauto|].
  destruct (String.eqb_spec unit "MB") as [->|_];
    [intros H; inversion H; tauto|].
  destruct (String.eqb_spec unit "GB") as [->|_];
    [intros H; inversion H; tauto|].
  destruct (String.eqb_spec unit "TB") as [->|_];
    [intros H; inversion H; tauto|].
  discriminate.
Qed.

(** A run of digits followed by a known unit goes through the pattern
    as it is. *)
Lemma match_size_digits_unit digits unit multiplier :
  all_chars PyStr.is_digit digits = true ->
  PyStr.is_empty digits = false ->
  unit_multiplier unit = Some multiplier ->
  PyStr.upper (PyStr.strip (digits ++ unit)) = digits ++ unit
  /\ match_size (digits ++ unit) = Some (digits, None, unit).
Proof.
  intros Hd Hne Hu.
  assert (Hns : all_chars (fun c => negb (PyStr.is_space c)) digits = true).
  { apply (all_chars_weaken PyStr.is_digit); [|exact Hd].
    intros c Hc. rewrite (digit_not_space c Hc). reflexivity. }
  destruct (unit_multiplier_cases _ _ Hu)
    as [[-> _]|[[-> _]|[[-> _]|[[-> _]|[[-> _]|[-> _]]]]]];
    (split;
     [ unfold PyStr.strip; rewrite strip_with_none;
       [ rewrite upper_app, (upper_digits digits Hd); reflexivity
       | apply all_chars_true_app; [exact Hns | reflexivity] ]
     | unfold match_size; rewrite span_app_stop by (exact Hd || exact I || reflexivity);
       rewrite Hne; reflexivity ]).
Qed.

(** A size written as a whole number below 2^53 with one of the known
    units is parsed to exactly that number times the unit: the detour
    through floating point loses nothing. *)
Theorem parse_size_exact_on_integers (digits unit : string) (n multiplier : Z)
    (Hdigits : all_chars PyStr.is_digit digits = true)
    (Hvalue : PyStr.int digits = Some n)
    (Hsmall : n < 2 ^ 53)
    (Hunit : unit_multiplier unit = Some multiplier) :
  _parse_size (digits ++ unit) = Ok (n * multiplier).
Proof.
  rewrite (int_of_digits digits Hdigits) in Hvalue.
  assert (Hne : PyStr.is_empty digits = false).
  { destruct digits; [discriminate Hvalue | reflexivity]. }
  assert (Hn : 0 <= n)
    by (apply (int_digits_nonneg digits 0 false n); [lia | exact Hvalue]).
  destruct (match_size_digits_unit _ _ _ Hdigits Hne Hunit) as [Hnorm Hmatch].
  unfold _parse_size. rewrite Hnorm, Hmatch, Hunit.
  unfold PyFloat.of_decimal, PyFloat.digits_value. rewrite Hvalue.
  cbn [default].
  destruct (unit_multiplier_cases _ _ Hunit)
    as [[_ ->]|[[_ ->]|[[_ ->]|[[_ ->]|[[_ ->]|[_ ->]]]]]];
    apply scaled_size_exact; lia.
Qed.

Lemma parse_size_exact_on_integers_witness :
  _parse_size ("750" ++ "GB") = Ok (750 * 1024 ^ 3).
Proof.
  apply (parse_size_exact_on_integers "750" "GB" 750 (1024 ^ 3));
    [reflexivity | reflexivity | reflexivity | reflexivity].
Defined.

(** ** [format_bytes_multiple_units] *)

(** In the multi-unit rendering of [0 <= b] every count of GB, MB, KB or
    B lies between 1 and 1023; only the count of TB, [b / 1024^4], is
    unbounded.  A value below 1024 is rendered as that many bytes. *)
Theorem multiple_units_counts_are_bounded (b : Z) (Hb : 0 <= b) :
  (forall v name,
      In (v, name) (multiple_units_parts units b) ->
      (name = "TB" /\ v = b / 1024 ^ 4) \/ (name <> "TB" /\ 1 <= v <= 1023))
  /\ (0 < b < 1024 -> format_bytes_multiple_units b = pretty b ++ " B").
Proof.
  split.
  - intros v name Hin.
    rewrite (multiple_units_parts_table b Hb) in Hin.
    apply filter_In in Hin. destruct Hin as [Hin Hnz].
    unfold nonzero in Hnz. simpl in Hnz.
    apply negb_true_iff, Z.eqb_neq in Hnz.
    unfold division_table in Hin.
    change (1024 ^ 4) with 1099511627776 in *.
    change (1024 ^ 3) with 1073741824 in Hin.
    change (1024 ^ 2) with 1048576 in Hin.
    simpl in Hin.
    destruct Hin as [Hin|[Hin|[Hin|[Hin|[Hin|[]]]]]]; inversion Hin; subst;
      [left; split; reflexivity|..];
      (right; split; [discriminate|]; Z.to_euclidean_division_equations; lia).
  - intros Hsmall. unfold format_bytes_multiple_units.
    destruct (Z.eqb_spec b 0); [lia|].
    rewrite (multiple_units_parts_table b Hb).
    unfold division_table.
    change (1024 ^ 4) with 1099511627776.
    change (1024 ^ 3) with 1073741824.
    change (1024 ^ 2) with 1048576.
    rewrite (Z.div_small b 1099511627776), (Z.mod_small b 1099511627776),
            (Z.mod_small b 1073741824), (Z.mod_small b 1048576),
            (Z.mod_small b 1024), (Z.div_small b 1073741824),
            (Z.div_small b 1048576), (Z.div_small b 1024) by lia.
    simpl List.filter. unfold nonzero. simpl fst.
    destruct (Z.eqb_spec b 0); [lia|]. reflexivity.
Qed.

Lemma multiple_units_counts_are_bounded_witness :
  format_bytes_multiple_units 512 = pretty 512 ++ " B".
Proof.
  assert (H0 : 0 <= 512) by lia.
  destruct (multiple_units_counts_are_bounded 512 H0) as [_ H].
  apply H. lia.
Defined.

(** ** The tracker within a day *)

Lemma increment_today today d c :
  d !! "date" = Some (JStr today) ->
  default (JInt 0) (d !! "count") = JInt c ->
  _increment_notification_count today (Tracking d)
  = Tracking (<["count" := JInt (c + 1)]> d)
  /\ _get_notification_count_today today
       (_increment_notification_count today (Tracking d)) = JInt (c + 1).
Proof.
  intros Hdate Hc.
  assert (Hinc : _increment_notification_count today (Tracking d)
                 = Tracking (<["count" := JInt (c + 1)]> d)).
  { unfold _increment_notification_count.
    rewrite decide_True by exact Hdate. rewrite Hc. reflexivity. }
  split; [exact Hinc|].
  rewrite Hinc. unfold _get_notification_count_today.
  rewrite decide_True
    by (rewrite lookup_insert_ne by discriminate; exact Hdate).
  rewrite lookup_insert_eq. reflexivity.
Qed.

(** On the day of the record, [_increment_notification_count] adds one
    to the stored count (a missing count is 0), keeps the date and every
    other key, and [count_today()] follows; a record whose count is not a
    number is left as it is. *)
Theorem increment_on_the_same_day (today : string) (d : gmap string json)
    (Hdate : d !! "date" = Some (JStr today)) :
  (forall c, default (JInt 0) (d !! "count") = JInt c ->
     _increment_notification_count today (Tracking d)
     = Tracking (<["count" := JInt (c + 1)]> d)
     /\ _get_notification_count_today today
          (_increment_notification_count today (Tracking d)) = JInt (c + 1)
     /\ forall k, k <> "count" ->
          <["count" := JInt (c + 1)]> d !! k = d !! k)
  /\ (forall s, d !! "count" = Some (JStr s) ->
        _increment_notification_count today (Tracking d) = Tracking d).
Proof.
  split.
  - intros c Hc. destruct (increment_today today d c Hdate Hc) as [Hinc Hcount].
    split; [exact Hinc|]. split; [exact Hcount|].
    intros k Hk. apply lookup_insert_ne. congruence.
  - intros s Hs. unfold _increment_notification_count.
    rewrite decide_True by exact Hdate. rewrite Hs. reflexivity.
Qed.

Lemma increment_on_the_same_day_witness :
  _get_notification_count_today "2024-01-02"
    (_increment_notification_count "2024-01-02" (Tracking today_record))
  = JInt (3 + 1)
  /\ <["count" := JInt (3 + 1)]> today_record !! "host" = Some (JStr "nas").
Proof.
  destruct (increment_on_the_same_day "2024-01-02" today_record eq_refl)
    as [H _].
  destruct (H 3 eq_refl) as (_ & Hcount & Hkeys).
  split; [exact Hcount|]. rewrite Hkeys by discriminate. reflexivity.
Defined.

(** A numeric count stays numeric through [_increment_notification_count]
    and goes up by one, except that a file that is not JSON stays as it is
    (and keeps counting as 0). *)
Lemma increment_count today file c :
  _get_notification_count_today today file = JInt c ->
  (file <> NotJson
   /\ _increment_notification_count today file <> NotJson
   /\ _get_notification_count_today today
        (_increment_notification_count today file) = JInt (c + 1))
  \/ (file = NotJson /\ _increment_notification_count today file = NotJson
      /\ c = 0).
Proof.
  intros Hc. destruct file as [| |d].
  - left. simpl in Hc. inversion Hc; subst.
    rewrite increment_no_file.
    split; [discriminate|]. split; [discriminate | apply count_today_counted].
  - right. simpl in Hc. inversion Hc. repeat split.
  - left. split; [discriminate|].
    destruct (decide (d !! "date" = Some (JStr today))) as [Hd|Hd].
    + unfold _get_notification_count_today in Hc.
      rewrite decide_True in Hc by exact Hd.
      destruct (increment_today today d c Hd Hc) as [Hinc Hcount].
      rewrite Hinc in *. split; [discriminate | exact Hcount].
    + unfold _get_notification_count_today in Hc.
      rewrite decide_False in Hc by exact Hd. inversion Hc; subst.
      rewrite (increment_stale today d Hd).
      split; [discriminate | apply count_today_counted].
Qed.

(** ** One send, case by case *)

(** Everything [send_pushover_notification] can do: fail in the
    comparison of a count that is not a number; stop at the limit without
    a POST; or make one POST and, when it succeeds under a cap, record
    it.  The log files are never touched. *)
Lemma send_cases e m title message priority w :
  let data := post_data m title message priority in
  let count := _get_notification_count_today (today e) (tracking w) in
  (send_pushover_notification e m title message priority w = (Raise TypeError, w)
   /\ exists max s, max_push_notifications_per_day m = Some max
                    /\ count = JStr s)
  \/ (exists b w',
        send_pushover_notification e m title message priority w = (Ok b, w')
        /\ logs w' = logs w
        /\ ((b = false /\ http w' = http w /\ tracking w' = tracking w
             /\ exists max c, max_push_notifications_per_day m = Some max
                              /\ count = JInt c /\ max <= c)
            \/ (b = post_succeeds e data
                /\ http w' = (http w ++ [data])%list
                /\ tracking w'
                   = (if b then
                        match max_push_notifications_per_day m with
                        | Some _ =>
                            _increment_notification_count (today e) (tracking w)
                        | None => tracking w
                        end
                      else tracking w)
                /\ (max_push_notifications_per_day m = None
                    \/ exists max c,
                         max_push_notifications_per_day m = Some max
                         /\ count = JInt c /\ c < max)))).
Proof.
  intros data count. subst count.
  unfold send_pushover_notification, check_daily_limit.
  destruct (max_push_notifications_per_day m) as [max|] eqn:Hmax.
  - destruct (_get_notification_count_today (today e) (tracking w))
      as [s|c] eqn:Hc.
    + left. split; [reflexivity|]. exists max, s. split; reflexivity.
    + right. destruct (Z.leb_spec max c) as [Hle|Hlt].
      * exists false, (print (LimitReached c max) w).
        split; [reflexivity|]. split; [reflexivity|]. left.
        repeat split. exists max, c. repeat split. exact Hle.
      * fold data. destruct (post_succeeds e data) eqn:Hp.
        -- eexists true, _. split; [reflexivity|]. split; [reflexivity|]. right.
           repeat split. right. exists max, c. repeat split. exact Hlt.
        -- eexists false, _. split; [reflexivity|]. split; [reflexivity|]. right.
           repeat split. right. exists max, c. repeat split. exact Hlt.
  - right. fold data. destruct (post_succeeds e data) eqn:Hp.
    + eexists true, _. split; [reflexivity|]. split; [reflexivity|]. right.
      repeat split. left. reflexivity.
    + eexists false, _. split; [reflexivity|]. split; [reflexivity|]. right.
      repeat split. left. reflexivity.
Qed.

(** With a tracking file that holds text which is not JSON, so that
    [json.load] raises [JSONDecodeError], the cap never takes effect: the
    count reads as 0, so for any cap above 0 every send is posted, and a
    successful send leaves the file as it was. *)
Theorem json_decode_error_disables_the_cap
    e m title message priority w max
    (Hfile : tracking w = NotJson)
    (Hcap : max_push_notifications_per_day m = Some max)
    (Hmax : 0 < max) :
  let out := send_pushover_notification e m title message priority w in
  fst out = Ok (post_succeeds e (post_data m title message priority))
  /\ http (snd out) = (http w ++ [post_data m title message priority])%list
  /\ tracking (snd out) = NotJson.
Proof.
  intros out. subst out.
  unfold send_pushover_notification, check_daily_limit.
  rewrite Hcap, Hfile. simpl.
  destruct (Z.leb_spec max 0); [lia|].
  destruct (post_succeeds e _); simpl; rewrite ?Hfile; repeat split.
Qed.

Lemma json_decode_error_disables_the_cap_witness :
  http (snd (send_pushover_notification sample_env
               (sample_monitor (Some 1) [root_drive]) "title" "message" 1
               broken_world))
  = [post_data (sample_monitor (Some 1) [root_drive]) "title" "message" 1]
  /\ tracking (snd (send_pushover_notification sample_env
                      (sample_monitor (Some 1) [root_drive]) "title" "message" 1
                      broken_world)) = NotJson.
Proof.
  destruct (json_decode_error_disables_the_cap sample_env
              (sample_monitor (Some 1) [root_drive]) "title" "message" 1
              broken_world 1 eq_refl eq_refl ltac:(lia)) as (_ & Hhttp & Htrack).
  split; [exact Hhttp | exact Htrack].
Defined.

(** ** What a run does to the world *)

(** A relation between worlds that holds across every print, every log
    write and every alert sent for a drive below its threshold holds
    across the whole loop. *)
Lemma loop_relates e m (R : world -> world -> Prop) (all : list drive) :
  (forall w, R w w) ->
  (forall a b c, R a b -> R b c -> R a c) ->
  (forall ev w, R w (print ev w)) ->
  (forall d total used free w,
      In d all -> disk_usage e (drive_path d) = Some (total, used, free) ->
      R w (_log_free_space e (drive_path d) free w)) ->
  (forall d total used free fp w,
      In d all -> disk_usage e (drive_path d) = Some (total, used, free) ->
      free < minimum_bytes d -> free_percent free total = Some fp ->
      R w (snd (send_pushover_notification e m (alert_title (drive_path d))
                  (alert_message (drive_path d) free used total fp
                     (minimum_bytes d)) 1 w))) ->
  forall ds, incl ds all ->
  forall w, R w (snd (check_and_notify_loop e m ds w)).
Proof.
  intros Hrefl Htrans Hprint Hlog Hsend.
  induction ds as [|d ds IH]; intros Hincl w; simpl; [apply Hrefl|].
  assert (Hd : In d all) by (apply Hincl; left; reflexivity).
  assert (Hds : incl ds all) by (intros x Hx; apply Hincl; right; exact Hx).
  destruct (disk_usage e (drive_path d)) as [[[total used] free]|] eqn:Hq.
  - destruct (free_percent free total) as [fp|] eqn:Hfp; [|apply Hrefl].
    set (w0 := print (StatusLine _) w).
    set (wl := _log_free_space e (drive_path d) free w0).
    assert (Hl : R w wl).
    { apply (Htrans _ w0); [apply Hprint | exact (Hlog d _ _ _ w0 Hd Hq)]. }
    assert (H1 : R w (snd (_generate_graph e (drive_path d) wl))).
    { apply (Htrans _ wl); [exact Hl|].
      destruct (generate_graph_cases e (drive_path d) wl)
        as [(ex & ->)|[->|[(ev & ->)|(ev1 & ev2 & ->)]]]; simpl;
        [apply Hrefl | apply Hrefl | apply Hprint|].
      apply (Htrans _ (print ev1 wl)); apply Hprint. }
    destruct (_generate_graph e (drive_path d) wl) as [[[]|ex] w1];
      simpl in H1 |- *; [|exact H1].
    destruct (Z.ltb_spec free (minimum_bytes d)) as [Hlow|_].
    + set (w2 := print (AlertLine _) w1).
      assert (H2 : R w w2) by (apply (Htrans _ w1); [exact H1 | apply Hprint]).
      pose proof (Hsend d total used free fp w2 Hd Hq Hlow Hfp) as H3.
      destruct (send_pushover_notification _ _ _ _ _ _) as [[b|ex] w3];
        simpl in H3 |- *.
      * apply (Htrans _ w3); [|apply IH; exact Hds].
        apply (Htrans _ w2); assumption.
      * apply (Htrans _ w2); assumption.
    + apply (Htrans _ w1); [exact H1 | apply IH; exact Hds].
  - apply (Htrans _ (print (DiskError (normalize_drive (os_name_nt e)
                                         (drive_path d))) w));
      [apply Hprint | apply IH; exact Hds].
Qed.

(** Every POST of a run is the alert, with priority 1 and the
    credentials of the monitor, of a configured drive whose query
    succeeded with less free space than its threshold.  In particular a
    run over drives that are all at or above their thresholds posts
    nothing. *)
Theorem posts_are_alerts_of_low_drives e m w :
  (exists new,
      http (snd (check_and_notify e m w)) = (http w ++ new)%list
      /\ Forall (fun r => exists d, In d (drives m) /\ below_threshold e d
                                    /\ is_alert_for m d r) new)
  /\ ((forall d, In d (drives m) -> ~ below_threshold e d) ->
      http (snd (check_and_notify e m w)) = http w).
Proof.
  assert (H : exists new,
             http (snd (check_and_notify e m w)) = (http w ++ new)%list
             /\ Forall (fun r => exists d, In d (drives m) /\ below_threshold e d
                                           /\ is_alert_for m d r) new).
  { unfold check_and_notify.
    apply (loop_relates e m
             (fun a b => exists new,
                  http b = (http a ++ new)%list
                  /\ Forall (fun r => exists d, In d (drives m)
                                                /\ below_threshold e d
                                                /\ is_alert_for m d r) new)
             (drives m)).
    - intros a. exists []. rewrite app_nil_r. split; [reflexivity | constructor].
    - intros a b c (n1 & H1 & F1) (n2 & H2 & F2). exists (n1 ++ n2)%list.
      rewrite H2, H1, <- app_assoc. split; [reflexivity|].
      apply Forall_app. split; assumption.
    - intros ev a. exists []. rewrite app_nil_r. split; [reflexivity | constructor].
    - intros d total used free a _ _. exists []. rewrite app_nil_r.
      split; [reflexivity | constructor].
    - intros d total used free fp a Hd Hq Hlow Hfp.
      destruct (send_cases e m (alert_title (drive_path d))
                  (alert_message (drive_path d) free used total fp
                     (minimum_bytes d)) 1 a)
        as [[Heq _]|(b & w' & Heq & _ & [(_ & Hh & _)|(_ & Hh & _)])];
        rewrite Heq; simpl.
      + exists []. rewrite app_nil_r. split; [reflexivity | constructor].
      + exists []. rewrite Hh, app_nil_r. split; [reflexivity | constructor].
      + eexists [_]. split; [exact Hh|]. constructor; [|constructor].
        exists d. split; [exact Hd|]. split.
        * exists total, used, free. split; assumption.
        * repeat split.
    - apply incl_refl. }
  split; [exact H|].
  intros Hnone. destruct H as (new & Hnew & Hall). rewrite Hnew.
  destruct new as [|r new]; [apply app_nil_r|].
  inversion Hall as [|? ? (d & Hd & Hlow & _) _]; subst.
  destruct (Hnone d Hd Hlow).
Qed.

Lemma posts_are_alerts_of_low_drives_witness :
  http (snd (check_and_notify sample_env (sample_monitor None [healthy_drive])
               clean_world)) = http clean_world.
Proof.
  destruct (posts_are_alerts_of_low_drives sample_env
              (sample_monitor None [healthy_drive]) clean_world) as [_ H].
  apply H. intros d [<-|[]] (total & used & free & Hq & Hlow).
  vm_compute in Hq. inversion Hq; subst. vm_compute in Hlow. discriminate Hlow.
Defined.

(** Under a cap [max], with a tracking file that is readable (or absent)
    and holds a numeric count [c0] for today, a run raises the count by
    exactly the number of POSTs that succeeded and never lifts it above
    the cap: if [c0 <= max], at most [max - c0] alerts get through. *)
Theorem cap_is_enforced_over_a_run e m w max c0
    (Hcap : max_push_notifications_per_day m = Some max)
    (Hfile : tracking w <> NotJson)
    (Hcount : _get_notification_count_today (today e) (tracking w) = JInt c0) :
  exists new c1,
    http (snd (check_and_notify e m w)) = (http w ++ new)%list
    /\ _get_notification_count_today (today e)
         (tracking (snd (check_and_notify e m w))) = JInt c1
    /\ c1 = c0 + Z.of_nat (length (successful e new))
    /\ c1 <= Z.max c0 max.
Proof.
  unfold check_and_notify.
  pose (R := fun a b : world =>
          forall c, tracking a <> NotJson ->
            _get_notification_count_today (today e) (tracking a) = JInt c ->
            exists new c',
              http b = (http a ++ new)%list
              /\ _get_notification_count_today (today e) (tracking b) = JInt c'
              /\ c' = c + Z.of_nat (length (successful e new))
              /\ c' <= Z.max c max
              /\ tracking b <> NotJson).
  assert (Hsilent : forall a b, http b = http a -> tracking b = tracking a -> R a b).
  { intros a b Hh Ht c Hn Hc. exists [], c. rewrite Hh, Ht, app_nil_r.
    repeat split; [exact Hc | simpl; lia | lia | exact Hn]. }
  assert (HR : R w (snd (check_and_notify_loop e m (drives m) w))).
  { apply (loop_relates e m R (drives m)).
    - intros a. apply Hsilent; reflexivity.
    - intros a b c Hab Hbc c' Hn Hc.
      destruct (Hab c' Hn Hc) as (n1 & c1 & Hh1 & Hc1 & He1 & Hm1 & Hn1).
      destruct (Hbc c1 Hn1 Hc1) as (n2 & c2 & Hh2 & Hc2 & He2 & Hm2 & Hn2).
      exists (n1 ++ n2)%list, c2. rewrite Hh2, Hh1, <- app_assoc.
      unfold successful in *. rewrite List.filter_app, length_app.
      repeat split; [exact Hc2 | lia | lia | exact Hn2].
    - intros ev a. apply Hsilent; reflexivity.
    - intros d total used free a _ _. apply Hsilent; reflexivity.
    - intros d total used free fp a _ _ _ _ c Hn Hc.
      destruct (send_cases e m (alert_title (drive_path d))
                  (alert_message (drive_path d) free used total fp
                     (minimum_bytes d)) 1 a)
        as [[_ (mx & s & _ & Hs)]
           |(b & w' & Heq & _ & [(_ & Hh & Ht & _)|(Hb & Hh & Ht & Hok)])].
      + rewrite Hc in Hs. discriminate Hs.
      + rewrite Heq. simpl. apply Hsilent; assumption.
      + rewrite Heq. simpl. rewrite Hcap in Ht.
        destruct Hok as [Hnone|(mx & c' & Hmx & Hc' & Hlt)];
          [rewrite Hcap in Hnone; discriminate|].
        rewrite Hcap in Hmx. inversion Hmx; subst mx.
        rewrite Hc in Hc'. inversion Hc'; subst c'.
        eexists [_]. unfold successful. simpl. rewrite <- Hb.
        destruct b.
        * destruct (increment_count _ _ _ Hc)
            as [(_ & Hn' & Hc1)|(Habs & _)]; [|contradiction].
          exists (c + 1). rewrite Ht.
          repeat split; first [assumption | simpl; lia].
        * exists c. rewrite Ht.
          repeat split; first [assumption | simpl; lia].
    - apply incl_refl. }
  destruct (HR c0 Hfile Hcount) as (new & c1 & Hh & Hc1 & He & Hm & _).
  exists new, c1. repeat split; assumption.
Qed.

Lemma cap_is_enforced_over_a_run_witness :
  exists new c1,
    http (snd (check_and_notify sample_env
                 (sample_monitor (Some 1) [root_drive; root_drive])
                 clean_world)) = (http clean_world ++ new)%list
    /\ _get_notification_count_today (today sample_env)
         (tracking (snd (check_and_notify sample_env
                           (sample_monitor (Some 1) [root_drive; root_drive])
                           clean_world))) = JInt c1
    /\ c1 = 0 + Z.of_nat (length (successful sample_env new))
    /\ c1 <= Z.max 0 1.
Proof.
  apply (cap_is_enforced_over_a_run sample_env
           (sample_monitor (Some 1) [root_drive; root_drive]) clean_world 1 0);
    [reflexivity | discriminate | reflexivity].
Defined.



(** ** How a run ends *)

Lemma count_comparable_after_send e m title message priority w :
  count_comparable e m w ->
  exists b w',
    send_pushover_notification e m title message priority w = (Ok b, w')
    /\ count_comparable e m w'.
Proof.
  intros Hcmp.
  destruct (send_cases e m title message priority w)
    as [[_ (mx & s & Hmx & Hs)]
       |(b & w' & Heq & _ & [(_ & _ & Ht & _)|(_ & _ & Ht & _)])].
  - destruct Hcmp as [Hnone|(c & Hc)]; [congruence|].
    rewrite Hc in Hs. discriminate Hs.
  - exists b, w'. split; [exact Heq|]. unfold count_comparable. rewrite Ht.
    exact Hcmp.
  - exists b, w'. split; [exact Heq|].
    destruct Hcmp as [Hnone|(c & Hc)]; [left; exact Hnone|].
    right. rewrite Ht. destruct b; [|exists c; exact Hc].
    destruct (max_push_notifications_per_day m); [|exists c; exact Hc].
    destruct (increment_count _ _ _ Hc) as [(_ & _ & H1)|(_ & H1 & _)].
    + exists (c + 1). exact H1.
    + rewrite H1. exists 0. reflexivity.
Qed.

(** [_generate_graph] leaves the tracking file, the requests and the
    logs as they are. *)
Lemma generate_graph_world e drive_path w :
  tracking (snd (_generate_graph e drive_path w)) = tracking w
  /\ http (snd (_generate_graph e drive_path w)) = http w
  /\ logs (snd (_generate_graph e drive_path w)) = logs w.
Proof.
  destruct (generate_graph_cases e drive_path w)
    as [(ex & ->)|[->|[(ev & ->)|(ev1 & ev2 & ->)]]];
    repeat split; reflexivity.
Qed.

Lemma generate_graph_returns e drive_path w :
  charts_return e -> exists w', _generate_graph e drive_path w = (Ok tt, w').
Proof.
  intros [Hno|Hplots]; unfold _generate_graph.
  - rewrite Hno. simpl. eexists. reflexivity.
  - destruct (has_matplotlib e); simpl; [|eexists; reflexivity].
    destruct (length _ <? 2)%nat; [eexists; reflexivity|].
    destruct (plot e drive_path _) as [| |ex] eqn:E;
      [eexists; reflexivity | eexists; reflexivity|].
    destruct (Hplots _ _ _ E).
Qed.

(** When no chart raises, the loop either gets through all the drives,
    and then none of them reported a total of 0, or it stops with
    [ZeroDivisionError] at a drive that did. *)
Lemma loop_result e m ds :
  charts_return e ->
  forall w, count_comparable e m w ->
    (fst (check_and_notify_loop e m ds w) = Ok tt /\ no_zero_total e ds)
    \/ (fst (check_and_notify_loop e m ds w) = Raise ZeroDivisionError
        /\ ~ no_zero_total e ds).
Proof.
  intros Hcharts.
  induction ds as [|d ds IH]; intros w Hcmp; simpl.
  - left. split; [reflexivity|]. intros d total used free [].
  - assert (Hcons : forall total used free,
               disk_usage e (drive_path d) = Some (total, used, free) ->
               total <> 0 -> no_zero_total e ds -> no_zero_total e (d :: ds)).
    { intros total used free Hq Ht Hrest d' t' u' f' [<-|Hin] Hq'.
      - rewrite Hq in Hq'. inversion Hq'; subst. exact Ht.
      - exact (Hrest d' t' u' f' Hin Hq'). }
    assert (Htail : ~ no_zero_total e ds -> ~ no_zero_total e (d :: ds)).
    { intros Hn Hall. apply Hn. intros d' t' u' f' Hin.
      apply (Hall d' t' u' f'). right. exact Hin. }
    destruct (disk_usage e (drive_path d)) as [[[total used] free]|] eqn:Hq.
    + destruct (free_percent free total) as [fp|] eqn:Hfp.
      * assert (Ht : total <> 0).
        { intros ->. assert (free_percent free 0 = None)
            by (apply free_percent_None; reflexivity). congruence. }
        set (wl := _log_free_space e (drive_path d) free _).
        destruct (generate_graph_returns e (drive_path d) wl Hcharts)
          as (w1 & Hgraph).
        pose proof (generate_graph_world e (drive_path d) wl) as (Htr & _ & _).
        rewrite Hgraph in Htr |- *. simpl in Htr.
        assert (H1 : count_comparable e m w1)
          by (unfold count_comparable; rewrite Htr; exact Hcmp).
        destruct (free <? minimum_bytes d).
        -- set (w2 := print (AlertLine _) w1).
           destruct (count_comparable_after_send e m
                       (alert_title (drive_path d))
                       (alert_message (drive_path d) free used total fp
                          (minimum_bytes d)) 1 w2 H1)
             as (b & w3 & Heq & H3).
           rewrite Heq.
           destruct (IH w3 H3) as [[Hok Hall]|[Herr Hnot]].
           ++ left. split; [exact Hok | exact (Hcons _ _ _ eq_refl Ht Hall)].
           ++ right. split; [exact Herr | exact (Htail Hnot)].
        -- destruct (IH w1 H1) as [[Hok Hall]|[Herr Hnot]].
           ++ left. split; [exact Hok | exact (Hcons _ _ _ eq_refl Ht Hall)].
           ++ right. split; [exact Herr | exact (Htail Hnot)].
      * right. split; [reflexivity|]. intros Hall.
        apply free_percent_None in Hfp. subst total.
        apply (Hall d 0 used free); [left; reflexivity | exact Hq | reflexivity].
    + destruct (IH (print (DiskError (normalize_drive (os_name_nt e)
                                          (drive_path d))) w) Hcmp)
        as [[Hok Hall]|[Herr Hnot]].
      * left. split; [exact Hok|].
        intros d' t' u' f' [<-|Hin] Hq'; [congruence|].
        exact (Hall d' t' u' f' Hin Hq').
      * right. split; [exact Herr | exact (Htail Hnot)].
Qed.

(** What [main()] returns.  Without loadable settings, or with settings
    that [__init__] rejects, it returns 1 and no request has been posted,
    no log line written and the tracking file not touched.  With accepted
    settings, a count that can be compared with the cap and no chart that
    ends in an exception, it returns 0 exactly when no drive reports a
    total size of 0, and 1 otherwise. *)
Theorem main_return_value e f w :
  match f with
  | Settings c =>
      match __init__ (mkdir_error e) c with
      | Ok m =>
          count_comparable e m w ->
          charts_return e ->
          (fst (main e f w) = 0 <-> no_zero_total e (drives m))
          /\ (fst (main e f w) = 0 \/ fst (main e f w) = 1)
      | Raise _ =>
          fst (main e f w) = 1
          /\ http (snd (main e f w)) = http w
          /\ logs (snd (main e f w)) = logs w
          /\ tracking (snd (main e f w)) = tracking w
      end
  | _ =>
      fst (main e f w) = 1
      /\ http (snd (main e f w)) = http w
      /\ logs (snd (main e f w)) = logs w
      /\ tracking (snd (main e f w)) = tracking w
  end.
Proof.
  destruct f as [| |c]; try (repeat split; reflexivity).
  destruct (__init__ (mkdir_error e) c) as [m|ex] eqn:Hinit.
  - intros Hcmp Hcharts. unfold main. simpl. rewrite Hinit.
    unfold run, check_and_notify.
    set (w0 := print _ (print _ w)).
    destruct (loop_result e m (drives m) Hcharts w0 Hcmp)
      as [[Hok Hall]|[Herr Hnot]];
      destruct (check_and_notify_loop e m (drives m) w0) as [[[]|ex] w1];
      simpl in *; try discriminate.
    + split; [|left; reflexivity]. split; [intros _; exact Hall | reflexivity].
    + inversion Herr; subst ex. simpl.
      split; [|right; reflexivity]. split; [discriminate | contradiction].
  - rewrite (main_returns_1_on_bad_config e c w ex Hinit).
    repeat split; reflexivity.
Qed.

Lemma main_return_value_witness :
  fst (main sample_env
         (Settings (sample_config (Some "token")
                      [DriveObject (Some "/") (Some "10GB");
                       DriveObject (Some "/empty") (Some "1GB")]))
         clean_world) = 1.
Proof.
  pose proof (main_return_value sample_env
                (Settings (sample_config (Some "token")
                             [DriveObject (Some "/") (Some "10GB");
                              DriveObject (Some "/empty") (Some "1GB")]))
                clean_world) as H.
  assert (Hinit : __init__ (mkdir_error sample_env)
                    (sample_config (Some "token")
                       [DriveObject (Some "/") (Some "10GB");
                        DriveObject (Some "/empty") (Some "1GB")])
                  = Ok (sample_monitor None [root_drive; empty_drive]))
    by (vm_compute; reflexivity).
  cbv iota beta in H. rewrite Hinit in H.
  assert (Hcharts : charts_return sample_env)
    by (right; intros p pts ex Hp; discriminate Hp).
  destruct (H (or_introl eq_refl) Hcharts) as [Hiff [H0|H1]]; [|exact H1].
  exfalso. apply Hiff in H0.
  apply (H0 empty_drive 0 0 0); [right; left; reflexivity | reflexivity | reflexivity].
Defined.

(** ** The configuration *)

Lemma falsy_Some s : falsy (Some s) = false <-> s <> "".
Proof. destruct s; simpl; split; congruence. Qed.

Lemma parse_size_raises s ex :
  _parse_size s = Raise ex -> ex = ValueError \/ ex = OverflowError.
Proof.
  unfold _parse_size.
  destruct (match_size _) as [[[i f] u]|]; [|intros H; inversion H; tauto].
  destruct (unit_multiplier u); [|intros H; inversion H; tauto].
  unfold PyFloat.to_int. destruct (PyFloat.mul _ _); intros H; inversion H; tauto.
Qed.

Lemma parse_drives_config_app good ds rest :
  Forall2 valid_drive good ds ->
  _parse_drives_config (good ++ rest)
  = match _parse_drives_config rest with
    | Ok ds' => Ok (ds ++ ds')%list
    | Raise ex => Raise ex
    end.
Proof.
  induction 1 as [|dc d good ds (threshold & -> & Hp & Ht & Hs) _ IH].
  - simpl. destruct (_parse_drives_config rest); reflexivity.
  - destruct d as [path bytes]. simpl in Hp, Hs.
    destruct path as [|c path]; [contradiction|].
    destruct threshold as [|c' threshold]; [contradiction|].
    simpl. simpl in Hs. rewrite Hs, IH.
    destruct (_parse_drives_config rest); reflexivity.
Qed.

(** A drives list whose entries are all objects with a non-empty path and
    a threshold string that [_parse_size] accepts is parsed to one drive
    per entry, in the order of the settings, with that path and the parsed
    threshold.  After such entries, the first entry that is not an object,
    or whose path or threshold is missing or empty, makes the call raise
    [ValueError]; the first entry whose threshold string [_parse_size]
    rejects makes it raise the exception of [_parse_size]; and the first
    entry with a path whose threshold is a value that is no string makes it
    raise [AttributeError].  The entries after that one are not looked
    at. *)
Theorem parse_drives_config_accepts (good : list drive_config)
    (ds : list drive) (Hgood : Forall2 valid_drive good ds) :
  _parse_drives_config good = Ok ds
  /\ (forall bad rest,
        incomplete_drive bad ->
        _parse_drives_config (good ++ bad :: rest) = Raise ValueError)
  /\ (forall path threshold ex rest,
        path <> "" -> threshold <> "" ->
        _parse_size threshold = Raise ex ->
        _parse_drives_config
          (good ++ DriveObject (Some path) (Some threshold) :: rest)
        = Raise ex)
  /\ (forall path rest,
        path <> "" ->
        _parse_drives_config (good ++ ThresholdNotAString (Some path) :: rest)
        = Raise AttributeError).
Proof.
  split; [|split; [|split]].
  - pose proof (parse_drives_config_app good ds [] Hgood) as H.
    simpl in H. rewrite !app_nil_r in H. exact H.
  - intros bad rest Hbad. rewrite (parse_drives_config_app good ds _ Hgood).
    destruct bad as [path minimum_str| |path]; simpl; [|reflexivity|].
    + destruct (falsy path) eqn:E; [reflexivity|].
      destruct Hbad as [Hp|Hm]; [congruence|]. rewrite Hm. reflexivity.
    + simpl in Hbad. destruct (falsy path); [reflexivity | discriminate Hbad].
  - intros path threshold ex rest Hp Ht Hs.
    rewrite (parse_drives_config_app good ds _ Hgood).
    destruct path as [|c path]; [contradiction|].
    destruct threshold as [|c' threshold]; [contradiction|].
    simpl. simpl in Hs. rewrite Hs. reflexivity.
  - intros path rest Hp.
    rewrite (parse_drives_config_app good ds _ Hgood).
    destruct path as [|c path]; [contradiction | reflexivity].
Qed.

Lemma parse_drives_config_accepts_witness :
  _parse_drives_config
    [DriveObject (Some "/") (Some "10GB"); DriveObject (Some "C:") (Some "1.5 tb")]
  = Ok [{| drive_path := "/"; minimum_bytes := 10 * 1024 ^ 3 |};
        {| drive_path := "C:"; minimum_bytes := 3 * 2 ^ 39 |}]
  /\ _parse_drives_config
       ([DriveObject (Some "/") (Some "10GB");
         DriveObject (Some "C:") (Some "1.5 tb")]
        ++ DriveObject (Some "D:") None :: [NotAnObject])
     = Raise ValueError
  /\ _parse_drives_config
       ([DriveObject (Some "/") (Some "10GB");
         DriveObject (Some "C:") (Some "1.5 tb")]
        ++ ThresholdNotAString (Some "D:") :: [NotAnObject])
     = Raise AttributeError.
Proof.
  assert (Hgood : Forall2 valid_drive
                    [DriveObject (Some "/") (Some "10GB");
                     DriveObject (Some "C:") (Some "1.5 tb")]
                    [{| drive_path := "/"; minimum_bytes := 10 * 1024 ^ 3 |};
                     {| drive_path := "C:"; minimum_bytes := 3 * 2 ^ 39 |}]).
  { repeat constructor; eexists; simpl;
      (split; [reflexivity|]); (split; [discriminate|]);
      (split; [discriminate | vm_compute; reflexivity]). }
  split; [|split].
  - exact (proj1 (parse_drives_config_accepts _ _ Hgood)).
  - apply (proj1 (proj2 (parse_drives_config_accepts _ _ Hgood))).
    right. reflexivity.
  - apply (proj2 (proj2 (proj2 (parse_drives_config_accepts _ _ Hgood)))).
    discriminate.
Defined.

(** [DiskSpaceMonitor.__init__] looks at the drives first: an exception
    of [_parse_drives_config] is the exception of [__init__], whether or
    not the data directory can be created.  With a drives list of valid
    entries, an exception of [mkdir] comes next, before the credentials
    are looked at; then a token or user key that is missing or empty, or
    an empty drives list, gives [ValueError]; and with a token and a user
    key that are not empty and at least one drive, the monitor is made
    with these credentials, the cap as configured and the parsed drives. *)
Theorem init_accepts (mkdir_error : option exn) (c : config) :
  (forall ex,
      _parse_drives_config (cfg_drives c) = Raise ex ->
      __init__ mkdir_error c = Raise ex)
  /\ (forall ds,
        Forall2 valid_drive (cfg_drives c) ds ->
        (forall ex, mkdir_error = Some ex -> __init__ mkdir_error c = Raise ex)
        /\ (mkdir_error = None ->
            falsy (cfg_pushover_token c) = true
            \/ falsy (cfg_pushover_user c) = true \/ ds = [] ->
            __init__ mkdir_error c = Raise ValueError)
        /\ (forall token user,
              mkdir_error = None ->
              cfg_pushover_token c = Some token -> token <> "" ->
              cfg_pushover_user c = Some user -> user <> "" ->
              ds <> [] ->
              __init__ mkdir_error c
              = Ok {| pushover_token := token;
                      pushover_user := user;
                      max_push_notifications_per_day :=
                        cfg_max_push_notifications_per_day c;
                      drives := ds |})).
Proof.
  split.
  - intros ex H. unfold __init__. rewrite H. reflexivity.
  - intros ds Hall.
    pose proof (parse_drives_config_app (cfg_drives c) ds [] Hall) as Hds.
    simpl in Hds. rewrite !app_nil_r in Hds.
    unfold __init__. rewrite Hds. split; [|split].
    + intros ex ->. reflexivity.
    + intros -> [Ht|[Hu| ->]].
      * rewrite Ht. reflexivity.
      * rewrite Hu, orb_true_r. reflexivity.
      * destruct (falsy _ || falsy _); reflexivity.
    + intros token user -> Ht Htne Hu Hune Hne.
      rewrite Ht, Hu. apply falsy_Some in Htne. apply falsy_Some in Hune.
      rewrite Htne, Hune. simpl.
      destruct ds; [contradiction | reflexivity].
Qed.

Lemma init_accepts_witness :
  __init__ None
    (sample_config (Some "token") [DriveObject (Some "/") (Some "10GB")])
  = Ok (sample_monitor None [root_drive])
  /\ __init__ (Some OSError)
       (sample_config None [DriveObject (Some "/") (Some "10GB")])
     = Raise OSError.
Proof.
  assert (Hall : Forall2 valid_drive [DriveObject (Some "/") (Some "10GB")]
                   [root_drive]).
  { repeat constructor. exists "10GB". simpl.
    split; [reflexivity|]. split; [discriminate|]. split; [discriminate|].
    vm_compute. reflexivity. }
  split.
  - apply (proj2 (proj2 (proj2 (init_accepts None
             (sample_config (Some "token")
                [DriveObject (Some "/") (Some "10GB")])) [root_drive] Hall))
             "token" "user");
      first [reflexivity | discriminate].
  - exact (proj1 (proj2 (init_accepts (Some OSError)
             (sample_config None [DriveObject (Some "/") (Some "10GB")]))
             [root_drive] Hall) OSError eq_refl).
Defined.

(** ** The log: what is written is read back *)










Lemma backfill_app now k cs1 :
  forall i cs2,
    backfill now k i (cs1 ++ cs2)
    = (backfill now k i cs1
       ++ backfill now k (i + legacy_count cs1) cs2)%list.
Proof.
  unfold legacy_count.
  induction cs1 as [|[t v|v|] cs1 IH]; intros i cs2; simpl.
  - rewrite Nat.add_0_r. reflexivity.
  - rewrite IH. reflexivity.
  - rewrite IH. simpl. do 3 f_equal. lia.
  - apply IH.
Qed.

Lemma legacy_count_app cs1 cs2 :
  legacy_count (cs1 ++ cs2) = (legacy_count cs1 + legacy_count cs2)%nat.
Proof. unfold legacy_count. rewrite List.filter_app, length_app. reflexivity. Qed.



(** ** The log: lines that are not entries *)

Lemma strip_all_space s :
  all_chars PyStr.is_space s = true -> PyStr.strip s = "".
Proof.
  intros H. unfold PyStr.strip, PyStr.strip_with.
  apply rstrip_with_all.
  destruct (lstrip_with_spec PyStr.is_space s) as (l & Heq & _).
  rewrite Heq, all_chars_app in H. apply andb_true_iff in H. apply H.
Qed.

Lemma backfill_length now k cs :
  forall i, (length (backfill now k i cs) <= length cs)%nat.
Proof.
  induction cs as [|c cs IH]; intros i; [simpl; lia|].
  destruct c; simpl;
    [specialize (IH i) | specialize (IH (S i)) | specialize (IH i)]; lia.
Qed.

(** Lines that are not entries do not disturb the others: a blank line,
    or a line whose first field is neither timestamp-shaped nor an
    integer, can be taken out of the file without changing what is parsed
    (the synthetic times of the legacy lines included).  The parser never
    returns more entries than the file has lines. *)
Theorem malformed_lines_are_skipped
    (fromisoformat : string -> option Z) (now : nat -> Z)
    (before after : list string) (junk : string)
    (Hjunk : all_chars PyStr.is_space junk = true
             \/ (looks_like_timestamp (first_field junk) = false
                 /\ PyStr.int (first_field junk) = None)) :
  _parse_log_file fromisoformat now (Some (before ++ junk :: after)%list)
  = _parse_log_file fromisoformat now (Some (before ++ after)%list)
  /\ (length (_parse_log_file fromisoformat now (Some (before ++ junk :: after)%list))
      <= length before + length after)%nat.
Proof.
  assert (Hclass : classify fromisoformat junk = Dropped).
  { assert (H : looks_like_timestamp (first_field junk) = false
                /\ PyStr.int (first_field junk) = None).
    { destruct Hjunk as [Hblank|H]; [|exact H].
      unfold first_field. rewrite (strip_all_space junk Hblank).
      split; reflexivity. }
    destruct H as [Hts Hint]. unfold classify. rewrite Hts, Hint. reflexivity. }
  assert (Heq : _parse_log_file fromisoformat now (Some (before ++ junk :: after)%list)
                = _parse_log_file fromisoformat now (Some (before ++ after)%list)).
  { rewrite !parse_log_file_backfill, !map_app. simpl map. rewrite Hclass.
    rewrite !legacy_count_app, !backfill_app.
    change (legacy_count (Dropped :: map (classify fromisoformat) after))
      with (legacy_count (map (classify fromisoformat) after)).
    reflexivity. }
  split; [exact Heq|]. rewrite Heq, parse_log_file_backfill, length_map.
  etransitivity; [apply backfill_length|].
  rewrite length_map, length_app. lia.
Qed.

Lemma malformed_lines_are_skipped_witness :
  _parse_log_file IsoFormat.fromisoformat still_clock
    (Some ([NL] ++ "not a sample" :: sample_log)%list)
  = _parse_log_file IsoFormat.fromisoformat still_clock
      (Some ([NL] ++ sample_log)%list).
Proof.
  apply (malformed_lines_are_skipped IsoFormat.fromisoformat still_clock
           [NL] sample_log "not a sample").
  right. split; reflexivity.
Defined.

(** ** [format_bytes] *)

Lemma prints_whole_units_checked :
  forallb (fun k => forallb (fun n => prints_whole_units (S n) k) (seq 0 1023))
    (seq 0 5) = true.
Proof. vm_compute. reflexivity. Qed.

(** [format_bytes] picks the unit by powers of 1024: a whole number [n]
    of a unit, from 1 to 1023, is printed as [n.00] with that unit, for
    every unit from B to TB; so 1023 bytes are [1023.00 B] and 1024 bytes
    are [1.00 KB]. *)
Theorem format_bytes_whole_units (n k : Z)
    (Hn : 1 <= n < 1024) (Hk : 0 <= k < 5) :
  format_bytes (n * 1024 ^ k)
  = pretty n ++ ".00 " ++ nth (Z.to_nat k) unit_names "".
Proof.
  pose proof prints_whole_units_checked as H.
  rewrite forallb_forall in H.
  specialize (H (Z.to_nat k)). rewrite forallb_forall in H.
  specialize (H ltac:(apply in_seq; lia) (Z.to_nat (n - 1))
                ltac:(apply in_seq; lia)).
  unfold prints_whole_units in H. apply String.eqb_eq in H.
  replace (Z.of_nat (S (Z.to_nat (n - 1)))) with n in H by lia.
  rewrite Z2Nat.id in H by lia. exact H.
Qed.

Lemma format_bytes_whole_units_witness :
  format_bytes (1 * 1024 ^ 1) = pretty 1 ++ ".00 " ++ nth (Z.to_nat 1) unit_names "".
Proof. apply (format_bytes_whole_units 1 1); lia. Defined.

(** ** [_parse_size] never gives a negative threshold *)

Lemma Qred_nonneg q : 0 <= Qnum q -> 0 <= Qnum (Qred q).
Proof.
  intros H. pose proof (Qred_correct q) as Heq. unfold Qeq in Heq.
  destruct (Qred q) as [n d]. simpl in *. nia.
Qed.

Lemma round_parts_nonneg n d :
  0 <= n -> 0 < d -> 0 <= fst (PyFloat.round_parts n d).
Proof.
  intros Hn Hd. unfold PyFloat.round_parts. cbv zeta.
  match goal with
  | |- context [Z.max ?a ?b] => generalize (Z.max a b)
  end.
  intros e.
  assert (Hscaled :
            0 <= fst (if e <? 0 then (n * 2 ^ (- e), d) else (n, d * 2 ^ e))
            /\ 0 < snd (if e <? 0 then (n * 2 ^ (- e), d) else (n, d * 2 ^ e))).
  { destruct (Z.ltb_spec e 0); simpl.
    - split; [|exact Hd]. apply Z.mul_nonneg_nonneg; [lia|].
      apply Z.pow_nonneg. lia.
    - split; [lia|]. apply Z.mul_pos_pos; [exact Hd|].
      apply Z.pow_pos_nonneg; lia. }
  destruct (if e <? 0 then (n * 2 ^ (- e), d) else (n, d * 2 ^ e))
    as [n' d']. simpl in Hscaled. destruct Hscaled as [Hn' Hd'].
  assert (Hm : 0 <= n' / d') by (apply Z.div_pos; lia).
  simpl. destruct (_ || _); lia.
Qed.

Lemma round_nonneg q : 0 <= Qnum q -> float_nonneg (PyFloat.round q).
Proof.
  intros Hq. unfold PyFloat.round.
  destruct (Z.eqb_spec (Qnum q) 0) as [_|Hne]; [simpl; lia|].
  pose proof (round_parts_nonneg (Qnum q) (Z.pos (Qden q)) Hq ltac:(lia)) as Hm.
  destruct (PyFloat.round_parts (Qnum q) (Z.pos (Qden q))) as [m e].
  simpl in Hm. unfold PyFloat.of_parts.
  destruct (Z.ltb_spec e 0).
  - simpl. apply Qred_nonneg. simpl. exact Hm.
  - destruct (2 ^ 1024 <=? m * 2 ^ e); simpl; [exact I|].
    apply Z.mul_nonneg_nonneg; [exact Hm | apply Z.pow_nonneg; lia].
Qed.

(** Whatever [_parse_size] returns is a number of bytes that is not
    negative, and the only exceptions it raises are [ValueError] and
    [OverflowError]. *)
Theorem parse_size_is_not_negative (size_str : string) :
  match _parse_size size_str with
  | Ok bytes => 0 <= bytes
  | Raise ex => ex = ValueError \/ ex = OverflowError
  end.
Proof.
  destruct (_parse_size size_str) as [bytes|ex] eqn:E;
    [|exact (parse_size_raises _ _ E)].
  unfold _parse_size in E.
  destruct (match_size _) as [[[int_part frac_part] unit]|]; [|discriminate].
  destruct (unit_multiplier unit) as [multiplier|] eqn:Hu; [|discriminate].
  assert (Hmul : 0 <= multiplier).
  { destruct (unit_multiplier_cases _ _ Hu)
      as [[_ ->]|[[_ ->]|[[_ ->]|[[_ ->]|[[_ ->]|[_ ->]]]]]];
      apply Z.pow_nonneg; lia. }
  assert (Hdv : forall s, 0 <= PyFloat.digits_value s).
  { intros s. unfold PyFloat.digits_value.
    destruct (PyStr.int_digits 0 false s) as [v|] eqn:Hv; simpl; [|lia].
    apply (int_digits_nonneg s 0 false v); [lia | exact Hv]. }
  assert (Hvalue : float_nonneg (PyFloat.of_decimal int_part frac_part)).
  { unfold PyFloat.of_decimal. destruct frac_part as [f|]; apply round_nonneg.
    - simpl. pose proof (Hdv int_part). pose proof (Hdv f).
      assert (0 <= 10 ^ Z.of_nat (String.length f)) by (apply Z.pow_nonneg; lia).
      nia.
    - simpl. apply Hdv. }
  assert (Hof : float_nonneg (PyFloat.of_int multiplier))
    by (apply round_nonneg; exact Hmul).
  assert (Hprod : float_nonneg
                    (PyFloat.mul (PyFloat.of_decimal int_part frac_part)
                       (PyFloat.of_int multiplier))).
  { destruct (PyFloat.of_decimal int_part frac_part) as [x|];
      destruct (PyFloat.of_int multiplier) as [y|]; simpl; try exact I.
    apply round_nonneg. simpl in *. nia. }
  destruct (PyFloat.mul _ _) as [q|]; [|discriminate].
  simpl in E, Hprod. inversion E; subst. apply Z.div_pos; lia.
Qed.

(** ** A run reaches every drive *)

Lemma no_zero_total_cons e d ds :
  no_zero_total e (d :: ds) ->
  no_zero_total e ds
  /\ forall total used free,
       disk_usage e (drive_path d) = Some (total, used, free) -> total <> 0.
Proof.
  intros H. split.
  - intros d' t u f Hin. apply (H d' t u f). right. exact Hin.
  - intros t u f Hq. apply (H d t u f); [left; reflexivity | exact Hq].
Qed.

Lemma room_for_less e m w n : room_for e m w (S n) -> room_for e m w n.
Proof.
  unfold room_for. destruct (max_push_notifications_per_day m); [|trivial].
  intros (c & Hc & Hle). exists c. split; [exact Hc | lia].
Qed.

(** With room for one more notification the send is posted, and what
    room there was for the ones after it is still there. *)
Lemma send_with_room e m title message priority w n :
  room_for e m w (S n) ->
  exists b w',
    send_pushover_notification e m title message priority w = (Ok b, w')
    /\ http w' = (http w ++ [post_data m title message priority])%list
    /\ logs w' = logs w
    /\ room_for e m w' n.
Proof.
  intros Hroom.
  destruct (send_cases e m title message priority w)
    as [[_ (mx & s & Hmx & Hs)]
       |(b & w' & Heq & Hlogs
         & [(_ & _ & _ & mx & c & Hmx & Hc & Hle)|(_ & Hh & Ht & _)])].
  - unfold room_for in Hroom. rewrite Hmx in Hroom.
    destruct Hroom as (c & Hc & _). rewrite Hc in Hs. discriminate Hs.
  - unfold room_for in Hroom. rewrite Hmx in Hroom.
    destruct Hroom as (c' & Hc' & Hle'). rewrite Hc' in Hc.
    inversion Hc; subst. lia.
  - exists b, w'. split; [exact Heq|]. split; [exact Hh|].
    split; [exact Hlogs|].
    unfold room_for in *.
    destruct (max_push_notifications_per_day m) as [mx|]; [|trivial].
    destruct Hroom as (c & Hc & Hle). rewrite Ht.
    destruct b; [|exists c; split; [exact Hc | lia]].
    destruct (increment_count _ _ _ Hc) as [(_ & _ & H1)|(_ & H1 & ->)].
    + exists (c + 1). split; [exact H1 | lia].
    + rewrite H1. exists 0. split; [reflexivity | lia].
Qed.

Lemma loop_alerts_low_drives e m ds :
  charts_return e ->
  forall w,
    room_for e m w (length (low_drives e ds)) ->
    no_zero_total e ds ->
    fst (check_and_notify_loop e m ds w) = Ok tt
    /\ exists new,
         http (snd (check_and_notify_loop e m ds w)) = (http w ++ new)%list
         /\ map req_title new
            = map (fun d => alert_title (drive_path d)) (low_drives e ds).
Proof.
  intros Hcharts.
  induction ds as [|d ds IH]; intros w Hroom Htotals.
  - split; [reflexivity|]. exists []. simpl. rewrite app_nil_r.
    split; reflexivity.
  - destruct (no_zero_total_cons e d ds Htotals) as [Hrest Hd].
    unfold low_drives in *. simpl in Hroom |- *. unfold is_low in Hroom |- *.
    destruct (disk_usage e (drive_path d)) as [[[total used] free]|] eqn:Hq.
    + destruct (free_percent free total) as [fp|] eqn:Hfp;
        [|apply free_percent_None in Hfp; destruct (Hd _ _ _ eq_refl Hfp)].
      set (wl := _log_free_space e (drive_path d) free _).
      destruct (generate_graph_returns e (drive_path d) wl Hcharts)
        as (w1 & Hgraph).
      pose proof (generate_graph_world e (drive_path d) wl) as (Htr & Hht & _).
      rewrite Hgraph in Htr, Hht |- *. simpl in Htr, Hht.
      assert (Hroom1 : forall n, room_for e m w n -> room_for e m w1 n)
        by (intros n Hn; unfold room_for; rewrite Htr; exact Hn).
      change (http wl) with (http w) in Hht.
      destruct (free <? minimum_bytes d).
      * set (w2 := print (AlertLine _) w1). simpl in Hroom.
        destruct (send_with_room e m (alert_title (drive_path d))
                    (alert_message (drive_path d) free used total fp
                       (minimum_bytes d)) 1 w2 _ (Hroom1 _ Hroom))
          as (b & w3 & Heq & Hh & _ & Hroom3).
        rewrite Heq.
        destruct (IH w3 Hroom3 Hrest) as (Hok & new & Hnew & Htitles).
        split; [exact Hok|].
        eexists (_ :: new). rewrite Hnew, Hh. simpl. rewrite Hht.
        rewrite <- app_assoc. split; [reflexivity|].
        rewrite Htitles. reflexivity.
      * destruct (IH w1 (Hroom1 _ Hroom) Hrest) as (Hok & new & Hnew & Htitles).
        split; [exact Hok|]. exists new. rewrite Hnew, Hht.
        split; [reflexivity | exact Htitles].
    + exact (IH (print (DiskError (normalize_drive (os_name_nt e)
                                     (drive_path d))) w) Hroom Hrest).
Qed.

(** When the cap leaves room for as many notifications as there are
    drives below their thresholds (or there is no cap), no drive reports a
    total size of 0 and no chart ends in an exception, the run gets through
    all the drives and posts one alert for each low drive, in the order of
    the settings, and nothing else. *)
Theorem every_low_drive_is_alerted e m w
    (Hroom : room_for e m w (length (low_drives e (drives m))))
    (Htotals : no_zero_total e (drives m))
    (Hcharts : charts_return e) :
  fst (check_and_notify e m w) = Ok tt
  /\ exists new,
       http (snd (check_and_notify e m w)) = (http w ++ new)%list
       /\ map req_title new
          = map (fun d => alert_title (drive_path d)) (low_drives e (drives m)).
Proof.
  unfold check_and_notify.
  exact (loop_alerts_low_drives e m (drives m) Hcharts w Hroom Htotals).
Qed.




Lemma every_low_drive_is_alerted_witness :
  fst (check_and_notify sample_env
         (sample_monitor (Some 2) [root_drive; absent_drive]) clean_world)
  = Ok tt
  /\ exists new,
       http (snd (check_and_notify sample_env
                    (sample_monitor (Some 2) [root_drive; absent_drive])
                    clean_world))
       = (http clean_world ++ new)%list
       /\ map req_title new
          = map (fun d => alert_title (drive_path d))
              (low_drives sample_env
                 (drives (sample_monitor (Some 2) [root_drive; absent_drive]))).
Proof.
  apply (every_low_drive_is_alerted sample_env
           (sample_monitor (Some 2) [root_drive; absent_drive]) clean_world).
  - exists 0. split; [reflexivity|]. vm_compute. discriminate.
  - intros d total used free [<-|[<-|[]]] Hq; vm_compute in Hq;
      [|discriminate Hq].
    inversion Hq. discriminate.
  - right. intros p pts ex Hp. discriminate Hp.
Defined.

